(** * DxSentinelRef: the structural validator ([backend/core/vstructure])

    A shallow embedding of the validation pipeline: CSV loader (encoding,
    structure, batch reader), transformer (column parser, entity mapper, row
    transformer), comparator (metadata adapter, rule engine) and the report
    aggregator, followed by the properties proved about them.

    Conventions of the embedding.
    - A Python [str] is a [string]; every character stands for the code point
      of the same number, so the model covers text in U+0000..U+00FF and the
      [str] methods below are tabulated on that range.
    - A Python [int] is a [Z]; positions produced by [enumerate] are [nat].
    - [None] is [None]; a [dict] used only through lookups is a [gmap], a
      [dict] that is iterated is an association list in insertion order.
    - A call that may raise returns an [outcome]. *)

From Stdlib Require Import ZArith QArith Strings.String Strings.Ascii List Lia Bool.
From Stdlib Require Import Numbers.DecimalString.
From stdpp Require Import gmap strings list fin_maps.

Open Scope string_scope.
Open Scope list_scope.

(** ** Python strings *)

Module PyStr.

Definition ord (c : ascii) : N := N_of_ascii c.

(** [chr(n)] as a one-character string. *)
Definition chr (n : N) : string := String (ascii_of_N n) "".

Definition in_range (lo hi n : N) : bool := ((lo <=? n) && (n <=? hi))%N.

(** [ch.isspace()] on U+0000..U+00FF. *)
Definition isspace_char (c : ascii) : bool :=
  let n := ord c in
  in_range 9 13 n || in_range 28 32 n || (n =? 133)%N || (n =? 160)%N.

(** Characters with the Unicode property Uppercase. *)
Definition isupper_char (c : ascii) : bool :=
  let n := ord c in
  in_range 65 90 n || in_range 192 214 n || in_range 216 222 n.

(** Characters with the Unicode property Lowercase. *)
Definition islower_char (c : ascii) : bool :=
  let n := ord c in
  in_range 97 122 n || (n =? 170)%N || (n =? 181)%N || (n =? 186)%N
  || in_range 223 246 n || in_range 248 255 n.

(** Characters of a letter category. *)
Definition isalpha_char (c : ascii) : bool :=
  let n := ord c in
  in_range 65 90 n || in_range 97 122 n || (n =? 170)%N || (n =? 181)%N
  || (n =? 186)%N || in_range 192 214 n || in_range 216 246 n
  || in_range 248 255 n.

Definition isdigit_char (c : ascii) : bool := in_range 48 57 (ord c).

Definition lower_char (c : ascii) : ascii :=
  let n := ord c in
  if in_range 65 90 n || in_range 192 214 n || in_range 216 222 n
  then ascii_of_N (n + 32) else c.

Fixpoint lower (s : string) : string :=
  match s with
  | "" => ""
  | String c s' => String (lower_char c) (lower s')
  end.

Fixpoint forallb_str (p : ascii -> bool) (s : string) : bool :=
  match s with
  | "" => true
  | String c s' => p c && forallb_str p s'
  end.

Fixpoint existsb_str (p : ascii -> bool) (s : string) : bool :=
  match s with
  | "" => false
  | String c s' => p c || existsb_str p s'
  end.

(** [s.isalpha()]: non-empty and every character is a letter. *)
Definition isalpha (s : string) : bool :=
  negb (s =? "") && forallb_str isalpha_char s.

(** [s.isupper()]: no lowercase character and at least one uppercase one. *)
Definition isupper (s : string) : bool :=
  negb (existsb_str islower_char s) && existsb_str isupper_char s.

Fixpoint lstrip (s : string) : string :=
  match s with
  | "" => ""
  | String c s' => if isspace_char c then lstrip s' else s
  end.

Definition rstrip (s : string) : string :=
  String.rev (lstrip (String.rev s)).

(** [s.strip()] *)
Definition strip (s : string) : string := rstrip (lstrip s).

(** [c in s] for a single character [c]. *)
Definition contains_char (c : ascii) (s : string) : bool :=
  existsb_str (Ascii.eqb c) s.

(** [p in s] for a substring [p]. *)
Fixpoint contains (p s : string) : bool :=
  String.prefix p s ||
  match s with
  | "" => false
  | String _ s' => contains p s'
  end.

Definition startswith (s p : string) : bool := String.prefix p s.

(** [s.startswith((p1, p2, ...))] *)
Definition startswith_any (s : string) (ps : list string) : bool :=
  existsb (startswith s) ps.

(** The first piece of [s.split(sep)] and the remaining pieces. *)
Fixpoint split_ne (sep : ascii) (s : string) : string * list string :=
  match s with
  | "" => ("", [])
  | String c s' =>
      let '(p, ps) := split_ne sep s' in
      if Ascii.eqb c sep then ("", p :: ps) else (String c p, ps)
  end.

(** [s.split(sep)] for a one-character separator: never empty. *)
Definition split (sep : ascii) (s : string) : list string :=
  let '(p, ps) := split_ne sep s in p :: ps.

(** [s.split(sep, 1)] *)
Fixpoint split1 (sep : ascii) (s : string) : list string :=
  match s with
  | "" => [""]
  | String c s' =>
      if Ascii.eqb c sep then [""; s']
      else match split1 sep s' with
           | p :: ps => String c p :: ps
           | [] => [String c ""]
           end
  end.

(** [sep.join(parts)] *)
Definition join (sep : string) (parts : list string) : string :=
  String.concat sep parts.

(** [s.replace(a, b)] for single characters. *)
Fixpoint replace_char (a b : ascii) (s : string) : string :=
  match s with
  | "" => ""
  | String c s' => String (if Ascii.eqb c a then b else c) (replace_char a b s')
  end.

(** [str(n)] for an [int]. *)
Definition of_Z (n : Z) : string := NilEmpty.string_of_int (Z.to_int n).

Definition of_nat (n : nat) : string := of_Z (Z.of_nat n).

(** [len(s)] *)
Definition slen (s : string) : Z := Z.of_nat (String.length s).

(** [s[:n]] *)
Definition slice_to (n : nat) (s : string) : string := String.substring 0 n s.

Definition underscore : ascii := "_"%char.

End PyStr.

(** [len(l)] of a list. *)
Definition len {A} (l : list A) : Z := Z.of_nat (length l).

(** [enumerate(l)] *)
Definition enumerate {A} (l : list A) : list (nat * A) := imap pair l.

(** The result of a call that may raise: the value returned, or the name of
    the exception that escapes. *)
Inductive outcome (A : Type) : Type :=
| Returns (a : A)
| Raises (exc : string).
Arguments Returns {A} a.
Arguments Raises {A} exc.

(** ** Insertion-ordered dictionaries *)

Module OD.

Section Dict.
Context {K V : Type} `{EqDecision K}.

Definition t := list (K * V).

Fixpoint get (d : list (K * V)) (k : K) : option V :=
  match d with
  | [] => None
  | (k', v) :: d' => if decide (k' = k) then Some v else get d' k
  end.

Definition mem (d : list (K * V)) (k : K) : bool :=
  match get d k with Some _ => true | None => false end.

(** [d[k] = v]: overwrite in place, or append a new key at the end. *)
Fixpoint set (d : list (K * V)) (k : K) (v : V) : list (K * V) :=
  match d with
  | [] => [(k, v)]
  | (k', v') :: d' =>
      if decide (k' = k) then (k, v) :: d' else (k', v') :: set d' k v
  end.

Definition keys (d : list (K * V)) : list K := map fst d.

End Dict.

End OD.

(** ** csv_loader *)

Module CsvLoader.
Import PyStr.
Local Open Scope string_scope.

(** *** csv_loader/models.py *)

Inductive ErrorSeverity := FATAL | ERROR | WARNING.

Record NormalizedError := mkNormalizedError {
  code : string;
  severity : ErrorSeverity;
  message : string;
  row_index : option Z;
  column_index : option Z;
  value : option string
}.

Record CsvDialectInfo := mkCsvDialectInfo {
  delimiter : string;
  quotechar : string;
  escapechar : option string;
  doublequote : bool;
  skipinitialspace : bool
}.

(** [raw_data] and [data_stream] are filled in by the loader after the
    functions below have run and are not part of the record here. *)
Record CsvContext := mkCsvContext {
  encoding : string;
  dialect : CsvDialectInfo;
  columns : list string;
  total_columns : Z;
  errors : list NormalizedError;
  label_row_present : bool;
  data_start_index : Z
}.

(** *** csv_loader/errors.py *)

Module CsvLoaderErrors.

Definition empty_file : NormalizedError :=
  mkNormalizedError "EMPTY_FILE" FATAL
    ("Archivo CSV vac" ++ chr 237 ++ "o o sin contenido") None None None.

Definition missing_header_row : NormalizedError :=
  mkNormalizedError "MISSING_HEADER_ROW" FATAL
    ("No se encontr" ++ chr 243 ++ " la fila de identificadores t"
       ++ chr 233 ++ "cnicos (fila 1)") None None None.

Definition empty_column_name (row_index col_index : Z) : NormalizedError :=
  mkNormalizedError "EMPTY_COLUMN_NAME" FATAL
    ("Nombre de columna vac" ++ chr 237 ++ "o en header")
    (Some row_index) (Some col_index) None.

Definition duplicated_column (row_index col_index : Z) (column_name : string)
    : NormalizedError :=
  mkNormalizedError "DUPLICATED_COLUMN" FATAL
    ("Nombre de columna duplicado: '" ++ column_name ++ "'")
    (Some row_index) (Some col_index) (Some column_name).

Definition invalid_column_identifier (row_index col_index : Z)
    (column_name : string) : NormalizedError :=
  mkNormalizedError "INVALID_COLUMN_IDENTIFIER" FATAL
    ("Identificador de columna no v" ++ chr 225 ++ "lido: '" ++ column_name ++ "'")
    (Some row_index) (Some col_index) (Some column_name).

Definition label_column_mismatch (row_index expected actual : Z)
    : NormalizedError :=
  mkNormalizedError "LABEL_COLUMN_MISMATCH" ERROR
    ("Fila de etiquetas tiene " ++ of_Z actual ++ " columnas, se esperaban "
       ++ of_Z expected) (Some row_index) None None.

Definition no_data_rows : NormalizedError :=
  mkNormalizedError "NO_DATA_ROWS" WARNING
    "Golden Record sin datos (solo header y labels)" None None None.

Definition row_column_mismatch (row_index expected actual : Z)
    : NormalizedError :=
  mkNormalizedError "ROW_COLUMN_COUNT_MISMATCH" ERROR
    ("Fila tiene " ++ of_Z actual ++ " columnas, se esperaban " ++ of_Z expected)
    (Some row_index) None None.

Definition encoding_detection_failed : NormalizedError :=
  mkNormalizedError "ENCODING_DETECTION_FAILED" FATAL
    ("No se pudo detectar la codificaci" ++ chr 243 ++ "n del archivo")
    None None None.

Definition invalid_characters (row_index col_index : Z) : NormalizedError :=
  mkNormalizedError "INVALID_CHARACTERS" ERROR
    ("Caracteres inv" ++ chr 225 ++ "lidos en la codificaci" ++ chr 243
       ++ "n detectada") (Some row_index) (Some col_index) None.

End CsvLoaderErrors.

(** *** csv_loader/detector.py

    A file enters the model as the list of rows that [csv.reader] yields
    for it under the detected dialect; failures of [open] and of the CSV
    syntax are outside the model. *)

Module StructureDetector.
Import CsvLoaderErrors.

(** The loop of [_validate_header_row] from column [i] on. *)
Fixpoint validate_header_from (i : nat) (header_row : list string)
    (seen_columns : gset string) : option NormalizedError :=
  match header_row with
  | [] => None
  | column :: rest =>
      if (column =? "")%string || (strip column =? "")%string then
        Some (empty_column_name 0 (Z.of_nat i))
      else
        let column_str := strip column in
        if decide (column_str ∈ seen_columns) then
          Some (duplicated_column 0 (Z.of_nat i) column_str)
        else if negb (contains_char underscore column_str) then
          Some (invalid_column_identifier 0 (Z.of_nat i) column_str)
        else
          validate_header_from (S i) rest ({[column_str]} ∪ seen_columns)
  end.

Definition _validate_header_row (header_row : list string)
    : option NormalizedError :=
  match header_row with
  | [] => Some missing_header_row
  | _ => validate_header_from 0 header_row ∅
  end.

Definition _validate_data_row (data_row : list string)
    (expected_columns : Z) (row_index : Z) : option NormalizedError :=
  if negb (len data_row =? expected_columns)%Z
  then Some (row_column_mismatch row_index expected_columns (len data_row))
  else None.

Definition detect_structure (file : list (list string)) (encoding : string)
    (dialect_info : CsvDialectInfo)
    : option CsvContext * option NormalizedError :=
  let rows := take 3 file in
  match rows with
  | [] => (None, Some empty_file)
  | header :: _ =>
      match _validate_header_row header with
      | Some header_error => (None, Some header_error)
      | None =>
          let total_columns := len header in
          let errors : list NormalizedError := [] in
          let errors :=
            match rows !! 1%nat with
            | Some labels =>
                if negb (len labels =? total_columns)%Z
                then (errors ++ [label_column_mismatch 1 total_columns (len labels)])%list
                else errors
            | None => errors
            end in
          let errors :=
            match rows !! 2%nat with
            | Some data_row =>
                match _validate_data_row data_row total_columns 2 with
                | Some data_error => (errors ++ [data_error])%list
                | None => errors
                end
            | None => (errors ++ [no_data_rows])%list
            end in
          (Some (mkCsvContext encoding dialect_info header total_columns
                   errors true 2), None)
      end
  end.

End StructureDetector.

(** *** csv_loader/reader.py *)

Module BatchReader.
Import CsvLoaderErrors.

Definition BATCH_SIZE : Z := 10000.

(** The [for row in csv_reader] loop of the generator, run until the
    reader is exhausted: the batches yielded from this point on and the
    shared [errors] list at the end.  [batch] is the batch being filled
    and [errors] the list as it stands on entry. *)
Fixpoint read_rows (total_columns : Z) (rows : list (list string))
    (row_index : Z) (batch : list (list string))
    (errors : list NormalizedError)
    : list (list (list string)) * list NormalizedError :=
  match rows with
  | [] => (match batch with [] => [] | _ => [batch] end, errors)
  | row :: rest =>
      if negb (len row =? total_columns)%Z then
        read_rows total_columns rest (row_index + 1)%Z batch
          (errors ++ [row_column_mismatch row_index total_columns (len row)])%list
      else
        let batch := (batch ++ [row])%list in
        if (BATCH_SIZE <=? len batch)%Z then
          let '(batches, errors) :=
            read_rows total_columns rest (row_index + 1)%Z [] errors in
          (batch :: batches, errors)
        else
          read_rows total_columns rest (row_index + 1)%Z batch errors
  end.

(** [read_batches]: the batches of the generator in the order they are
    yielded, and the error list it has filled once it is exhausted. *)
Definition read_batches (file : list (list string)) (context : CsvContext)
    : list (list (list string)) * list NormalizedError :=
  let csv_reader := drop (Z.to_nat (data_start_index context)) file in
  read_rows (total_columns context) csv_reader (data_start_index context) [] [].

End BatchReader.

(** *** csv_loader/encoding.py

    [chardet.detect] and the codecs behind [bytes.decode] are library code:
    they enter as the record [Codecs]. *)

Module EncodingResolver.
Import CsvLoaderErrors.

(** The [encoding] entry of the dictionary [chardet.detect] returns is a
    string or [None]; its [confidence] is a number. *)
Record ChardetResult := mkChardetResult {
  detected : option string;
  confidence : Q
}.

Inductive DecodeResult := Decoded | UnicodeDecodeError | LookupError.

Record Codecs := mkCodecs {
  chardet_detect : list Byte.byte -> ChardetResult;
  (** [raw.decode(encoding, errors='strict')] *)
  decode_strict : string -> list Byte.byte -> DecodeResult;
  (** [raw.decode(encoding, errors='replace')]: [false] is [LookupError]. *)
  decode_replace : string -> list Byte.byte -> bool
}.

Definition ENCODING_PRIORITY : list string :=
  ["utf-8-sig"; "utf-8"; "latin-1"; "cp1252"; "iso-8859-1"].

(** [encoding_map.get(name, name)] *)
Definition encoding_map (name : string) : string :=
  if (name =? "utf-8")%string then "utf-8"
  else if (name =? "utf-8-sig")%string then "utf-8-sig"
  else if (name =? "ascii")%string then "utf-8"
  else if (name =? "windows-1252")%string then "cp1252"
  else if (name =? "iso-8859-1")%string then "latin-1"
  else name.

Definition decodes_strictly (env : Codecs) (raw_data : list Byte.byte)
    (encoding : string) : bool :=
  match decode_strict env encoding raw_data with
  | Decoded => true
  | _ => false
  end.

(** The two fallback loops and the final [return]. *)
Definition fallback (env : Codecs) (raw_data : list Byte.byte)
    : option string * option NormalizedError :=
  match find (decodes_strictly env raw_data) ENCODING_PRIORITY with
  | Some encoding => (Some encoding, None)
  | None =>
      match find (fun encoding => decode_replace env encoding raw_data)
              ENCODING_PRIORITY with
      | Some encoding => (Some encoding, Some (invalid_characters 0 0))
      | None => (None, Some encoding_detection_failed)
      end
  end.

(** [confidence > 0.7] *)
Definition high_confidence (c : Q) : bool := negb (Qle_bool c (7 # 10)).

Definition detect_encoding (env : Codecs) (file : list Byte.byte)
    : outcome (option string * option NormalizedError) :=
  let raw_data := take (Z.to_nat 10000) file in
  match raw_data with
  | [] => Returns (None, Some empty_file)
  | _ =>
      let result := chardet_detect env raw_data in
      match detected result with
      | None => Raises "AttributeError"
      | Some name =>
          let detected_encoding := lower name in
          if high_confidence (confidence result)
             && negb (detected_encoding =? "")%string then
            let normalized := encoding_map detected_encoding in
            if decodes_strictly env raw_data normalized
            then Returns (Some normalized, None)
            else Returns (fallback env raw_data)
          else Returns (fallback env raw_data)
      end
  end.

End EncodingResolver.

(** *** csv_loader/loader.py *)

Module Loader.

(** What [load_csv] reads of the file at [file_path]: whether it
    exists, its bytes, and, for the encoding [detect_encoding] settles
    on, the result of [DialectDetector.detect_dialect] and the rows
    [csv.reader] yields under the detected dialect.  The dialect
    detector is built on [csv.Sniffer] and regular expressions and
    enters by its result: the dialect when it returns no error, else
    the error. *)
Record FileView := mkFileView {
  file_exists : bool;
  file_bytes : list Byte.byte;
  detected_dialect : CsvDialectInfo + NormalizedError;
  file_rows : list (list string)
}.

(** The context [load_csv] returns, with the generator it stores in
    [context.data_stream] given by the batches it yields once it is
    consumed. *)
Record LoadedCsv := mkLoadedCsv {
  loaded_context : CsvContext;
  data_stream : list (list (list string))
}.

(** [load_csv].  [detect_encoding] returns no error only together with
    an encoding, so the [default] below is never used.  The generator
    of [read_batches] has not started when
    [context.errors.extend(read_errors)] runs: [read_errors] is still
    empty and the errors of the context stay as [detect_structure]
    left them. *)
Definition load_csv (env : EncodingResolver.Codecs) (file_path : string)
    (file : FileView) : outcome (option LoadedCsv * option string) :=
  if negb (file_exists file) then
    Returns (None, Some ("Archivo no encontrado: " ++ file_path))
  else
    match EncodingResolver.detect_encoding env (file_bytes file) with
    | Raises exc => Raises exc
    | Returns (_, Some encoding_error) =>
        Returns (None, Some ("Error de codificaci" ++ chr 243 ++ "n: "
                               ++ message encoding_error))
    | Returns (encoding, None) =>
        match detected_dialect file with
        | inr dialect_error =>
            Returns (None, Some ("Error de dialecto CSV: "
                                   ++ message dialect_error))
        | inl dialect_info =>
            match StructureDetector.detect_structure (file_rows file)
                    (default "" encoding) dialect_info with
            | (_, Some structure_error) =>
                Returns (None, Some ("Error de estructura: "
                                       ++ message structure_error))
            | (None, None) =>
                Returns (None, Some "No se pudo crear contexto CSV")
            | (Some context, None) =>
                let '(batch_generator, read_errors) :=
                  BatchReader.read_batches (file_rows file) context in
                Returns (Some (mkLoadedCsv context batch_generator), None)
            end
        end
    end.

End Loader.

End CsvLoader.

(** ** transformer *)

Module Transformer.
Import PyStr.
Local Open Scope string_scope.

(** *** transformer/models.py *)

Inductive TransformationSeverity := FATAL | ERROR | WARNING.

(** The [details] dictionaries carry either a reason or the parsed parts. *)
Record TransformationError := mkTransformationError {
  code : string;
  severity : TransformationSeverity;
  message : string;
  row_index : option Z;
  column_name : option string;
  value : option string;
  details : option (list (string * string))
}.

Record ParsedColumn := mkParsedColumn {
  original_name : string;
  element_id : string;
  field_id : string;
  is_country_specific : bool;
  country_code : option string;
  full_path : string
}.

(** The dataclass constructor followed by [__post_init__]. *)
Definition ParsedColumn_new (original_name element_id field_id : string)
    (is_country_specific : bool) (country_code : option string) : ParsedColumn :=
  mkParsedColumn original_name element_id field_id is_country_specific
    country_code (element_id ++ "." ++ field_id).

Record EntityData := mkEntityData {
  entity_id : string;
  columns : list ParsedColumn;
  field_mapping : list (string * ParsedColumn);
  column_index_mapping : list (nat * ParsedColumn)
}.

Definition EntityData_new (entity_id : string) : EntityData :=
  mkEntityData entity_id [] [] [].

Definition add_column (e : EntityData) (index : nat) (column : ParsedColumn)
    : EntityData :=
  mkEntityData (entity_id e)
    (columns e ++ [column])%list
    (OD.set (field_mapping e) (field_id column) column)
    (OD.set (column_index_mapping e) index column).

Record TransformedRow := mkTransformedRow {
  original_row_index : Z;
  csv_row_index : Z;
  data_by_entity : list (string * list (string * string));
  raw_values : list string;
  errors : list TransformationError
}.

Record TransformationContext := mkTransformationContext {
  csv_context : CsvLoader.CsvContext;
  parsed_columns : list ParsedColumn;
  entities : list (string * EntityData);
  column_to_entity_map : list (nat * string);
  context_errors : list TransformationError
}.

(** [TransformationContext.get_entity_for_column]: the keys of
    [column_to_entity_map] are the positions [enumerate] produced, so a
    negative [column_index] finds nothing. *)
Definition get_entity_for_column (self : TransformationContext)
    (column_index : Z) : option string :=
  if (column_index <? 0)%Z then None
  else OD.get (column_to_entity_map self) (Z.to_nat column_index).

(** [TransformationContext.get_column_info] *)
Definition get_column_info (self : TransformationContext)
    (column_index : Z) : option ParsedColumn :=
  match get_entity_for_column self column_index with
  | Some entity_id =>
      if negb (entity_id =? "")%string && OD.mem (entities self) entity_id then
        match OD.get (entities self) entity_id with
        | Some entity_data =>
            if (column_index <? 0)%Z then None
            else OD.get (column_index_mapping entity_data)
                   (Z.to_nat column_index)
        | None => None
        end
      else None
  | None => None
  end.

Record BatchTransformationResult := mkBatchTransformationResult {
  transformed_rows : list TransformedRow;
  batch_errors : list TransformationError;
  batch_index : Z
}.

(** *** transformer/errors.py *)

Module TransformerErrors.

Definition invalid_column_composition (column_name details : string)
    : TransformationError :=
  mkTransformationError "INVALID_COLUMN_COMPOSITION" ERROR
    ("Identificador de columna no v" ++ chr 225 ++ "lido: '" ++ column_name ++ "'")
    None (Some column_name) None (Some [("reason", details)]).

Definition row_transformation_error (row_index : Z) (col_index : nat)
    (error_msg : string) : TransformationError :=
  mkTransformationError "ROW_TRANSFORMATION_ERROR" ERROR
    ("Error transformando fila " ++ of_Z row_index ++ ", columna "
       ++ of_nat col_index ++ ": " ++ error_msg)
    (Some row_index) (Some ("col_" ++ of_nat col_index)) None None.

End TransformerErrors.

(** *** transformer/column_parser.py *)

Module ColumnParser.
Import TransformerErrors.

Definition COMPOUND_ELEMENTS : list string :=
  ["homeAddress_home"; "homeAddress_fiscal";
   "workPermitInfo_RFC"; "workPermitInfo_IMMS";
   "globalInfo"; "biographicalInfoLoc"].

Definition in_set (s : string) (l : list string) : bool :=
  existsb (String.eqb s) l.

(** Both trailing branches of the source return [True]: membership in
    [common_countries] does not change the answer. *)
Definition _looks_like_country_code (code : string) : bool :=
  if (code =? "")%string then false
  else if negb ((2 <=? String.length code) && (String.length code <=? 3))%nat then false
  else if negb (isupper code) then false
  else if negb (isalpha code) then false
  else true.

Definition parse_column (column_name : string)
    : option ParsedColumn * option TransformationError :=
  if (column_name =? "")%string then
    (None, Some (invalid_column_composition column_name
                   ("Nombre de columna vac" ++ chr 237 ++ "o o no string")))
  else
  let column_name := strip column_name in
  if negb (contains_char underscore column_name) then
    (None, Some (invalid_column_composition column_name
                   ("Formato inv" ++ chr 225 ++ "lido: debe contener '_'")))
  else
  let parts := split underscore column_name in
  let n := length parts in
  let part (i : nat) : string := nth i parts "" in
  (** The four variables assigned by the branches, or the error returned
      from inside them. *)
  let resolved : (bool * option string * string * string) + TransformationError :=
    if (3 <=? n)%nat && _looks_like_country_code (part 0) then
      let country_code := Some (part 0) in
      if (4 <=? n)%nat then
        let potential_compound := part 1 ++ "_" ++ part 2 in
        if in_set potential_compound COMPOUND_ELEMENTS
        then inl (true, country_code, potential_compound, join "_" (drop 3 parts))
        else inl (true, country_code, part 1, join "_" (drop 2 parts))
      else if (n =? 3)%nat then
        inl (true, country_code, part 1, part 2)
      else
        inr (invalid_column_composition column_name
               ("Formato CSF inv" ++ chr 225 ++ "lido: " ++ of_nat n ++ " partes"))
    else
      if (2 <=? n)%nat then
        let potential_compound := part 0 ++ "_" ++ part 1 in
        if in_set potential_compound COMPOUND_ELEMENTS && (3 <=? n)%nat
        then inl (false, None, potential_compound, join "_" (drop 2 parts))
        else inl (false, None, part 0, join "_" (drop 1 parts))
      else
        inr (invalid_column_composition column_name
               ("Partes insuficientes: " ++ of_nat n))
  in
  match resolved with
  | inr e => (None, Some e)
  | inl (is_country_specific, country_code, element_id, field_id) =>
      if (element_id =? "")%string then
        (None, Some (invalid_column_composition column_name
                       ("Elemento vac" ++ chr 237 ++ "o")))
      else if (field_id =? "")%string then
        (None, Some (invalid_column_composition column_name
                       ("Campo vac" ++ chr 237 ++ "o")))
      else
        (Some (ParsedColumn_new column_name element_id field_id
                 is_country_specific country_code), None)
  end.

(** One turn of the loop body: the column appended and the error, if any. *)
Definition parse_one (col_index : nat) (column_name : string)
    : ParsedColumn * option TransformationError :=
  match parse_column column_name with
  | (_, Some error) =>
      (ParsedColumn_new column_name ("ERROR_" ++ of_nat col_index)
         column_name false None, Some error)
  | (Some parsed_column, None) => (parsed_column, None)
  | (None, None) =>
      (ParsedColumn_new column_name ("UNKNOWN_" ++ of_nat col_index)
         column_name false None,
       Some (invalid_column_composition column_name
               ("Parseo retorn" ++ chr 243 ++ " None sin error")))
  end.

Fixpoint parse_all_columns_from (col_index : nat) (column_names : list string)
    (parsed_columns : list ParsedColumn) (errors : list TransformationError)
    : list ParsedColumn * list TransformationError :=
  match column_names with
  | [] => (parsed_columns, errors)
  | column_name :: rest =>
      let '(col, err) := parse_one col_index column_name in
      parse_all_columns_from (S col_index) rest
        (parsed_columns ++ [col])%list
        (match err with Some e => (errors ++ [e])%list | None => errors end)
  end.

Definition parse_all_columns (column_names : list string)
    : list ParsedColumn * list TransformationError :=
  parse_all_columns_from 0 column_names [] [].

End ColumnParser.

(** *** transformer/entity_mapper.py *)

Module EntityMapper.

(** The loop of [map_columns_to_entities] from column [col_index] on.
    A [ParsedColumn] is never falsy, so the [if not column] branch of the
    source is dead and the error list it would fill stays empty. *)
Fixpoint map_columns_from (col_index : nat) (parsed_columns : list ParsedColumn)
    (entities : list (string * EntityData))
    (column_to_entity_map : list (nat * string))
    : list (string * EntityData) * list (nat * string) :=
  match parsed_columns with
  | [] => (entities, column_to_entity_map)
  | column :: rest =>
      let entity_id := element_id column in
      let entities :=
        if OD.mem entities entity_id then entities
        else OD.set entities entity_id (EntityData_new entity_id) in
      let entities :=
        match OD.get entities entity_id with
        | Some e => OD.set entities entity_id (add_column e col_index column)
        | None => entities
        end in
      map_columns_from (S col_index) rest entities
        (OD.set column_to_entity_map col_index entity_id)
  end.

Definition map_columns_to_entities (parsed_columns : list ParsedColumn)
    : list (string * EntityData) * list (nat * string)
      * list TransformationError :=
  let '(entities, column_to_entity_map) :=
    map_columns_from 0 parsed_columns [] [] in
  (entities, column_to_entity_map, []).

(** The [EMPTY_ENTITY] warning [validate_entity_structure] builds. *)
Definition empty_entity (entity_id : string) : TransformationError :=
  mkTransformationError "EMPTY_ENTITY" WARNING
    ("Entidad '" ++ entity_id ++ "' no tiene columnas asignadas")
    None None None (Some [("entity_id", entity_id)]).

(** The [DUPLICATE_FIELD_IN_ENTITY] warning it builds; [count], an
    [int] in the [details] of the source, is stored there as its
    decimal rendering. *)
Definition duplicate_field_in_entity (entity_id field_id : string)
    (count : Z) : TransformationError :=
  mkTransformationError "DUPLICATE_FIELD_IN_ENTITY" WARNING
    ("Campo '" ++ field_id ++ "' aparece " ++ of_Z count
       ++ " veces en entidad '" ++ entity_id ++ "'")
    None None None
    (Some [("entity_id", entity_id); ("field_id", field_id);
           ("count", of_Z count)]).

(** The dictionary [field_counts] of one entity. *)
Definition field_counts (columns : list ParsedColumn) : list (string * Z) :=
  fold_left
    (fun counts column =>
       OD.set counts (field_id column)
         (default 0 (OD.get counts (field_id column)) + 1)%Z)
    columns [].

(** The body of the loop of [validate_entity_structure] for one entity. *)
Definition validate_entity (entity_id : string) (entity_data : EntityData)
    : list TransformationError :=
  ((match columns entity_data with
    | [] => [empty_entity entity_id]
    | _ => []
    end)
   ++ flat_map
        (fun '(field_id, count) =>
           if (1 <? count)%Z
           then [duplicate_field_in_entity entity_id field_id count]
           else [])
        (field_counts (columns entity_data)))%list.

Definition validate_entity_structure (entities : list (string * EntityData))
    : list TransformationError :=
  flat_map (fun '(entity_id, entity_data) =>
              validate_entity entity_id entity_data) entities.

End EntityMapper.

(** *** transformer/row_transformer.py *)

Module RowTransformer.
Import TransformerErrors.

(** The loop over [enumerate(row_values)] from column [col_index] on;
    the state is the row's [data_by_entity] and [errors]. *)
Fixpoint transform_cells (row_index : Z) (col_index : nat)
    (row_values : list string)
    (column_to_entity_map : list (nat * string))
    (entities : list (string * EntityData))
    (data : list (string * list (string * string)))
    (errs : list TransformationError)
    : list (string * list (string * string)) * list TransformationError :=
  match row_values with
  | [] => (data, errs)
  | value :: rest =>
      let continue data errs :=
        transform_cells row_index (S col_index) rest column_to_entity_map
          entities data errs in
      let fail msg :=
        continue data (errs ++ [row_transformation_error row_index col_index msg])%list in
      if (len column_to_entity_map <=? Z.of_nat col_index)%Z then
        fail (chr 205 ++ "ndice de columna " ++ of_nat col_index ++ " fuera de rango")
      else
        match OD.get column_to_entity_map col_index with
        | None => fail "Columna no mapeada a entidad"
        | Some entity_id =>
            if (entity_id =? "")%string then fail "Columna no mapeada a entidad"
            else
              match OD.get entities entity_id with
              | None => fail ("Entidad '" ++ entity_id ++ "' no encontrada")
              | Some entity_data =>
                  match OD.get (column_index_mapping entity_data) col_index with
                  | None =>
                      fail ("Columna no encontrada en entidad '" ++ entity_id ++ "'")
                  | Some column_info =>
                      let inner := default [] (OD.get data entity_id) in
                      continue
                        (OD.set data entity_id
                           (OD.set inner (field_id column_info) value))
                        errs
                  end
              end
        end
  end.

Definition transform_row (row_values : list string) (row_index : Z)
    (csv_start_index : Z)
    (column_to_entity_map : list (nat * string))
    (entities : list (string * EntityData)) : TransformedRow :=
  let data0 :=
    fold_left (fun d entity_id => OD.set d entity_id []) (OD.keys entities) [] in
  let '(data, errs) :=
    transform_cells row_index 0 row_values column_to_entity_map entities
      data0 [] in
  mkTransformedRow row_index (csv_start_index + row_index)%Z data row_values errs.

(** The loop of [transform_batch] from offset [row_offset] on;
    [batch_len] is [len(batch_rows)], the same at every turn. *)
Fixpoint transform_batch_from (row_offset : Z) (rows : list (list string))
    (batch_len : Z) (batch_index : Z) (csv_start_index : Z)
    (column_to_entity_map : list (nat * string))
    (entities : list (string * EntityData)) : list TransformedRow :=
  match rows with
  | [] => []
  | row_values :: rest =>
      let absolute_row_index := (batch_index * batch_len + row_offset)%Z in
      transform_row row_values absolute_row_index csv_start_index
        column_to_entity_map entities
      :: transform_batch_from (row_offset + 1)%Z rest batch_len batch_index
           csv_start_index column_to_entity_map entities
  end.

Definition transform_batch (batch_rows : list (list string)) (batch_index : Z)
    (csv_start_index : Z)
    (column_to_entity_map : list (nat * string))
    (entities : list (string * EntityData)) : list TransformedRow :=
  transform_batch_from 0 batch_rows (len batch_rows) batch_index
    csv_start_index column_to_entity_map entities.

End RowTransformer.

(** *** transformer/context_builder.py *)

Module ContextBuilder.

(** The [metadata] dictionary the source attaches is derived from the
    five arguments and is left out. *)
Definition build_context (csv_context : CsvLoader.CsvContext)
    (parsed_columns : list ParsedColumn)
    (entities : list (string * EntityData))
    (column_to_entity_map : list (nat * string))
    (transformation_errors : list TransformationError)
    : TransformationContext :=
  mkTransformationContext csv_context parsed_columns entities
    column_to_entity_map transformation_errors.

End ContextBuilder.

(** *** transformer/orchestrator.py *)

Module TransformationOrchestrator.

(** Nothing called inside the [try] raises in this model. *)
Definition _transform_batch (batch_rows : list (list string))
    (batch_index : Z) (context : TransformationContext)
    : BatchTransformationResult :=
  let transformed_rows :=
    RowTransformer.transform_batch batch_rows batch_index
      (CsvLoader.data_start_index (csv_context context))
      (column_to_entity_map context) (entities context) in
  mkBatchTransformationResult transformed_rows
    (flat_map errors transformed_rows) batch_index.

(** [transform_csv_context]: nothing called inside the [try] raises in
    this model.  The [transform_batch] attribute the source attaches
    to the context is [_transform_batch] applied to it. *)
Definition transform_csv_context (csv_context : CsvLoader.CsvContext)
    : option TransformationContext * option string :=
  let '(parsed_columns, parse_errors) :=
    ColumnParser.parse_all_columns (CsvLoader.columns csv_context) in
  match parsed_columns with
  | [] => (None, Some "No se pudieron parsear columnas del CSV")
  | _ =>
      let '(entities, column_to_entity_map, mapping_errors) :=
        EntityMapper.map_columns_to_entities parsed_columns in
      let validation_errors :=
        EntityMapper.validate_entity_structure entities in
      let all_errors :=
        (parse_errors ++ mapping_errors ++ validation_errors)%list in
      (Some (ContextBuilder.build_context csv_context parsed_columns
               entities column_to_entity_map all_errors), None)
  end.

End TransformationOrchestrator.

End Transformer.

(** ** comparator *)

Module Comparator.
Import PyStr.
Local Open Scope string_scope.

(** *** comparator/models.py *)

Inductive ValidationSeverity := FATAL | ERROR | WARNING.

Inductive ValidationScope := GLOBAL | ENTITY | ROW | FIELD.

(** The values stored in [expected] and [actual]. *)
Inductive PyValue := PyString (s : string) | PyInt (n : Z).

Record ValidationError := mkValidationError {
  err_code : string;
  err_severity : ValidationSeverity;
  err_message : string;
  err_scope : ValidationScope;
  err_row_index : option Z;
  err_csv_row_index : option Z;
  err_entity_id : option string;
  err_field_id : option string;
  err_column_name : option string;
  err_expected : option PyValue;
  err_actual : option PyValue;
  err_metadata_path : option string;
  err_details : option (list (string * string));
  err_person_id_external : option string
}.

(** [metadata_node], a reference back to the schema node, and
    [allowed_values], which the adapter never assigns, are left out. *)
Record FieldMetadata := mkFieldMetadata {
  fm_element_id : string;
  fm_field_id : string;
  fm_full_path : string;
  fm_is_required : bool;
  fm_data_type : option string;
  fm_max_length : option Z;
  fm_pattern : option string;
  fm_is_country_specific : bool;
  fm_country_code : option string;
  fm_attributes : gmap string string
}.

Record EntityMetadata := mkEntityMetadata {
  em_entity_id : string;
  em_fields : gmap string FieldMetadata;
  em_required_fields : gset string;
  em_is_country_specific : bool;
  em_country_code : option string
}.

Definition EntityMetadata_new (entity_id : string) (is_country_specific : bool)
    (country_code : option string) : EntityMetadata :=
  mkEntityMetadata entity_id ∅ ∅ is_country_specific country_code.

(** [entities] is iterated by the rule [required_columns] and keeps its
    insertion order; [field_by_full_path] is only looked up. *)
Record MetadataContext := mkMetadataContext {
  source_instance : string;
  source_version : string;
  mc_entities : list (string * EntityMetadata);
  field_by_full_path : gmap string FieldMetadata
}.

Record ValidationContext := mkValidationContext {
  transform_context : Transformer.TransformationContext;
  metadata_context : MetadataContext;
  enabled_rules : list string
}.

(** [validation_time] is a clock difference and is left out. *)
Record BatchValidationResult := mkBatchValidationResult {
  batch_index : Z;
  processed_rows : Z;
  batch_errors : list ValidationError
}.

(** *** comparator/errors.py *)

Module ComparatorErrors.

Definition missing_metadata_for_field (field_path : string) : ValidationError :=
  mkValidationError "MISSING_METADATA_FOR_FIELD" WARNING
    ("No se encontr" ++ chr 243 ++ " metadata para campo: " ++ field_path)
    GLOBAL None None None None None None None (Some field_path) None None.

Definition required_value_missing (row_index csv_row_index : Z)
    (entity_id field_id column_name : string)
    (person_id_external : option string) : ValidationError :=
  mkValidationError "REQUIRED_VALUE_MISSING" ERROR
    ("Valor requerido faltante en " ++ entity_id ++ "." ++ field_id)
    ROW (Some row_index) (Some csv_row_index) (Some entity_id)
    (Some field_id) (Some column_name) None None None None
    person_id_external.

Definition max_length_exceeded (row_index csv_row_index : Z)
    (entity_id field_id column_name : string) (max_length actual_length : Z)
    (value : string) (person_id_external : option string) : ValidationError :=
  mkValidationError "MAX_LENGTH_EXCEEDED" ERROR
    ("Longitud m" ++ chr 225 ++ "xima excedida en " ++ entity_id ++ "."
       ++ field_id ++ ": m" ++ chr 225 ++ "ximo " ++ of_Z max_length
       ++ ", actual " ++ of_Z actual_length)
    FIELD (Some row_index) (Some csv_row_index) (Some entity_id)
    (Some field_id) (Some column_name) (Some (PyInt max_length))
    (Some (PyInt actual_length)) None
    (Some [("truncated_value",
            if (50 <? slen value)%Z then slice_to 50 value ++ "..." else value)])
    person_id_external.

Definition rule_execution_failed (rule_id details : string)
    (person_id_external : option string) : ValidationError :=
  mkValidationError "RULE_EXECUTION_FAILED" FATAL
    ("Fallo en ejecuci" ++ chr 243 ++ "n de regla '" ++ rule_id ++ "': " ++ details)
    GLOBAL None None None None None None None None
    (Some [("rule_id", rule_id)]) person_id_external.

Definition required_column_missing (entity_id field_id : string)
    (person_id_external : option string) : ValidationError :=
  mkValidationError "REQUIRED_COLUMN_MISSING" ERROR
    ("Columna requerida faltante: " ++ entity_id ++ "." ++ field_id)
    ENTITY None None (Some entity_id) (Some field_id) None None None None
    None person_id_external.

End ComparatorErrors.

(** *** comparator/context_adapter.py *)

(** A node of the schema snapshot as the walk reads it: [tag],
    [technical_id] (empty when missing or [None]), the attribute
    dictionary the source calls [raw_attributes], [node_type] and
    [children]. *)
#[local] Set Warnings "-register-all".
Inductive Node := mkNode {
  tag : string;
  technical_id : string;
  raw_attributes : gmap string string;
  node_type : string;
  children : list Node
}.

Module MetadataAdapter.

(** [a or b] on strings *)
Definition str_or (a b : string) : string :=
  if (a =? "")%string then b else a.

Fixpoint digits_value (acc : Z) (s : string) : Z :=
  match s with
  | "" => acc
  | String c s' =>
      if Ascii.eqb c underscore then digits_value acc s'
      else digits_value (10 * acc + Z.of_N (ord c - 48))%Z s'
  end.

(** Digits with single underscores between them, starting at a digit
    when [after_digit] is [false]. *)
Fixpoint digits_ok (after_digit : bool) (s : string) : bool :=
  match s with
  | "" => after_digit
  | String c s' =>
      if isdigit_char c then digits_ok true s'
      else if Ascii.eqb c underscore then after_digit && digits_ok false s'
      else false
  end.

(** [int(s)] for a string: [None] stands for [ValueError]. *)
Definition py_int (s : string) : option Z :=
  let s := strip s in
  let '(sign, body) :=
    match s with
    | String "-" b => ((-1)%Z, b)
    | String "+" b => (1%Z, b)
    | _ => (1%Z, s)
    end in
  if digits_ok false body then Some (sign * digits_value 0 body)%Z else None.

Definition _parse_max_length (max_length_str : option string) : option Z :=
  match max_length_str with
  | None => None
  | Some s => if (s =? "")%string then None else py_int (strip s)
  end.

Definition is_scoped (e : EntityMetadata) : bool :=
  em_is_country_specific e &&
  match em_country_code e with
  | Some c => negb (c =? "")%string
  | None => false
  end.

Definition set_entities (ctx : MetadataContext)
    (entities : list (string * EntityMetadata)) : MetadataContext :=
  mkMetadataContext (source_instance ctx) (source_version ctx) entities
    (field_by_full_path ctx).

Definition set_index (ctx : MetadataContext)
    (index : gmap string FieldMetadata) : MetadataContext :=
  mkMetadataContext (source_instance ctx) (source_version ctx)
    (mc_entities ctx) index.

(** [entity.fields[field_id] = m], then [required_fields.add(field_id)]
    when [required]. *)
Definition add_field (e : EntityMetadata) (field_id : string)
    (m : FieldMetadata) (required : bool) : EntityMetadata :=
  mkEntityMetadata (em_entity_id e) (<[field_id := m]> (em_fields e))
    (if required then {[field_id]} ∪ em_required_fields e
     else em_required_fields e)
    (em_is_country_specific e) (em_country_code e).

(** [entities[entity_id]] changed where it stands in the dictionary, as
    the assignments to its [fields] and [required_fields] do. *)
Definition update_entity (entities : list (string * EntityMetadata))
    (entity_id : string) (f : EntityMetadata -> EntityMetadata)
    : list (string * EntityMetadata) :=
  match OD.get entities entity_id with
  | Some e => OD.set entities entity_id (f e)
  | None => entities
  end.

(** The [hris-element] branch: the context and the new [parent_element]. *)
Definition process_element (node : Node) (ctx : MetadataContext)
    (parent_element : option string) : MetadataContext * option string :=
  let element_id :=
    str_or (technical_id node) (default "" (raw_attributes node !! "id")) in
  if (element_id =? "")%string then (ctx, parent_element)
  else
    let data_country := raw_attributes node !! "data-country" in
    let data_origin := default "" (raw_attributes node !! "data-origin") in
    let is_country_specific := (data_origin =? "csf")%string in
    let country_code :=
      match data_country with
      | Some c =>
          if (c =? "")%string || (c =? "UNKNOWN")%string then None else Some c
      | None => None
      end in
    let is_country_specific :=
      match country_code with
      | None => false
      | Some _ => is_country_specific
      end in
    let ctx :=
      match OD.get (mc_entities ctx) element_id with
      | Some _ => ctx
      | None =>
          set_entities ctx
            (OD.set (mc_entities ctx) element_id
               (EntityMetadata_new element_id is_country_specific country_code))
      end in
    (ctx, Some element_id).

(** The [hris-field] branch. *)
Definition process_field (node : Node) (ctx : MetadataContext)
    (parent_element : option string) : MetadataContext * option string :=
  match parent_element with
  | None => (ctx, parent_element)
  | Some parent =>
      if (parent =? "")%string then (ctx, parent_element) else
      let field_id :=
        str_or (technical_id node) (default "" (raw_attributes node !! "id")) in
      if (field_id =? "")%string then (ctx, parent_element) else
      let required :=
        (lower (default "false" (raw_attributes node !! "required")) =? "true")%string in
      let data_type := raw_attributes node !! "type" in
      let max_length := _parse_max_length (raw_attributes node !! "max-length") in
      let pattern := raw_attributes node !! "pattern" in
      match OD.get (mc_entities ctx) parent with
      | Some entity_meta =>
          if is_scoped entity_meta then
            let country := default "" (em_country_code entity_meta) in
            let internal_full_path := parent ++ "_" ++ field_id in
            let csv_full_path := country ++ "_" ++ parent ++ "_" ++ field_id in
            let internal_field_metadata :=
              mkFieldMetadata parent field_id internal_full_path required
                data_type max_length pattern true
                (em_country_code entity_meta) (raw_attributes node) in
            let csv_field_metadata :=
              mkFieldMetadata (country ++ "_" ++ parent) field_id csv_full_path
                required data_type max_length pattern true
                (em_country_code entity_meta) (raw_attributes node) in
            let index :=
              <[csv_full_path := csv_field_metadata]>
                (<[internal_full_path := internal_field_metadata]>
                   (field_by_full_path ctx)) in
            let country_element_id := country ++ "_" ++ parent in
            let entities := mc_entities ctx in
            let entities :=
              match OD.get entities country_element_id with
              | Some _ => entities
              | None =>
                  OD.set entities country_element_id
                    (EntityMetadata_new country_element_id true
                       (em_country_code entity_meta))
              end in
            let entities :=
              update_entity entities parent
                (fun e => add_field e field_id internal_field_metadata required) in
            let entities :=
              update_entity entities country_element_id
                (fun e => add_field e field_id csv_field_metadata required) in
            (mkMetadataContext (source_instance ctx) (source_version ctx)
               entities index, parent_element)
          else
            let full_path := parent ++ "_" ++ field_id in
            let field_metadata :=
              mkFieldMetadata parent field_id full_path required data_type
                max_length pattern
                (startswith_any parent ["MEX_"; "USA_"; "BRA_"; "NADRO_"])
                (if contains_char underscore parent
                 then head (split underscore parent) else None)
                (raw_attributes node) in
            (mkMetadataContext (source_instance ctx) (source_version ctx)
               (update_entity (mc_entities ctx) parent
                  (fun e => add_field e field_id field_metadata required))
               (<[full_path := field_metadata]> (field_by_full_path ctx)),
             parent_element)
      | None =>
          let full_path := parent ++ "_" ++ field_id in
          let field_metadata :=
            mkFieldMetadata parent field_id full_path required data_type
              max_length pattern
              (startswith_any parent ["MEX_"; "USA_"; "BRA_"; "NADRO_"])
              (if contains_char underscore parent
               then head (split underscore parent) else None)
              (raw_attributes node) in
          (set_index ctx (<[full_path := field_metadata]> (field_by_full_path ctx)),
           parent_element)
      end
  end.

(** The branch for other nodes of type [element] that carry an id. *)
Definition process_other_element (node : Node) (ctx : MetadataContext)
    : MetadataContext * option string :=
  let element_id := technical_id node in
  let ctx :=
    match OD.get (mc_entities ctx) element_id with
    | Some _ => ctx
    | None =>
        if startswith_any element_id ["workPermitInfo_"; "homeAddress_"]
        then set_entities ctx
               (OD.set (mc_entities ctx) element_id
                  (EntityMetadata_new element_id false None))
        else ctx
    end in
  (ctx, Some element_id).

(** The depth-first walk.  It returns the context as the walk has
    mutated it and the [parent_element] it hands back to its caller;
    [current_path] is built by the source and never read. *)
Fixpoint _extract_field_metadata (node : Node) (ctx : MetadataContext)
    (parent_element : option string) : MetadataContext * option string :=
  let walk_children (st : MetadataContext * option string) :=
    fold_left (fun st child => _extract_field_metadata child (fst st) (snd st))
      (children node) st in
  let node_tag := lower (tag node) in
  if contains "hris-element" node_tag then
    walk_children (process_element node ctx parent_element)
  else if contains "hris-field" node_tag then
    process_field node ctx parent_element
  else if (node_type node =? "element")%string
          && negb (technical_id node =? "")%string then
    walk_children (process_other_element node ctx)
  else
    walk_children (ctx, parent_element).

(** [_extract_from_xml_document] runs the same walk, as the nested
    function [process_node], from the root of the document. *)
Definition _extract_from_xml_document (root : Node) (ctx : MetadataContext)
    : MetadataContext :=
  fst (_extract_field_metadata root ctx None).

Definition adapt_parsed_metadata (structure : Node)
    (instance_id version : string) : MetadataContext :=
  fst (_extract_field_metadata structure
         (mkMetadataContext instance_id version [] ∅) None).

End MetadataAdapter.

(** *** comparator/validators/base_rule.py *)

(** The keyword arguments of [validate]; a GLOBAL or ENTITY rule is called
    with the context alone, that is with [no_args]. *)
Record RuleArgs := mkRuleArgs {
  arg_entity_id : option string;
  arg_field_metadata : option FieldMetadata;
  arg_value : option string;
  arg_row_index : option Z;
  arg_csv_row_index : option Z;
  arg_column_name : option string;
  arg_person_id_external : option string
}.

Definition no_args : RuleArgs :=
  mkRuleArgs None None None None None None None.

(** The interface [BaseRule].  Either method may raise; [Raises msg]
    carries [str(e)] of the exception. *)
Record BaseRule := mkBaseRule {
  rule_id : string;
  scope : ValidationScope;
  should_skip : option FieldMetadata -> option string -> outcome bool;
  validate : ValidationContext -> RuleArgs -> outcome (list ValidationError)
}.

(** *** comparator/validators/not_null.py and max_length.py *)

Module Validators.
Import ComparatorErrors.

Definition is_null_or_empty (value : option string) : bool :=
  match value with
  | None => true
  | Some v => (strip v =? "")%string
  end.

Definition NotNullRule : BaseRule :=
  mkBaseRule "not_null" FIELD
    (fun field_metadata _ =>
       match field_metadata with
       | Some m => Returns (negb (fm_is_required m))
       | None => Returns false
       end)
    (fun _ a =>
       match arg_field_metadata a with
       | None => Returns []
       | Some m =>
           if negb (fm_is_required m) then Returns [] else
           match arg_entity_id a, arg_row_index a, arg_csv_row_index a with
           | Some entity_id, Some row_index, Some csv_row_index =>
               if is_null_or_empty (arg_value a) then
                 Returns
                   [required_value_missing row_index csv_row_index entity_id
                      (fm_field_id m)
                      (match arg_column_name a with
                       | Some c =>
                           if (c =? "")%string
                           then entity_id ++ "_" ++ fm_field_id m else c
                       | None => entity_id ++ "_" ++ fm_field_id m
                       end)
                      (arg_person_id_external a)]
               else Returns []
           | _, _, _ => Returns []
           end
       end).

Definition MaxLengthRule : BaseRule :=
  mkBaseRule "max_length" FIELD
    (fun field_metadata value =>
       match field_metadata with
       | None => Returns true
       | Some m =>
           match fm_max_length m with
           | None => Returns true
           | Some _ =>
               match value with None => Returns true | Some _ => Returns false end
           end
       end)
    (fun _ a =>
       match arg_field_metadata a with
       | None => Returns []
       | Some m =>
           match fm_max_length m, arg_value a with
           | Some max_length, Some value =>
               match arg_entity_id a, arg_row_index a, arg_csv_row_index a with
               | Some entity_id, Some row_index, Some csv_row_index =>
                   let actual_length := slen value in
                   if (max_length <? actual_length)%Z then
                     Returns
                       [max_length_exceeded row_index csv_row_index entity_id
                          (fm_field_id m)
                          (match arg_column_name a with
                           | Some c =>
                               if (c =? "")%string
                               then entity_id ++ "_" ++ fm_field_id m else c
                           | None => entity_id ++ "_" ++ fm_field_id m
                           end)
                          max_length actual_length value
                          (arg_person_id_external a)]
                   else Returns []
               | _, _, _ => Returns []
               end
           | _, _ => Returns []
           end
       end).

(** comparator/validators/required_column.py.  The rule reads the
    context alone.  Its errors come entity by entity, in the order of
    the dictionary of metadata entities; within an entity they follow
    the iteration of the set [required_fields], an order Python leaves
    open and [elements] stands for. *)
Definition RequiredColumnRule : BaseRule :=
  mkBaseRule "required_columns" ENTITY
    (fun _ _ => Returns false)
    (fun context _ =>
       Returns
         (flat_map
            (fun '(meta_entity_id, meta_entity) =>
               match OD.get
                       (Transformer.entities (transform_context context))
                       meta_entity_id with
               | None =>
                   map (fun field_id =>
                          required_column_missing meta_entity_id field_id None)
                     (elements (em_required_fields meta_entity))
               | Some transform_entity =>
                   flat_map
                     (fun field_id =>
                        let field_exists :=
                          existsb
                            (fun col =>
                               (Transformer.field_id col =? field_id)%string)
                            (Transformer.columns transform_entity) in
                        if negb field_exists
                        then [required_column_missing meta_entity_id
                                field_id None]
                        else [])
                     (elements (em_required_fields meta_entity))
               end)
            (mc_entities (metadata_context context)))).

End Validators.

(** *** comparator/rule_registry.py *)

(** A registered rule instance with the [enabled] flag of its
    configuration; the registry keeps them in registration order. *)
Record Registered := mkRegistered {
  instance : BaseRule;
  enabled : bool
}.

Definition scope_eqb (a b : ValidationScope) : bool :=
  match a, b with
  | GLOBAL, GLOBAL | ENTITY, ENTITY | ROW, ROW | FIELD, FIELD => true
  | _, _ => false
  end.

Module RuleRegistry.

Definition get_enabled_rules (registry : list Registered)
    (wanted : ValidationScope) : list BaseRule :=
  map instance
    (filter (fun r => enabled r && scope_eqb (scope (instance r)) wanted = true)
       registry).

(** The registry itself: the three dictionaries of the source have the
    same keys and are kept as one, from rule id to the instance and
    the [enabled] flag of its configuration, in registration order. *)
Definition registry := list (string * Registered).

Definition instances (self : registry) : list Registered := map snd self.

(** [register_rule], given the instance [rule_class()] creates. *)
Definition register_rule (self : registry) (rule_id : string)
    (rule : BaseRule) : outcome registry :=
  if OD.mem self rule_id then Raises "ValueError"
  else Returns (OD.set self rule_id (mkRegistered rule true)).

Definition get_rule (self : registry) (rule_id : string) : option BaseRule :=
  instance <$> OD.get self rule_id.

(** [configure_rule(rule_id, enabled)]; the free-form [params] of a
    configuration are not part of the model. *)
Definition configure_rule (self : registry) (rule_id : string)
    (enabled : option bool) : outcome registry :=
  match OD.get self rule_id with
  | None => Raises "ValueError"
  | Some r =>
      match enabled with
      | Some b => Returns (OD.set self rule_id (mkRegistered (instance r) b))
      | None => Returns self
      end
  end.

End RuleRegistry.

(** *** comparator/rule_engine.py *)

Record RuleEngine := mkRuleEngine {
  _global_rules : list BaseRule;
  _entity_rules : list BaseRule;
  _field_rules : list BaseRule
}.

Module Engine.
Import ComparatorErrors.

(** [RuleEngine(rule_registry)]: the constructor runs [_categorize_rules]. *)
Definition RuleEngine_new (registry : list Registered) : RuleEngine :=
  mkRuleEngine (RuleRegistry.get_enabled_rules registry GLOBAL)
    (RuleRegistry.get_enabled_rules registry ENTITY)
    (RuleRegistry.get_enabled_rules registry FIELD).

(** The body of the loops of [_execute_global_rules] and
    [_execute_entity_rules] for one rule. *)
Definition run_context_rule (context : ValidationContext) (rule : BaseRule)
    : list ValidationError :=
  match validate rule context no_args with
  | Returns rule_errors => rule_errors
  | Raises e => [rule_execution_failed (rule_id rule) e None]
  end.

Definition _execute_global_rules (self : RuleEngine)
    (context : ValidationContext) : list ValidationError :=
  flat_map (run_context_rule context) (_global_rules self).

Definition _execute_entity_rules (self : RuleEngine)
    (context : ValidationContext) : list ValidationError :=
  flat_map (run_context_rule context) (_entity_rules self).

(** The second search of the source reads [csv_context.headers], an
    attribute [CsvContext] does not have, and so never runs. *)
Definition _find_person_id_external_column_index
    (context : ValidationContext) : option nat :=
  fst <$>
    list_find
      (fun parsed_col =>
         Transformer.element_id parsed_col = "personInfo"
         ∧ Transformer.field_id parsed_col = "person-id-external")
      (Transformer.parsed_columns (transform_context context)).

Definition _get_column_name (context : ValidationContext)
    (entity_id field_id : string) : option string :=
  match OD.get (Transformer.entities (transform_context context)) entity_id with
  | Some entity_data =>
      Transformer.original_name <$>
        OD.get (Transformer.field_mapping entity_data) field_id
  | None => None
  end.

Definition COUNTRY_PREFIXES : list string := ["MEX_"; "USA_"; "BRA_"; "CAN_"].

(** The final loop of [_build_field_search_patterns]. *)
Fixpoint unique_nonempty (patterns unique_patterns : list string) : list string :=
  match patterns with
  | [] => unique_patterns
  | pattern :: rest =>
      if negb (pattern =? "")%string
         && negb (existsb (String.eqb pattern) unique_patterns)
      then unique_nonempty rest (unique_patterns ++ [pattern])%list
      else unique_nonempty rest unique_patterns
  end.

Definition _build_field_search_patterns (entity_id field_id : string)
    (column_name : option string) : list string :=
  let nonempty_name :=
    match column_name with
    | Some c => if (c =? "")%string then None else Some c
    | None => None
    end in
  let patterns := [entity_id ++ "_" ++ field_id] in
  let patterns :=
    if startswith_any entity_id COUNTRY_PREFIXES then
      match split1 underscore entity_id with
      | [_; base_entity] => (patterns ++ [base_entity +:+ "_" +:+ field_id])%list
      | _ => patterns
      end
    else patterns in
  let patterns :=
    match nonempty_name with
    | Some c => (patterns ++ [c; replace_char underscore "."%char c])%list
    | None => patterns
    end in
  let patterns :=
    match nonempty_name with
    | Some c =>
        if startswith_any c ["MEX_"; "USA_"; "BRA_"]
        then (patterns ++ [c])%list else patterns
    | None => patterns
    end in
  unique_nonempty patterns [].

(** The body of the [for rule in self._field_rules] loop. *)
Definition run_field_rule (context : ValidationContext) (entity_id : string)
    (field_id : string) (field_metadata : FieldMetadata) (value : string)
    (row_index csv_row_index : Z) (column_name : option string)
    (person_id_external : option string) (rule : BaseRule)
    : list ValidationError :=
  let failed e :=
    [rule_execution_failed (rule_id rule)
       ("field " ++ entity_id ++ "." ++ field_id ++ ": " ++ e) None] in
  match should_skip rule (Some field_metadata) (Some value) with
  | Raises e => failed e
  | Returns true => []
  | Returns false =>
      match validate rule context
              (mkRuleArgs (Some entity_id) (Some field_metadata) (Some value)
                 (Some row_index) (Some csv_row_index) column_name
                 person_id_external) with
      | Returns rule_errors => rule_errors
      | Raises e => failed e
      end
  end.

(** The field id [_validate_field] works with: that of the metadata it
    was handed, else the last [_]-separated piece of the column name. *)
Definition working_field_id (field_metadata : option FieldMetadata)
    (column_name : option string) : string :=
  match field_metadata with
  | Some m => fm_field_id m
  | None =>
      match column_name with
      | Some c =>
          if (c =? "")%string then "unknown_field"
          else
            let parts := split underscore c in
            if (2 <=? length parts)%nat then default c (last parts) else c
      | None => "unknown_field"
      end
  end.

(** The metadata [_validate_field] ends up with after its own searches. *)
Definition search_field_metadata (context : ValidationContext)
    (entity_id field_id : string) (column_name : option string)
    : option FieldMetadata :=
  let index := field_by_full_path (metadata_context context) in
  let search_patterns :=
    _build_field_search_patterns entity_id field_id column_name in
  match find (fun pattern => bool_decide (is_Some (index !! pattern)))
          search_patterns with
  | Some pattern => index !! pattern
  | None =>
      match OD.get (mc_entities (metadata_context context)) entity_id with
      | Some entity_metadata => em_fields entity_metadata !! field_id
      | None => None
      end
  end.

(** The metadata the rules of [_validate_field] are run with: the one it
    was handed, else the result of its own searches. *)
Definition resolved_metadata (context : ValidationContext)
    (entity_id : string) (field_metadata : option FieldMetadata)
    (column_name : option string) : option FieldMetadata :=
  match field_metadata with
  | Some m => Some m
  | None =>
      search_field_metadata context entity_id
        (working_field_id field_metadata column_name) column_name
  end.

Definition _validate_field (self : RuleEngine) (entity_id : string)
    (field_metadata : option FieldMetadata) (value : string)
    (row_index csv_row_index : Z) (column_name : option string)
    (person_id_external : option string) (context : ValidationContext)
    : list ValidationError :=
  let field_id := working_field_id field_metadata column_name in
  match resolved_metadata context entity_id field_metadata column_name with
  | None =>
      let is_csf_field := startswith_any entity_id COUNTRY_PREFIXES in
      let field_path := entity_id ++ "_" ++ field_id in
      if is_csf_field
      then [missing_metadata_for_field
              ("CSF Field: " ++ field_path ++ " (not found with country prefix)")]
      else [missing_metadata_for_field field_path]
  | Some m =>
      flat_map
        (run_field_rule context entity_id field_id m value row_index
           csv_row_index column_name person_id_external)
        (_field_rules self)
  end.

(** The two lookups [_validate_row] makes before it calls
    [_validate_field]. *)
Definition row_field_metadata (context : ValidationContext)
    (entity_id field_id : string) : option FieldMetadata :=
  let full_path := entity_id ++ "_" ++ field_id in
  match field_by_full_path (metadata_context context) !! full_path with
  | Some m => Some m
  | None =>
      match OD.get (mc_entities (metadata_context context)) entity_id with
      | Some entity_metadata => em_fields entity_metadata !! field_id
      | None => None
      end
  end.

Definition row_person_id_external (context : ValidationContext)
    (row : Transformer.TransformedRow) : option string :=
  match _find_person_id_external_column_index context with
  | Some col_index =>
      match Transformer.raw_values row !! col_index with
      | Some v => let v := strip v in if (v =? "")%string then None else Some v
      | None => None
      end
  | None => None
  end.

(** The body of the inner loop of [_validate_row] for one
    [(entity_id, field_id, value)] of the row. *)
Definition validate_triple (self : RuleEngine)
    (row : Transformer.TransformedRow) (context : ValidationContext)
    (person_id_external : option string)
    (entity_id field_id value : string) : list ValidationError :=
  _validate_field self entity_id
    (row_field_metadata context entity_id field_id) value
    (Transformer.original_row_index row) (Transformer.csv_row_index row)
    (_get_column_name context entity_id field_id)
    person_id_external context.

Definition _validate_row (self : RuleEngine) (row : Transformer.TransformedRow)
    (context : ValidationContext) : list ValidationError :=
  let person_id_external := row_person_id_external context row in
  flat_map
    (fun '(entity_id, entity_data) =>
       flat_map
         (fun '(field_id, value) =>
            validate_triple self row context person_id_external
              entity_id field_id value)
         entity_data)
    (Transformer.data_by_entity row).

(** No call made inside the [try] of [validate_batch] raises in this
    model, every rule failure being caught where the rule is called, so
    the outer handler is never entered. *)
Definition validate_batch (self : RuleEngine)
    (batch_rows : list Transformer.TransformedRow) (batch_index : Z)
    (context : ValidationContext) : BatchValidationResult :=
  let all_errors :=
    (_execute_global_rules self context
       ++ _execute_entity_rules self context
       ++ flat_map (fun row => _validate_row self row context) batch_rows)%list in
  mkBatchValidationResult batch_index (len batch_rows) all_errors.

(** [validate_all_batches], the transformer orchestrator being the one
    of the transformer package. *)
Definition validate_all_batches (self : RuleEngine)
    (data_stream : list (list (list string))) (context : ValidationContext)
    : list BatchValidationResult :=
  imap
    (fun batch_index raw_batch =>
       let batch_transform_result :=
         Transformer.TransformationOrchestrator._transform_batch raw_batch
           (Z.of_nat batch_index) (transform_context context) in
       validate_batch self
         (Transformer.transformed_rows batch_transform_result)
         (Z.of_nat batch_index) context)
    data_stream.

End Engine.

End Comparator.

(** ** reporting *)

Module Reporting.
Import PyStr Comparator.
Local Open Scope string_scope.

(** *** reporting/models.py *)

Inductive ReportLevel := LevelERROR | LevelWARNING | LevelINFO.

(** [level.value] *)
Definition level_value (level : ReportLevel) : string :=
  match level with
  | LevelERROR => "error"
  | LevelWARNING => "warning"
  | LevelINFO => "info"
  end.

Record ReportEntry := mkReportEntry {
  identificador : option string;
  field_id : option string;
  column_name : option string;
  error_code : string;
  message : string;
  level : ReportLevel;
  expected : option PyValue;
  actual : option PyValue;
  metadata_path : option string;
  details : option (list (string * string))
}.

(** [validation_time] is a sum of clock differences and is left out. *)
Record ValidationMetrics := mkValidationMetrics {
  total_rows : Z;
  total_batches : Z;
  total_errors : Z;
  total_warnings : Z;
  error_counts : gmap string Z;
  identificador_counts : gmap string Z;
  severity_counts : gmap string Z
}.

(** [report_id] and [timestamp] come from the clock, and [summary] is a
    rendering of the metrics; they are left out. *)
Record ValidationReport := mkValidationReport {
  source_csv : string;
  source_metadata : string;
  entries : list ReportEntry;
  metrics : ValidationMetrics
}.

(** *** reporting/aggregator.py *)

Module ReportAggregator.

(** [severity.value] *)
Definition severity_value (severity : ValidationSeverity) : string :=
  match severity with
  | FATAL => "FATAL"
  | ERROR => "ERROR"
  | WARNING => "WARNING"
  end.

(** [str(severity)] of an enumeration member *)
Definition severity_str (severity : ValidationSeverity) : string :=
  "ValidationSeverity." ++ severity_value severity.

(** The severity-to-level block of [_convert_errors_to_entries]; [None]
    is an error object without a severity. *)
Definition level_of_severity (severity : option ValidationSeverity)
    : ReportLevel :=
  match severity with
  | None => LevelINFO
  | Some severity =>
      let severity_str := severity_str severity in
      if contains "ERROR" severity_str || contains "FATAL" severity_str
      then LevelERROR
      else if contains "WARNING" severity_str then LevelWARNING
      else LevelINFO
  end.

Definition convert_error (error : ValidationError) : ReportEntry :=
  mkReportEntry (err_person_id_external error) (err_field_id error)
    (err_column_name error) (err_code error) (err_message error)
    (level_of_severity (Some (err_severity error)))
    (err_expected error) (err_actual error) (err_metadata_path error)
    (err_details error).

Definition _convert_errors_to_entries (validation_errors : list ValidationError)
    : list ReportEntry :=
  map convert_error validation_errors.

(** [d[k] = d.get(k, 0) + 1] *)
Definition bump (d : gmap string Z) (k : string) : gmap string Z :=
  <[k := (default 0 (d !! k) + 1)%Z]> d.

(** The body of the [for error in all_errors] loop. *)
Definition count_error (metrics : ValidationMetrics) (error : ValidationError)
    : ValidationMetrics :=
  let severity_value := severity_value (err_severity error) in
  let identificador := "personInfo_person-id-external" in
  mkValidationMetrics (total_rows metrics) (total_batches metrics)
    (if (severity_value =? "ERROR")%string || (severity_value =? "FATAL")%string
     then total_errors metrics + 1 else total_errors metrics)%Z
    (if (severity_value =? "ERROR")%string || (severity_value =? "FATAL")%string
     then total_warnings metrics
     else if (severity_value =? "WARNING")%string
          then total_warnings metrics + 1 else total_warnings metrics)%Z
    (bump (error_counts metrics) (err_code error))
    (bump (identificador_counts metrics) identificador)
    (bump (severity_counts metrics) severity_value).

Definition all_errors (batch_results : list BatchValidationResult)
    : list ValidationError :=
  flat_map Comparator.batch_errors batch_results.

Definition _calculate_metrics (batch_results : list BatchValidationResult)
    : ValidationMetrics :=
  let metrics :=
    fold_left
      (fun m batch_result =>
         mkValidationMetrics (total_rows m + processed_rows batch_result)%Z
           (total_batches m + 1)%Z (total_errors m) (total_warnings m)
           (error_counts m) (identificador_counts m) (severity_counts m))
      batch_results (mkValidationMetrics 0 0 0 0 ∅ ∅ ∅) in
  fold_left count_error (all_errors batch_results) metrics.

Definition create_report (batch_results : list BatchValidationResult)
    (source_csv source_metadata : string) : ValidationReport :=
  mkValidationReport source_csv source_metadata
    (_convert_errors_to_entries (all_errors batch_results))
    (_calculate_metrics batch_results).

(** The value [generate_detailed_report] keeps for one identifier in
    [identificador_analysis]. *)
Record IdentifierAnalysis := mkIdentifierAnalysis {
  ia_total_errors : Z;
  ia_total_warnings : Z;
  ia_field_counts : list (string * Z);
  ia_error_types : list (string * Z)
}.

(** An optional string that is neither [None] nor empty. *)
Definition truthy (s : option string) : option string :=
  match s with
  | Some x => if (x =? "")%string then None else Some x
  | None => None
  end.

(** [d[k] = d.get(k, 0) + 1] on a dictionary kept in insertion order *)
Definition bump_ordered (d : list (string * Z)) (k : string)
    : list (string * Z) :=
  OD.set d k (default 0 (OD.get d k) + 1)%Z.

(** The body of the loop over [report.entries]. *)
Definition analyse_entry
    (identificador_analysis : list (string * IdentifierAnalysis))
    (entry : ReportEntry) : list (string * IdentifierAnalysis) :=
  match truthy (identificador entry) with
  | None => identificador_analysis
  | Some id =>
      let analysis :=
        default (mkIdentifierAnalysis 0 0 [] [])
          (OD.get identificador_analysis id) in
      OD.set identificador_analysis id
        (mkIdentifierAnalysis
           (match level entry with
            | LevelERROR => ia_total_errors analysis + 1
            | _ => ia_total_errors analysis
            end)%Z
           (match level entry with
            | LevelWARNING => ia_total_warnings analysis + 1
            | _ => ia_total_warnings analysis
            end)%Z
           (match truthy (field_id entry) with
            | Some f => bump_ordered (ia_field_counts analysis) f
            | None => ia_field_counts analysis
            end)
           (bump_ordered (ia_error_types analysis) (error_code entry)))
  end.

(** [l[:n]] for an [int] *)
Definition slice_to_int {A} (l : list A) (n : Z) : list A :=
  if (n <? 0)%Z then take (Z.to_nat (len l + n)) l else take (Z.to_nat n) l.

(** What [generate_detailed_report] adds to [report.to_dict()] or
    changes in it: the entries, the two truncation keys (the second
    one absent when nothing is truncated) and the analysis. *)
Record DetailedReport := mkDetailedReport {
  detailed_entries : list ReportEntry;
  entries_truncated : bool;
  total_entries_truncated : option Z;
  identificador_analysis : list (string * IdentifierAnalysis)
}.

Definition generate_detailed_report (report : ValidationReport)
    (max_entries : Z) : DetailedReport :=
  let identificador_analysis :=
    fold_left analyse_entry (entries report) [] in
  if (max_entries <? len (entries report))%Z then
    mkDetailedReport (slice_to_int (entries report) max_entries) true
      (Some (len (entries report) - max_entries)%Z) identificador_analysis
  else
    mkDetailedReport (entries report) false None identificador_analysis.

End ReportAggregator.

End Reporting.

(** ** vstructure/orchestrator.py *)

Module ValidationOrchestrator.

(** The [for raw_batch in data_stream] loop of [execute_validation], up to
    the transformation of each batch: [batch_index] counts the batches as
    the reader yields them. *)
Definition transform_stream (data_stream : list (list (list string)))
    (trans_context : Transformer.TransformationContext)
    : list Transformer.BatchTransformationResult :=
  imap (fun batch_index raw_batch =>
          Transformer.TransformationOrchestrator._transform_batch raw_batch
            (Z.of_nat batch_index) trans_context)
       data_stream.

(** The transformation results of a run, one per batch the reader yields. *)
Definition transform_file (file : list (list string))
    (csv_context : CsvLoader.CsvContext)
    (trans_context : Transformer.TransformationContext)
    : list Transformer.BatchTransformationResult :=
  transform_stream
    (fst (CsvLoader.BatchReader.read_batches file csv_context)) trans_context.

(** The transformed rows of a run, in the order they are validated and
    reported. *)
Definition rows_of_run (results : list Transformer.BatchTransformationResult)
    : list Transformer.TransformedRow :=
  flat_map Transformer.transformed_rows results.

End ValidationOrchestrator.

(** * Terms of the statements *)

Open Scope list_scope.
Open Scope string_scope.

Section ParseAllColumnsTerms.
Import PyStr Transformer Transformer.ColumnParser.

(** The placeholder stored for a name that does not parse. *)
Definition placeholder (col_index : nat) (column_name : string) : ParsedColumn :=
  ParsedColumn_new column_name ("ERROR_" ++ of_nat col_index) column_name
    false None.

End ParseAllColumnsTerms.

Section DetectStructureTerms.
Import PyStr CsvLoader CsvLoader.CsvLoaderErrors CsvLoader.StructureDetector.

(** A header cell as the claim describes it: non-empty and containing an
    underscore. *)
Definition well_formed_cell (cell : string) : Prop :=
  cell <> "" /\ contains_char underscore cell = true.

(** The errors [detect_structure] appends after a valid header: one for a
    label row of the wrong width, then one for a first data row of the
    wrong width or for its absence. *)
Definition structure_errors (header : list string)
    (rest : list (list string)) : list NormalizedError :=
  (match rest !! 0%nat with
   | Some labels =>
       if (len labels =? len header)%Z then []
       else [label_column_mismatch 1 (len header) (len labels)]
   | None => []
   end
   ++
   match rest !! 1%nat with
   | Some data_row =>
       if (len data_row =? len header)%Z then []
       else [row_column_mismatch 2 (len header) (len data_row)]
   | None => [no_data_rows]
   end)%list.

End DetectStructureTerms.

Section ReadBatchesTerms.
Import CsvLoader CsvLoader.CsvLoaderErrors CsvLoader.BatchReader.

(** The error the reader records for the row at [row_index], if any. *)
Definition mismatch_of (total_columns : Z) (row_index : Z) (row : list string)
    : option NormalizedError :=
  if (len row =? total_columns)%Z then None
  else Some (row_column_mismatch row_index total_columns (len row)).

Definition all_but_last_full (batches : list (list (list string))) : Prop :=
  forall (i : nat) (b : list (list string)),
    batches !! i = Some b -> (S i < length batches)%nat -> len b = BATCH_SIZE.

End ReadBatchesTerms.

Section DetectEncodingTerms.
Import CsvLoader CsvLoader.CsvLoaderErrors CsvLoader.EncodingResolver.

(** The confident path of [detect_encoding] returns: the detector is
    confident, names an encoding, and that encoding decodes the sample. *)
Definition confident_path (env : Codecs) (raw_data : list Byte.byte)
    (name : string) : bool :=
  high_confidence (confidence (chardet_detect env raw_data))
  && negb (PyStr.lower name =? "")%string
  && decodes_strictly env raw_data (encoding_map (PyStr.lower name)).

(** A codec environment for the examples: the detector is not confident,
    only [latin-1] and its aliases decode strictly. *)
Definition latin_only : Codecs :=
  mkCodecs (fun _ => mkChardetResult (Some "Windows-1254") (1 # 2))
    (fun encoding _ =>
       if (encoding =? "latin-1")%string || (encoding =? "iso-8859-1")%string
       then Decoded else UnicodeDecodeError)
    (fun _ _ => true).

(** A codec environment in which no encoding of the list decodes the
    sample strictly. *)
Definition lossy_only : Codecs :=
  mkCodecs (fun _ => mkChardetResult (Some "ascii") (1 # 2))
    (fun _ _ => UnicodeDecodeError) (fun _ _ => true).

(** A codec environment in which the detector names no encoding, as
    [chardet.detect] does when none of its probers settles, and every
    codec decodes the sample. *)
Definition undetected : Codecs :=
  mkCodecs (fun _ => mkChardetResult None 0)
    (fun _ _ => Decoded) (fun _ _ => true).

(** The bytes of the two lines [a_b] and [ESC [ 0 m]: ASCII text with an
    escape sequence that belongs to no ISO-2022 encoding. *)
Definition escape_sample : list Byte.byte :=
  [Byte.x61; Byte.x5f; Byte.x62; Byte.x0a;
   Byte.x1b; Byte.x5b; Byte.x30; Byte.x6d; Byte.x0a].

End DetectEncodingTerms.

Section BatchingTerms.
Import CsvLoader Transformer.

Definition one_column_header : list string := ["personInfo_name"].

Definition one_column_csv : CsvContext :=
  mkCsvContext "utf-8" (mkCsvDialectInfo "," "'" None true false)
    one_column_header 1 [] true 2.

Definition one_column_context : TransformationContext :=
  let parsed := fst (ColumnParser.parse_all_columns one_column_header) in
  let '(entities, column_to_entity_map, _) :=
    EntityMapper.map_columns_to_entities parsed in
  mkTransformationContext one_column_csv parsed entities column_to_entity_map [].

(** A file with the header, a label row and [n] well-formed data rows. *)
Definition file_of_rows (n : nat) : list (list string) :=
  one_column_header :: ["Name"] :: replicate n ["x"].

Definition indices (r : TransformedRow) : Z * Z :=
  (original_row_index r, csv_row_index r).

(** The data rows of a file transformed as a single batch. *)
Definition single_batch (file : list (list string)) : list TransformedRow :=
  RowTransformer.transform_batch (drop 2 file) 0 2
    (column_to_entity_map one_column_context) (entities one_column_context).

End BatchingTerms.

Section AggregationTerms.
Import Comparator Comparator.ComparatorErrors Reporting
       Reporting.ReportAggregator.

(** Two rows, identified as [E001] and [E002]; the first has two missing
    required values, the second one. *)
Definition sample_batch : BatchValidationResult :=
  mkBatchValidationResult 0 2
    [required_value_missing 0 2 "personInfo" "first-name"
       "personInfo_first-name" (Some "E001");
     required_value_missing 0 2 "personInfo" "last-name"
       "personInfo_last-name" (Some "E001");
     required_value_missing 1 3 "personInfo" "first-name"
       "personInfo_first-name" (Some "E002")].

End AggregationTerms.

Section RuleIsolationTerms.
Import Comparator Comparator.ComparatorErrors Comparator.Engine.

(** The engine with the field rules replaced; the other scopes are not
    consulted by [_validate_field]. *)
Definition with_field_rules (self : RuleEngine) (rules : list BaseRule)
    : RuleEngine :=
  mkRuleEngine (_global_rules self) (_entity_rules self) rules.

Definition with_global_rules (self : RuleEngine) (rules : list BaseRule)
    : RuleEngine :=
  mkRuleEngine rules (_entity_rules self) (_field_rules self).

Definition with_entity_rules (self : RuleEngine) (rules : list BaseRule)
    : RuleEngine :=
  mkRuleEngine (_global_rules self) rules (_field_rules self).

Definition raising_rule : BaseRule :=
  mkBaseRule "always_raises" FIELD (fun _ _ => Returns false)
    (fun _ _ => Raises "boom").

Definition name_metadata : FieldMetadata :=
  mkFieldMetadata "personInfo" "name" "personInfo_name" true None (Some 5%Z)
    None false None ∅.

Definition empty_schema_context : ValidationContext :=
  mkValidationContext one_column_context (mkMetadataContext "SF" "v1" [] ∅)
    ["required_columns"; "not_null"; "data_type"; "max_length"].

(** A schema with the entity [personInfo] and its required field [name]
    of at most five characters, over a file with the single column
    [personInfo_name]; and the row of the cell [abcdef]. *)
Definition short_name_context : ValidationContext :=
  mkValidationContext one_column_context
    (MetadataAdapter.adapt_parsed_metadata
       (mkNode "succession-data-model" "" ∅ "unknown"
          [mkNode "hris-element" "personInfo" ∅ "element"
             [mkNode "hris-field" "name"
                {[ "required" := "true"; "max-length" := "5" ]} "field" []]])
       "SF" "v1")
    ["required_columns"; "not_null"; "data_type"; "max_length"].

Definition long_name_row : Transformer.TransformedRow :=
  Transformer.RowTransformer.transform_row ["abcdef"] 0 2
    (Transformer.column_to_entity_map (transform_context short_name_context))
    (Transformer.entities (transform_context short_name_context)).

Definition engine_with_raising_rule : RuleEngine :=
  mkRuleEngine [] []
    [Validators.NotNullRule; raising_rule; Validators.MaxLengthRule].

End RuleIsolationTerms.

Section MetadataResolutionTerms.
Import PyStr Comparator Comparator.ComparatorErrors Comparator.Engine.

(** The first lookup of a sequence that answers. *)
Fixpoint first_some {A} (lookups : list (option A)) : option A :=
  match lookups with
  | [] => None
  | Some a :: _ => Some a
  | None :: rest => first_some rest
  end.

Definition index_lookup (context : ValidationContext) (full_path : string)
    : option FieldMetadata :=
  field_by_full_path (metadata_context context) !! full_path.

Definition entity_lookup (context : ValidationContext)
    (entity_id field_id : string) : option FieldMetadata :=
  match OD.get (mc_entities (metadata_context context)) entity_id with
  | Some entity_metadata => em_fields entity_metadata !! field_id
  | None => None
  end.

(** The entity id without its country prefix, when it has one of the
    prefixes the engine knows. *)
Definition base_entity (entity_id : string) : option string :=
  if startswith_any entity_id COUNTRY_PREFIXES then
    match split1 underscore entity_id with
    | [_; base] => Some base
    | _ => None
    end
  else None.

Definition nonempty (column_name : option string) : option string :=
  match column_name with
  | Some c => if (c =? "")%string then None else Some c
  | None => None
  end.

(** The order of the lookups as the specification words it: the exact
    [entity_field] path, the path without the country prefix, the literal
    column name, the entity's own field map. *)
Definition specified_resolution (context : ValidationContext)
    (entity_id field_id : string) (column_name : option string)
    : option FieldMetadata :=
  first_some
    [index_lookup context (entity_id ++ "_" ++ field_id);
     base_entity entity_id
       ≫= (fun base => index_lookup context (base ++ "_" ++ field_id));
     nonempty column_name ≫= index_lookup context;
     entity_lookup context entity_id field_id].

(** The order of the lookups as the engine makes them.  After the first
    two, the field id is replaced by the last [_]-separated piece of the
    column name ([unknown_field] without a column name). *)
Definition engine_lookups (context : ValidationContext)
    (entity_id field_id : string) (column_name : option string)
    : list (option FieldMetadata) :=
  let last_piece := working_field_id None column_name in
  [index_lookup context (entity_id ++ "_" ++ field_id);
   entity_lookup context entity_id field_id;
   index_lookup context (entity_id ++ "_" ++ last_piece);
   base_entity entity_id
     ≫= (fun base => index_lookup context (base ++ "_" ++ last_piece));
   nonempty column_name ≫= index_lookup context;
   nonempty column_name
     ≫= (fun c => index_lookup context (replace_char underscore "."%char c));
   entity_lookup context entity_id last_piece].

(** The metadata the engine validates a triple of a row with. *)
Definition engine_resolution (context : ValidationContext)
    (entity_id field_id : string) (column_name : option string)
    : option FieldMetadata :=
  resolved_metadata context entity_id
    (row_field_metadata context entity_id field_id) column_name.

(** A schema with one entity, [personInfo], and one required field,
    [name]; a file with the single column [personInfo_first_name]. *)
Definition name_schema : Node :=
  mkNode "succession-data-model" "" ∅ "unknown"
    [mkNode "hris-element" "personInfo" ∅ "element"
       [mkNode "hris-field" "name" {[ "required" := "true" ]} "field" []]].

Definition first_name_context : ValidationContext :=
  let csv :=
    CsvLoader.mkCsvContext "utf-8"
      (CsvLoader.mkCsvDialectInfo "," "'" None true false)
      ["personInfo_first_name"] 1 [] true 2 in
  let parsed :=
    fst (Transformer.ColumnParser.parse_all_columns ["personInfo_first_name"]) in
  let '(entities, column_to_entity_map, _) :=
    Transformer.EntityMapper.map_columns_to_entities parsed in
  mkValidationContext
    (Transformer.mkTransformationContext csv parsed entities
       column_to_entity_map [])
    (MetadataAdapter.adapt_parsed_metadata name_schema "SF" "v1")
    ["required_columns"; "not_null"; "data_type"; "max_length"].

Definition first_name_row : Transformer.TransformedRow :=
  Transformer.RowTransformer.transform_row [""] 0 2
    (Transformer.column_to_entity_map (transform_context first_name_context))
    (Transformer.entities (transform_context first_name_context)).

Definition builtin_field_engine : RuleEngine :=
  RuleEngine_new
    [mkRegistered Validators.NotNullRule true;
     mkRegistered Validators.MaxLengthRule true].

End MetadataResolutionTerms.

Section DualPathTerms.
Import PyStr Comparator Comparator.MetadataAdapter.

(** The id the walk reads off a node: [technical_id or attributes.get("id", "")]. *)
Definition node_id (node : Node) : string :=
  str_or (technical_id node) (default "" (raw_attributes node !! "id")).

Definition is_element_node (node : Node) : Prop :=
  contains "hris-element" (lower (tag node)) = true.

Definition is_field_node (node : Node) : Prop :=
  contains "hris-element" (lower (tag node)) = false
  /\ contains "hris-field" (lower (tag node)) = true.

(** One step of the walk over the children of a node. *)
Definition walk (st : MetadataContext * option string) (child : Node)
    : MetadataContext * option string :=
  _extract_field_metadata child (fst st) (snd st).

(** The constraints a field node declares. *)
Definition declared_required (node : Node) : bool :=
  (lower (default "false" (raw_attributes node !! "required")) =? "true")%string.

Definition declares (node : Node) (m : FieldMetadata) : Prop :=
  fm_field_id m = node_id node
  /\ fm_is_required m = declared_required node
  /\ fm_data_type m = raw_attributes node !! "type"
  /\ fm_max_length m = _parse_max_length (raw_attributes node !! "max-length").

(** The entity [entity_id] is registered as scoped to country [country]. *)
Definition scoped_at (ctx : MetadataContext) (entity_id country : string) : Prop :=
  exists e, OD.get (mc_entities ctx) entity_id = Some e
            /\ em_is_country_specific e = true
            /\ em_country_code e = Some country.

Definition unscoped_at (ctx : MetadataContext) (entity_id : string) : Prop :=
  exists e, OD.get (mc_entities ctx) entity_id = Some e /\ is_scoped e = false.

Definition empty_context : MetadataContext := mkMetadataContext "SF" "v1" [] ∅.

Definition field_node (id : string) (attrs : list (string * string)) : Node :=
  mkNode "hris-field" id (list_to_map attrs) "field" [].

Definition element_node (id : string) (attrs : list (string * string))
    (fields : list Node) : Node :=
  mkNode "hris-element" id (list_to_map attrs) "element" fields.

Definition home_address_mex : Node :=
  element_node "homeAddress_fiscal"
    [("data-origin", "csf"); ("data-country", "MEX")]
    [field_node "street" [("required", "true"); ("max-length", "40")]].

(** Two schemas in which a [csf] element with a resolved country reuses an
    id the walk has already registered: after a global [jobInfo], and
    after the [jobInfo] of another country. *)
Definition global_then_mex : Node :=
  mkNode "succession-data-model" "" ∅ "unknown"
    [element_node "jobInfo" [("data-origin", "sdm")] [field_node "title" []];
     element_node "jobInfo" [("data-origin", "csf"); ("data-country", "MEX")]
       [field_node "position" []]].

Definition mex_then_usa : Node :=
  mkNode "succession-data-model" "" ∅ "unknown"
    [element_node "jobInfo" [("data-origin", "csf"); ("data-country", "MEX")]
       [field_node "position" []];
     element_node "jobInfo" [("data-origin", "csf"); ("data-country", "USA")]
       [field_node "grade" []]].

End DualPathTerms.

Section ParseColumnResultsTerms.
Import PyStr Transformer Transformer.TransformerErrors Transformer.ColumnParser.

(** The name a parsed column stands for: its country prefix, if any,
    its element id and its field id, joined by underscores. *)
Definition reassembled (pc : ParsedColumn) : string :=
  match country_code pc with
  | Some c => c ++ "_" ++ element_id pc ++ "_" ++ field_id pc
  | None => element_id pc ++ "_" ++ field_id pc
  end.

End ParseColumnResultsTerms.

Section EntityMappingTerms.
Import PyStr Transformer Transformer.ColumnParser Transformer.EntityMapper.

(** The entity record the mapper ends with for entity [e]: the columns
    of [e] added in header order. *)
Definition entity_of (parsed : list ParsedColumn) (e : string) : EntityData :=
  fold_left
    (fun ed '(i, column) =>
       if decide (element_id column = e) then add_column ed i column else ed)
    (enumerate parsed) (EntityData_new e).

Definition has_entity (parsed : list ParsedColumn) (e : string) : bool :=
  existsb (fun column => bool_decide (element_id column = e)) parsed.

End EntityMappingTerms.

Section RowTransformationTerms.
Import PyStr Transformer Transformer.TransformerErrors Transformer.ColumnParser.
Import Transformer.EntityMapper Transformer.RowTransformer.
Import Transformer.TransformationOrchestrator.

(** [data_by_entity[e][f]], when both keys are present. *)
Definition lookup_value (data : list (string * list (string * string)))
    (e f : string) : option string :=
  match OD.get data e with
  | Some inner => OD.get inner f
  | None => None
  end.

(** The cell of [row] under the last column of entity [e] and field [f]
    that has a cell in [row]. *)
Definition stored_value (parsed : list ParsedColumn) (row : list string)
    (e f : string) : option string :=
  snd <$> last (filter (fun p => element_id (fst p) = e /\ field_id (fst p) = f)
                  (zip parsed row)).

(** The error recorded for a cell beyond the last mapped column. *)
Definition out_of_range_error (row_index : Z) (col_index : nat)
    : TransformationError :=
  row_transformation_error row_index col_index
    (chr 205 ++ "ndice de columna " ++ of_nat col_index ++ " fuera de rango").

End RowTransformationTerms.

Section EntityStructureTerms.
Import PyStr Transformer Transformer.TransformerErrors Transformer.ColumnParser.
Import Transformer.EntityMapper Transformer.TransformationOrchestrator.

(** The number of columns of entity [e] and field [f]. *)
Definition occurrences (parsed : list ParsedColumn) (e f : string) : Z :=
  len (filter (fun column => element_id column = e /\ field_id column = f)
         parsed).

End EntityStructureTerms.

Section BatchedIndicesTerms.
Import CsvLoader CsvLoader.BatchReader Transformer Transformer.RowTransformer.
Import Transformer.TransformationOrchestrator.

(** The data rows the reader keeps: those as wide as the header. *)
Definition valid_rows (file : list (list string)) (context : CsvContext)
    : list (list string) :=
  filter (fun row => len row = total_columns context)
    (drop (Z.to_nat (data_start_index context)) file).

End BatchedIndicesTerms.

Section RequiredColumnsTerms.
Import PyStr Comparator Comparator.ComparatorErrors Comparator.Engine.
Import Comparator.Validators.

(** The header has a column of entity [e] and field [f]. *)
Definition has_column (context : ValidationContext) (e f : string) : Prop :=
  exists column,
    column ∈ Transformer.parsed_columns (transform_context context)
    /\ Transformer.element_id column = e
    /\ Transformer.field_id column = f.

End RequiredColumnsTerms.

Section MetricsTerms.
Import PyStr Comparator Comparator.ComparatorErrors Reporting.
Import Reporting.ReportAggregator.

(** The counter a dictionary of counts holds for the elements of [l]:
    no entry for none, else their number. *)
Definition counted {A} (l : list A) : option Z :=
  match l with
  | [] => None
  | _ => Some (len l)
  end.

(** The errors whose severity has the given name. *)
Definition of_severity (name : string) (errors : list ValidationError)
    : list ValidationError :=
  filter (fun e => severity_value (err_severity e) = name) errors.

Definition of_code (code : string) (errors : list ValidationError)
    : list ValidationError :=
  filter (fun e => err_code e = code) errors.

End MetricsTerms.

Section DetailedReportsTerms.
Import PyStr Comparator Comparator.ComparatorErrors Reporting.
Import Reporting.ReportAggregator.

(** The entries that carry the identifier [id]. *)
Definition entries_of (id : string) (entries : list ReportEntry)
    : list ReportEntry :=
  filter (fun e => truthy (identificador e) = Some id) entries.

Definition at_level (name : string) (entries : list ReportEntry)
    : list ReportEntry :=
  filter (fun e => level_value (level e) = name) entries.

(** The analysis of one identifier after one more of its entries. *)
Definition analysis_step (analysis : IdentifierAnalysis) (entry : ReportEntry)
    : IdentifierAnalysis :=
  mkIdentifierAnalysis
    (match level entry with
     | LevelERROR => ia_total_errors analysis + 1
     | _ => ia_total_errors analysis
     end)%Z
    (match level entry with
     | LevelWARNING => ia_total_warnings analysis + 1
     | _ => ia_total_warnings analysis
     end)%Z
    (match truthy (field_id entry) with
     | Some f => bump_ordered (ia_field_counts analysis) f
     | None => ia_field_counts analysis
     end)
    (bump_ordered (ia_error_types analysis) (error_code entry)).

Definition analysis_of (entries : list ReportEntry) : IdentifierAnalysis :=
  fold_left analysis_step entries (mkIdentifierAnalysis 0 0 [] []).

End DetailedReportsTerms.

Section AdapterInvariantsTerms.
Import PyStr Comparator Comparator.MetadataAdapter.

(** An entity as the adapter keeps it under the key [e]. *)
Definition entity_well_keyed (e : string) (em : EntityMetadata) : Prop :=
  em_entity_id em = e
  /\ (forall f m, em_fields em !! f = Some m ->
                  fm_field_id m = f /\ fm_element_id m = e)
  /\ (forall f, f ∈ em_required_fields em -> is_Some (em_fields em !! f))
  /\ (forall f m, em_fields em !! f = Some m -> fm_is_required m = true ->
                  f ∈ em_required_fields em).

(** The keys of a metadata context agree with what they map to; the
    dictionary of entities holds each id once. *)
Definition well_keyed (ctx : MetadataContext) : Prop :=
  (forall k m, field_by_full_path ctx !! k = Some m ->
               fm_full_path m = k
               /\ k = fm_element_id m ++ "_" ++ fm_field_id m)
  /\ NoDup (OD.keys (mc_entities ctx))
  /\ (forall e em, OD.get (mc_entities ctx) e = Some em ->
                   entity_well_keyed e em).

End AdapterInvariantsTerms.

(** * Properties *)

#[local] Arguments String.append !s1 s2 /.

(** ** Strings *)

Section StringFacts.
Import PyStr.

Lemma append_assoc (a b c : string) : (a ++ b) ++ c = a ++ (b ++ c).
Proof. induction a as [|x a IH]; simpl; [reflexivity | now rewrite IH]. Qed.

Lemma contains_char_append c (a b : string) :
  contains_char c (a ++ b) = contains_char c a || contains_char c b.
Proof.
  unfold contains_char. induction a as [|x a IH]; simpl; [reflexivity|].
  rewrite IH. now rewrite orb_assoc.
Qed.

Lemma split_ne_no_sep sep s :
  contains_char sep (fst (split_ne sep s)) = false
  /\ Forall (fun p => contains_char sep p = false) (snd (split_ne sep s)).
Proof.
  induction s as [|c s [IH1 IH2]]; simpl.
  - split; [reflexivity | constructor].
  - destruct (split_ne sep s) as [p ps]; simpl in *.
    destruct (Ascii.eqb c sep) eqn:E; simpl.
    + split; [reflexivity | constructor; assumption].
    + split; [| assumption]. unfold contains_char in *; simpl.
      rewrite IH1. rewrite Ascii.eqb_sym, E. reflexivity.
Qed.

Lemma split_no_sep sep s :
  Forall (fun p => contains_char sep p = false) (split sep s).
Proof.
  unfold split. pose proof (split_ne_no_sep sep s) as [H1 H2].
  destruct (split_ne sep s); constructor; assumption.
Qed.

Lemma join_split sep s :
  join (String sep "") (split sep s) = s.
Proof.
  unfold split, join. induction s as [|c s IH]; simpl; [reflexivity|].
  destruct (split_ne sep s) as [p ps].
  destruct (Ascii.eqb c sep) eqn:E.
  - apply Ascii.eqb_eq in E. subst c. simpl in *. now rewrite IH.
  - simpl in *. destruct ps; simpl in *; now rewrite <- IH.
Qed.

(** A string that begins with [c ++ "_"] has ["_"] at position [length c]. *)
Lemma prefix_get_sep (c : string) (x : ascii) (s : string) :
  String.prefix (c ++ String x "") s = true ->
  String.get (String.length c) s = Some x.
Proof.
  revert s. induction c as [|y c IH]; intros s H; destruct s as [|z s]; simpl in *;
    try discriminate.
  - destruct (ascii_dec x z); [now subst | discriminate].
  - destruct (ascii_dec y z); [now apply IH | discriminate].
Qed.

Lemma prefix_contains_char (c : string) (x : ascii) (s : string) :
  String.prefix (c ++ String x "") s = true -> contains_char x s = true.
Proof.
  revert s. induction c as [|y c IH]; intros s H; destruct s as [|z s]; simpl in *;
    try discriminate; unfold contains_char in *; simpl.
  - destruct (ascii_dec x z); [subst; now rewrite Ascii.eqb_refl | discriminate].
  - destruct (ascii_dec y z); [| discriminate]. rewrite (IH s H). apply orb_true_r.
Qed.

End StringFacts.

(** ** Column parser *)

Section ColumnParserFacts.
Import PyStr Transformer Transformer.ColumnParser.

Lemma in_set_In s l : in_set s l = true <-> In s l.
Proof.
  unfold in_set. rewrite existsb_exists. split.
  - intros (x & Hx & E). apply String.eqb_eq in E. now subst.
  - intros H. exists s. split; [assumption | apply String.eqb_refl].
Qed.

Lemma looks_like_country_code_length code :
  _looks_like_country_code code = true ->
  (2 <= String.length code <= 3)%nat.
Proof.
  unfold _looks_like_country_code.
  destruct (code =? "")%string; [discriminate|].
  destruct ((2 <=? String.length code)%nat && (String.length code <=? 3)%nat) eqn:E;
    simpl; [| discriminate].
  intros _. apply andb_true_iff in E as [E1 E2].
  apply Nat.leb_le in E1, E2. lia.
Qed.

(** No registered compound element has its first ["_"] where a country
    prefix of two or three characters would put it. *)
Lemma compound_has_no_country_prefix c e :
  (2 <= String.length c <= 3)%nat ->
  In e COMPOUND_ELEMENTS ->
  startswith e (c ++ "_") = false.
Proof.
  intros Hlen Hin. unfold startswith.
  destruct (String.prefix (c ++ "_") e) eqn:P; [| reflexivity].
  apply prefix_get_sep in P.
  assert (String.length c = 2 \/ String.length c = 3)%nat as [L | L] by lia;
    rewrite L in P;
    simpl in Hin; repeat (destruct Hin as [<- | Hin]; [discriminate|]);
    contradiction.
Qed.

Lemma part_has_no_country_prefix c p :
  contains_char underscore p = false -> startswith p (c ++ "_") = false.
Proof.
  intros H. unfold startswith.
  destruct (String.prefix (c ++ "_") p) eqn:P; [| reflexivity].
  apply prefix_contains_char in P. unfold underscore in H. congruence.
Qed.

End ColumnParserFacts.

Section ParseColumn.
Import PyStr Transformer Transformer.ColumnParser.

(** C3. [parse_column] decodes the two documented identifiers as stated,
    and for every name it parses whose first piece passes the country
    heuristic and which has at least three pieces, the column is
    country-scoped with that piece as its country code, the entity id does
    not begin with the country prefix, and the stripped name is exactly
    [COUNTRY_entity_field]. *)
Theorem C3_parse_column_country_prefix :
  parse_column "MEX_homeAddress_fiscal_street"
    = (Some (mkParsedColumn "MEX_homeAddress_fiscal_street" "homeAddress_fiscal"
               "street" true (Some "MEX") "homeAddress_fiscal.street"), None)
  /\ parse_column "personInfo_country-of-birth"
    = (Some (mkParsedColumn "personInfo_country-of-birth" "personInfo"
               "country-of-birth" false None "personInfo.country-of-birth"), None)
  /\ forall (name : string) (pc : ParsedColumn),
      parse_column name = (Some pc, None) ->
      let parts := split underscore (strip name) in
      let country := nth 0 parts "" in
      _looks_like_country_code country = true ->
      (3 <= length parts)%nat ->
      is_country_specific pc = true
      /\ country_code pc = Some country
      /\ startswith (element_id pc) (country ++ "_") = false
      /\ original_name pc
         = country ++ "_" ++ element_id pc ++ "_" ++ field_id pc.
Proof.
  split; [reflexivity|]. split; [reflexivity|].
  intros name pc H parts country Hc Hn.
  unfold parse_column in H.
  destruct (name =? "")%string; [discriminate|].
  destruct (negb (contains_char underscore (strip name))); [discriminate|].
  pose proof (split_no_sep underscore (strip name)) as Hsep.
  pose proof (join_split underscore (strip name)) as Hjoin.
  fold parts in H, Hsep, Hjoin.
  pose proof (looks_like_country_code_length _ Hc) as Hlen.
  destruct parts as [|p0 [|p1 [|p2 rest]]]; simpl in Hn; try lia.
  subst country. simpl in Hc, Hlen |- *.
  cbn -[in_set join String.append COMPOUND_ELEMENTS of_nat chr String.eqb
        _looks_like_country_code] in H.
  rewrite Hc in H.
  apply Forall_cons in Hsep as [_ Hsep].
  apply Forall_cons in Hsep as [Hp1 Hsep].
  destruct rest as [|p3 rest];
    cbn -[in_set join String.append COMPOUND_ELEMENTS of_nat chr String.eqb] in H.
  - (* COUNTRY_element_field *)
    destruct (p1 =? "")%string; [discriminate|].
    destruct (p2 =? "")%string; [discriminate|].
    inversion H; subst pc; simpl.
    repeat split; [now apply part_has_no_country_prefix|].
    rewrite <- Hjoin at 1. reflexivity.
  - destruct (in_set (p1 ++ "_" ++ p2) COMPOUND_ELEMENTS) eqn:Hcomp.
    + (* COUNTRY_compound_field *)
      destruct (p1 ++ "_" ++ p2 =? "")%string; [discriminate|].
      destruct (join "_" (p3 :: rest) =? "")%string; [discriminate|].
      inversion H; subst pc; simpl.
      repeat split.
      * apply compound_has_no_country_prefix; [assumption|].
        now apply in_set_In.
      * rewrite <- Hjoin at 1. unfold join. simpl.
        now rewrite !append_assoc.
    + (* COUNTRY_element_field with further pieces in the field *)
      destruct (p1 =? "")%string; [discriminate|].
      destruct (join "_" (p2 :: p3 :: rest) =? "")%string; [discriminate|].
      inversion H; subst pc; simpl.
      repeat split; [now apply part_has_no_country_prefix|].
      rewrite <- Hjoin at 1. reflexivity.
Qed.

Lemma C3_parse_column_country_prefix_witness :
  let pc := mkParsedColumn "MEX_jobInfo_position" "jobInfo" "position" true
              (Some "MEX") "jobInfo.position" in
  is_country_specific pc = true
  /\ country_code pc = Some "MEX"
  /\ startswith (element_id pc) ("MEX" ++ "_") = false
  /\ original_name pc = "MEX" ++ "_" ++ element_id pc ++ "_" ++ field_id pc.
Proof.
  intros pc.
  apply (proj2 (proj2 C3_parse_column_country_prefix) "MEX_jobInfo_position" pc);
    [reflexivity | reflexivity | simpl; lia].
Defined.

End ParseColumn.

(** ** Ordered dictionaries *)

Section DictFacts.

Context {K V : Type} `{EqDecision K}.

Lemma get_set_eq (d : list (K * V)) (k : K) (v : V) :
  OD.get (OD.set d k v) k = Some v.
Proof.
  induction d as [|[k' v'] d IH]; cbn.
  - now rewrite decide_True.
  - destruct (decide (k' = k)) as [E | E]; cbn.
    + now rewrite decide_True.
    + now rewrite decide_False.
Qed.

Lemma get_set_ne (d : list (K * V)) (k k' : K) (v : V) :
  k <> k' -> OD.get (OD.set d k v) k' = OD.get d k'.
Proof.
  intros Hne. induction d as [|[k0 v0] d IH]; cbn.
  - now rewrite decide_False.
  - destruct (decide (k0 = k)) as [E | E]; cbn.
    + subst k0. now rewrite !decide_False.
    + destruct (decide (k0 = k')); [reflexivity | assumption].
Qed.

Lemma get_set (d : list (K * V)) (k k' : K) (v : V) :
  OD.get (OD.set d k v) k' = if decide (k = k') then Some v else OD.get d k'.
Proof.
  destruct (decide (k = k')) as [<- | Hne];
    [apply get_set_eq | now apply get_set_ne].
Qed.

Lemma length_set (d : list (K * V)) (k : K) (v : V) :
  length (OD.set d k v) = if OD.mem d k then length d else S (length d).
Proof.
  unfold OD.mem. induction d as [|[k' v'] d IH]; cbn; [reflexivity|].
  destruct (decide (k' = k)); cbn; [reflexivity|].
  rewrite IH. now destruct (OD.get d k).
Qed.

Lemma get_None_not_key (d : list (K * V)) (k : K) :
  OD.get d k = None <-> k ∉ OD.keys d.
Proof.
  unfold OD.keys. induction d as [|[k' v'] d IH]; cbn.
  - split; [intros _; apply not_elem_of_nil | reflexivity].
  - rewrite not_elem_of_cons. destruct (decide (k' = k)) as [E | E].
    + split; [discriminate | intros [H _]; now subst].
    + rewrite IH. split; [intros H; split; [congruence | assumption] | tauto].
Qed.

Lemma keys_set_mem (d : list (K * V)) (k : K) (v : V) :
  OD.mem d k = true -> OD.keys (OD.set d k v) = OD.keys d.
Proof.
  unfold OD.mem, OD.keys. induction d as [|[k' v'] d IH]; cbn; [discriminate|].
  destruct (decide (k' = k)) as [-> | Hne]; cbn; [reflexivity|].
  intros H. now rewrite IH.
Qed.

Lemma keys_set_new (d : list (K * V)) (k : K) (v : V) :
  OD.mem d k = false -> OD.keys (OD.set d k v) = (OD.keys d ++ [k])%list.
Proof.
  unfold OD.mem, OD.keys. induction d as [|[k' v'] d IH]; cbn; [reflexivity|].
  destruct (decide (k' = k)) as [-> | Hne]; cbn; [discriminate|].
  intros H. now rewrite IH.
Qed.

Lemma mem_keys (d : list (K * V)) (k : K) :
  OD.mem d k = true <-> k ∈ OD.keys d.
Proof.
  unfold OD.mem. pose proof (get_None_not_key d k) as H.
  destruct (OD.get d k); split; intros H'; try reflexivity; try discriminate.
  - destruct (decide (k ∈ OD.keys d)) as [|Hn]; [assumption|].
    apply H in Hn. discriminate.
  - exfalso. now apply H.
Qed.

Lemma keys_set_NoDup (d : list (K * V)) (k : K) (v : V) :
  NoDup (OD.keys d) -> NoDup (OD.keys (OD.set d k v)).
Proof.
  intros Hd. destruct (OD.mem d k) eqn:E.
  - now rewrite keys_set_mem.
  - rewrite keys_set_new by assumption.
    apply NoDup_app. split; [assumption|]. split; [| apply NoDup_singleton].
    intros x Hx Hk. apply list_elem_of_singleton in Hk. subst x.
    apply mem_keys in Hx. congruence.
Qed.

Lemma mem_set (d : list (K * V)) (k k' : K) (v : V) :
  OD.mem d k' = true -> OD.mem (OD.set d k v) k' = true.
Proof.
  unfold OD.mem. rewrite get_set. now destruct (decide (k = k')).
Qed.

Lemma elem_of_dict (d : list (K * V)) (k : K) (v : V) :
  NoDup (OD.keys d) -> (k, v) ∈ d <-> OD.get d k = Some v.
Proof.
  unfold OD.keys. induction d as [|[k' v'] d IH]; cbn; intros Hnd.
  - split; [intros H; now apply elem_of_nil in H | discriminate].
  - apply NoDup_cons in Hnd as [Hk Hnd]. rewrite elem_of_cons.
    destruct (decide (k' = k)) as [-> | Hne].
    + split.
      * intros [[= <-] | Hin]; [reflexivity|]. exfalso. apply Hk.
        apply list_elem_of_fmap. exists (k, v). split; [reflexivity | assumption].
      * intros [= ->]. now left.
    + rewrite <- (IH Hnd). split; [| now right].
      intros [[= -> ->] | Hin]; [contradiction | assumption].
Qed.

End DictFacts.

Section ParseAllColumns.
Import PyStr Transformer Transformer.ColumnParser.

(** [parse_column] returns a column or an error, never both and never
    neither. *)
Lemma parse_column_cases name :
  (exists pc, parse_column name = (Some pc, None))
  \/ (exists e, parse_column name = (None, Some e)).
Proof.
  unfold parse_column.
  destruct (name =? "")%string; [right; eauto|].
  destruct (negb (contains_char underscore (strip name))); [right; eauto|].
  match goal with
  | |- context [match ?r with inl _ => _ | inr _ => _ end] =>
      destruct r as [[[[ics cc] eid] fid] | e]
  end; [| right; eauto].
  destruct (eid =? "")%string; [right; eauto|].
  destruct (fid =? "")%string; [right; eauto | left; eauto].
Qed.

Lemma parse_one_cases i name :
  (exists pc, parse_column name = (Some pc, None)
              /\ parse_one i name = (pc, None))
  \/ (exists e, parse_column name = (None, Some e)
                /\ parse_one i name = (placeholder i name, Some e)).
Proof.
  unfold parse_one.
  destruct (parse_column_cases name) as [[pc H] | [e H]]; rewrite H;
    [left | right]; eauto.
Qed.

Lemma imap_shift {A B} (f : nat -> A -> B) (k : nat) (l : list A) :
  imap (fun i => f (S k + i)%nat) l = imap ((fun i => f (k + i)%nat) ∘ S) l.
Proof. apply imap_ext. intros i x _. simpl. now rewrite Nat.add_succ_r. Qed.

Lemma parse_all_columns_from_spec names : forall k cols errs,
  parse_all_columns_from k names cols errs
  = ((cols ++ imap (fun i name => fst (parse_one (k + i) name)) names)%list,
     (errs ++ omap id (imap (fun i name => snd (parse_one (k + i) name)) names))%list).
Proof.
  induction names as [|name names IH]; intros k cols errs.
  - simpl. now rewrite !app_nil_r.
  - cbn [parse_all_columns_from].
    destruct (parse_one k name) as [col err] eqn:E.
    rewrite IH.
    rewrite (imap_shift (fun i name => fst (parse_one i name))).
    rewrite (imap_shift (fun i name => snd (parse_one i name))).
    cbn [imap omap]. rewrite Nat.add_0_r, E. cbn [fst snd id].
    rewrite <- app_assoc. f_equal.
    destruct err; cbn; [now rewrite <- app_assoc | reflexivity].
Qed.

Lemma parse_errors_in_order names : forall k,
  omap id (imap (fun i name => snd (parse_one (k + i) name)) names)
  = omap (fun name => snd (parse_column name)) names.
Proof.
  induction names as [|name names IH]; intros k; [reflexivity|].
  cbn [imap].
  rewrite <- (imap_shift (fun i name => snd (parse_one i name))). cbv beta.
  cbn [omap list_omap]. fold (@omap list _ _ _ (@id (option TransformationError))).
  change (list_omap string TransformationError) with (@omap list _ string TransformationError).
  rewrite (IH (S k)). rewrite Nat.add_0_r.
  destruct (parse_one_cases k name) as [(pc & H1 & H2) | (e & H1 & H2)];
    rewrite H1, H2; reflexivity.
Qed.

(** C10. [parse_all_columns] returns one [ParsedColumn] per input name, in
    input order: position [i] holds the parsed column of the [i]-th name,
    or, when that name does not parse, the placeholder with element id
    [ERROR_<i>], the original name as field id and no country scope, its
    error being in the error list; the error list is the list of the
    parsing errors in input order. *)
Theorem C10_parse_all_columns_aligned (column_names : list string) :
  let cols := fst (parse_all_columns column_names) in
  let errs := snd (parse_all_columns column_names) in
  length cols = length column_names
  /\ (forall (i : nat) (name : string),
        column_names !! i = Some name ->
        (exists pc, parse_column name = (Some pc, None) /\ cols !! i = Some pc)
        \/ (exists e, parse_column name = (None, Some e)
              /\ cols !! i
                 = Some (mkParsedColumn name ("ERROR_" ++ of_nat i) name false
                           None ("ERROR_" ++ of_nat i ++ "." ++ name))
              /\ e ∈ errs))
  /\ errs = omap (fun name => snd (parse_column name)) column_names.
Proof.
  unfold parse_all_columns. rewrite parse_all_columns_from_spec.
  cbn [fst snd app Nat.add].
  split; [now rewrite length_imap|]. split.
  - intros i name Hi.
    rewrite list_lookup_imap, Hi. cbn [fmap option_fmap option_map].
    destruct (parse_one_cases i name) as [(pc & H1 & H2) | (e & H1 & H2)].
    + left. exists pc. now rewrite H2.
    + right. exists e. rewrite H2. cbn [fst snd].
      split; [assumption|]. split; [reflexivity|].
      apply list_elem_of_omap.
      exists (Some e). split; [| reflexivity].
      apply list_elem_of_lookup. exists i.
      now rewrite list_lookup_imap, Hi; simpl; rewrite H2.
  - apply (parse_errors_in_order column_names 0).
Qed.

Lemma C10_parse_all_columns_aligned_witness :
  (exists pc, parse_column "a_b" = (Some pc, None)
              /\ fst (parse_all_columns ["nounderscore"; "a_b"]) !! 1%nat = Some pc)
  \/ (exists e, parse_column "a_b" = (None, Some e)
        /\ fst (parse_all_columns ["nounderscore"; "a_b"]) !! 1%nat
           = Some (mkParsedColumn "a_b" ("ERROR_" ++ of_nat 1) "a_b" false
                     None ("ERROR_" ++ of_nat 1 ++ "." ++ "a_b"))
        /\ e ∈ snd (parse_all_columns ["nounderscore"; "a_b"])).
Proof.
  apply (proj1 (proj2 (C10_parse_all_columns_aligned ["nounderscore"; "a_b"]))
           1%nat "a_b").
  reflexivity.
Defined.

End ParseAllColumns.

(** ** Structure detector *)

Section StripFacts.
Import PyStr.

Lemma contains_char_lstrip c s :
  isspace_char c = false ->
  contains_char c (lstrip s) = contains_char c s.
Proof.
  intros Hc. induction s as [|x s IH]; [reflexivity|].
  cbn [lstrip]. destruct (isspace_char x) eqn:Hx; [| reflexivity].
  rewrite IH. unfold contains_char. cbn [existsb_str].
  destruct (Ascii.eqb c x) eqn:E; [| reflexivity].
  apply Ascii.eqb_eq in E. subst x. congruence.
Qed.

Lemma contains_char_rev_app c s1 s2 :
  contains_char c (String.rev_app s1 s2)
  = contains_char c s1 || contains_char c s2.
Proof.
  revert s2. induction s1 as [|x s1 IH]; intros s2; [reflexivity|].
  cbn [String.rev_app]. rewrite IH. unfold contains_char. cbn [existsb_str].
  destruct (Ascii.eqb c x); rewrite ?orb_true_r; cbn; reflexivity.
Qed.

Lemma contains_char_rev c s :
  contains_char c (String.rev s) = contains_char c s.
Proof. unfold String.rev. rewrite contains_char_rev_app. apply orb_false_r. Qed.

(** Stripping keeps every character that is not white space. *)
Lemma contains_char_strip c s :
  isspace_char c = false ->
  contains_char c (strip s) = contains_char c s.
Proof.
  intros Hc. unfold strip, rstrip.
  rewrite contains_char_rev, contains_char_lstrip, contains_char_rev by assumption.
  now apply contains_char_lstrip.
Qed.

End StripFacts.

Section DetectStructure.
Import PyStr CsvLoader CsvLoader.CsvLoaderErrors CsvLoader.StructureDetector.

Lemma validate_header_from_ok (header_row : list string) :
  forall (i : nat) (seen_columns : gset string),
    Forall well_formed_cell header_row ->
    NoDup (strip <$> header_row) ->
    (forall cell, cell ∈ header_row -> strip cell ∉ seen_columns) ->
    validate_header_from i header_row seen_columns = None.
Proof.
  induction header_row as [|cell cells IH]; intros i seen Hwf Hnd Hseen;
    [reflexivity|].
  cbn [validate_header_from].
  apply Forall_cons in Hwf as [[Hne Hus] Hwf].
  rewrite fmap_cons in Hnd. apply NoDup_cons in Hnd as [Hnotin Hnd].
  assert (contains_char underscore (strip cell) = true) as Hus'.
  { rewrite contains_char_strip; [assumption | reflexivity]. }
  destruct (cell =? "")%string eqn:E1; [apply String.eqb_eq in E1; contradiction|].
  destruct (strip cell =? "")%string eqn:E2.
  { apply String.eqb_eq in E2. rewrite E2 in Hus'. discriminate. }
  cbn [orb].
  rewrite decide_False by (apply Hseen; left).
  rewrite Hus'. cbn [negb].
  apply IH; [assumption | assumption |].
  intros c Hc. rewrite elem_of_union, elem_of_singleton.
  intros [Heq | Hin].
  - apply Hnotin. rewrite <- Heq. now apply list_elem_of_fmap_2.
  - apply (Hseen c); [right; assumption | assumption].
Qed.

(** C5 (amended). For every file whose first row has at least one cell,
    every cell being non-empty and containing an underscore, and the cells
    being pairwise distinct once surrounding white space is stripped,
    [detect_structure] returns a context and no error; the context has
    [data_start_index = 2] whatever row 2 holds, the header as its columns,
    and as errors only a [LABEL_COLUMN_MISMATCH] (severity [ERROR]) when
    row 2 has another width, then a [ROW_COLUMN_COUNT_MISMATCH] ([ERROR])
    when row 3 has another width or a [NO_DATA_ROWS] ([WARNING]) when there
    is no row 3; none of them is fatal. *)
Theorem C5_detect_structure_valid_header
    (header : list string) (rest : list (list string))
    (encoding : string) (dialect_info : CsvDialectInfo) :
  header <> [] ->
  Forall well_formed_cell header ->
  NoDup (strip <$> header) ->
  detect_structure (header :: rest) encoding dialect_info
    = (Some (mkCsvContext encoding dialect_info header (len header)
               (structure_errors header rest) true 2), None)
  /\ Forall (fun e => severity e <> FATAL) (structure_errors header rest)
  /\ severity no_data_rows = WARNING.
Proof.
  intros Hne Hwf Hnd.
  split; [| split; [| reflexivity]].
  - unfold detect_structure. cbn [take].
    unfold _validate_header_row.
    destruct header as [|cell cells]; [contradiction|].
    rewrite validate_header_from_ok; try assumption;
      [| intros c _; apply not_elem_of_empty].
    unfold structure_errors, _validate_data_row.
    change ((cell :: cells) :: take 2 rest) with ([cell :: cells] ++ take 2 rest)%list.
    rewrite !lookup_app_r by (cbn; lia). cbn [length Nat.sub].
    rewrite !lookup_take_lt by lia.
    destruct (rest !! 0%nat) as [labels|]; destruct (rest !! 1%nat) as [data_row|];
      repeat match goal with
             | |- context [(?a =? ?b)%Z] => destruct (a =? b)%Z
             end; reflexivity.
  - unfold structure_errors.
    destruct (rest !! 0%nat) as [labels|]; destruct (rest !! 1%nat) as [data_row|];
      repeat match goal with
             | |- context [(?a =? ?b)%Z] => destruct (a =? b)%Z
             end;
      repeat constructor; discriminate.
Qed.

Lemma C5_detect_structure_valid_header_witness :
  detect_structure [["a_b"; " c_d"]; ["only one label"]] "utf-8"
    (mkCsvDialectInfo "," "'" None true false)
  = (Some (mkCsvContext "utf-8" (mkCsvDialectInfo "," "'" None true false)
             ["a_b"; " c_d"] 2
             [label_column_mismatch 1 2 1; no_data_rows] true 2), None).
Proof.
  refine (proj1 (C5_detect_structure_valid_header ["a_b"; " c_d"]
                   [["only one label"]] "utf-8"
                   (mkCsvDialectInfo "," "'" None true false) _ _ _)).
  - discriminate.
  - repeat constructor; discriminate.
  - repeat constructor; vm_compute; intros H;
      repeat (apply elem_of_cons in H as [H | H]; [discriminate|]);
      now apply elem_of_nil in H.
Defined.

(** C5, as stated, fails: the cells of this header are non-empty, pairwise
    distinct and contain an underscore, yet the second one equals the first
    once stripped, and [detect_structure] returns no context and a fatal
    [DUPLICATED_COLUMN]. *)
Lemma C5_counterexample :
  let header := ["a_b"; "a_b "] in
  Forall well_formed_cell header
  /\ NoDup header
  /\ detect_structure [header; ["A"; "B"]; ["1"; "2"]] "utf-8"
       (mkCsvDialectInfo "," "'" None true false)
     = (None, Some (duplicated_column 0 1 "a_b"))
  /\ severity (duplicated_column 0 1 "a_b") = FATAL.
Proof.
  cbv zeta. split; [repeat constructor; discriminate|]. split.
  - repeat constructor; intros H;
      repeat (apply elem_of_cons in H as [H | H]; [discriminate|]);
      now apply elem_of_nil in H.
  - split; [vm_compute; reflexivity | reflexivity].
Qed.

End DetectStructure.

(** ** Batch reader *)

Section ReadBatches.
Import CsvLoader CsvLoader.CsvLoaderErrors CsvLoader.BatchReader.

Lemma BATCH_SIZE_pos : (0 < BATCH_SIZE)%Z.
Proof. reflexivity. Qed.

Lemma len_app {A} (l1 l2 : list A) : len (l1 ++ l2)%list = (len l1 + len l2)%Z.
Proof. unfold len. rewrite length_app. lia. Qed.

Lemma read_rows_spec (total_columns : Z) (rows : list (list string)) :
  forall (row_index : Z) (batch : list (list string))
         (errors : list NormalizedError),
    (len batch < BATCH_SIZE)%Z ->
    let r := read_rows total_columns rows row_index batch errors in
    concat (fst r)
      = (batch ++ filter (fun row => len row = total_columns) rows)%list
    /\ snd r
       = (errors
            ++ omap id
                 (imap (fun i row =>
                          mismatch_of total_columns (row_index + Z.of_nat i) row)
                    rows))%list
    /\ Forall (fun b => b <> [] /\ (len b <= BATCH_SIZE)%Z) (fst r)
    /\ (forall (i : nat) (b : list (list string)),
          fst r !! i = Some b -> (S i < length (fst r))%nat ->
          len b = BATCH_SIZE).
Proof.
  pose proof BATCH_SIZE_pos as Hpos.
  induction rows as [|row rows IH]; intros row_index batch errors Hb.
  - cbn [read_rows]. destruct batch as [|x batch]; cbn.
    + split; [reflexivity|]. split; [now rewrite app_nil_r|].
      split; [constructor|]. intros i b H. now rewrite lookup_nil in H.
    + rewrite !app_nil_r. split; [reflexivity|]. split; [reflexivity|]. split.
      * constructor; [| constructor]. split; [discriminate | lia].
      * intros [|i] b H1 H2; simpl in H2; lia.
  - cbn [read_rows imap omap list_omap].
    assert (Hshift :
      imap ((fun i row0 =>
               mismatch_of total_columns (row_index + Z.of_nat i) row0) ∘ S) rows
      = imap (fun i row0 =>
                mismatch_of total_columns (row_index + 1 + Z.of_nat i) row0) rows).
    { apply imap_ext. intros i x _. simpl. f_equal. lia. }
    rewrite Hshift. clear Hshift.
    rewrite filter_cons. unfold mismatch_of at 1.
    rewrite Z.add_0_r.
    destruct (len row =? total_columns)%Z eqn:E; cbn [negb id].
    + apply Z.eqb_eq in E. rewrite decide_True by assumption.
      destruct (BATCH_SIZE <=? len (batch ++ [row])%list)%Z eqn:F.
      * apply Z.leb_le in F. rewrite len_app in F.
        assert (len (batch ++ [row])%list = BATCH_SIZE) as Hfull.
        { rewrite len_app. unfold len in *. simpl in *. lia. }
        specialize (IH (row_index + 1)%Z [] errors Hpos).
        destruct (read_rows total_columns rows (row_index + 1) [] errors)
          as [batches errs].
        cbn [fst snd] in *. destruct IH as (IH1 & IH2 & IH3 & IH4).
        repeat split.
        -- cbn [concat]. rewrite IH1. now rewrite <- app_assoc.
        -- exact IH2.
        -- constructor; [| assumption]. split; [| lia].
           destruct batch; discriminate.
        -- intros [|i] b H1 H2; simpl in H1, H2.
           ++ now inversion H1; subst.
           ++ apply (IH4 i b H1). lia.
      * apply Z.leb_gt in F.
        specialize (IH (row_index + 1)%Z (batch ++ [row])%list errors F).
        destruct IH as (IH1 & IH2 & IH3 & IH4).
        repeat split; try assumption.
        rewrite IH1. now rewrite <- app_assoc.
    + apply Z.eqb_neq in E. rewrite decide_False by assumption.
      specialize (IH (row_index + 1)%Z batch
                    (errors ++ [row_column_mismatch row_index total_columns (len row)])%list
                    Hb).
      destruct IH as (IH1 & IH2 & IH3 & IH4).
      repeat split; try assumption.
      rewrite IH2. now rewrite <- app_assoc.
Qed.

Lemma mismatch_of_shape total_columns row_index row e :
  mismatch_of total_columns row_index row = Some e ->
  code e = "ROW_COLUMN_COUNT_MISMATCH"
  /\ severity e = ERROR
  /\ CsvLoader.row_index e = Some row_index.
Proof.
  unfold mismatch_of. destruct (len row =? total_columns)%Z; [discriminate|].
  intros H. inversion H. now subst.
Qed.

(** C6. [read_batches] skips the first [data_start_index] rows; the
    batches it yields, concatenated, are exactly the remaining rows whose
    cell count equals [total_columns], in file order; every batch is
    non-empty and holds at most 10,000 rows, and all but the last hold
    exactly 10,000; the error list holds, in file order, one
    [ROW_COLUMN_COUNT_MISMATCH] of severity [ERROR] per excluded row,
    carrying that row's index in the file. *)
Theorem C6_read_batches_streams_valid_rows
    (file : list (list string)) (context : CsvContext) :
  (0 <= data_start_index context)%Z ->
  let skipped := Z.to_nat (data_start_index context) in
  let batches := fst (read_batches file context) in
  let errors := snd (read_batches file context) in
  BATCH_SIZE = 10000%Z
  /\ concat batches
     = filter (fun row => len row = total_columns context) (drop skipped file)
  /\ Forall (fun b => b <> [] /\ (len b <= BATCH_SIZE)%Z) batches
  /\ all_but_last_full batches
  /\ errors
     = omap id
         (imap (fun i row =>
                  mismatch_of (total_columns context)
                    (data_start_index context + Z.of_nat i) row)
            (drop skipped file))
  /\ (forall (j : nat) (row : list string),
        file !! j = Some row -> (skipped <= j)%nat ->
        len row <> total_columns context ->
        exists e, e ∈ errors
                  /\ code e = "ROW_COLUMN_COUNT_MISMATCH"
                  /\ severity e = ERROR
                  /\ CsvLoader.row_index e = Some (Z.of_nat j))
  /\ (forall e, e ∈ errors ->
        code e = "ROW_COLUMN_COUNT_MISMATCH" /\ severity e = ERROR).
Proof.
  intros Hstart skipped batches errors.
  pose proof (read_rows_spec (total_columns context) (drop skipped file)
                (data_start_index context) [] [] BATCH_SIZE_pos)
    as (H1 & H2 & H3 & H4).
  subst batches errors. unfold read_batches. fold skipped.
  cbn [app] in H1, H2.
  split; [reflexivity|]. split; [assumption|]. split; [assumption|].
  split; [exact H4|]. split; [assumption|]. split.
  - intros j row Hj Hle Hbad.
    exists (row_column_mismatch (Z.of_nat j) (total_columns context) (len row)).
    split; [| now repeat split].
    rewrite H2. apply list_elem_of_omap.
    exists (Some (row_column_mismatch (Z.of_nat j) (total_columns context) (len row))).
    split; [| reflexivity].
    apply list_elem_of_lookup. exists (j - skipped)%nat.
    rewrite list_lookup_imap, lookup_drop.
    replace (skipped + (j - skipped))%nat with j by lia.
    rewrite Hj. cbn. unfold mismatch_of.
    destruct (len row =? total_columns context)%Z eqn:E;
      [apply Z.eqb_eq in E; contradiction|].
    do 3 f_equal. subst skipped. lia.
  - intros e He. rewrite H2 in He.
    apply list_elem_of_omap in He as (o & Ho & Hid). unfold id in Hid. subst o.
    apply list_elem_of_lookup in Ho as (i & Hi).
    rewrite list_lookup_imap in Hi.
    destruct (drop skipped file !! i) as [row|]; [| discriminate].
    cbn in Hi. inversion Hi as [Hm].
    apply mismatch_of_shape in Hm. tauto.
Qed.

Lemma C6_read_batches_streams_valid_rows_witness :
  let file := [["a_b"; "c_d"]; ["A"; "C"]; ["1"; "2"]; ["3"]; ["4"; "5"]] in
  let context :=
    mkCsvContext "utf-8" (mkCsvDialectInfo "," "'" None true false)
      ["a_b"; "c_d"] 2 [] true 2 in
  concat (fst (read_batches file context)) = [["1"; "2"]; ["4"; "5"]]
  /\ exists e, e ∈ snd (read_batches file context)
               /\ CsvLoader.row_index e = Some 3%Z.
Proof.
  intros file context.
  pose proof (C6_read_batches_streams_valid_rows file context) as H.
  destruct H as (_ & H1 & _ & _ & _ & H2 & _); [subst context; cbn; lia|].
  split; [exact H1|].
  destruct (H2 3%nat ["3"]) as (e & He & _ & _ & Hi);
    [reflexivity | subst context; vm_compute; lia
     | subst context; vm_compute; discriminate |].
  exists e. split; assumption.
Defined.

End ReadBatches.

(** ** Encoding resolver *)

Section DetectEncoding.
Import CsvLoader CsvLoader.CsvLoaderErrors CsvLoader.EncodingResolver.

Lemma find_first {A} (P : A -> bool) (pre : list A) (x : A) (post : list A) :
  Forall (fun y => P y = false) pre -> P x = true ->
  find P (pre ++ x :: post)%list = Some x.
Proof.
  induction pre as [|y pre IH]; intros Hpre Hx; cbn.
  - now rewrite Hx.
  - apply Forall_cons in Hpre as [Hy Hpre]. rewrite Hy. now apply IH.
Qed.

Lemma find_none {A} (P : A -> bool) (l : list A) :
  Forall (fun y => P y = false) l -> find P l = None.
Proof.
  induction l as [|y l IH]; intros H; cbn; [reflexivity|].
  apply Forall_cons in H as [Hy H]. rewrite Hy. now apply IH.
Qed.

(** X26. On a non-empty sample for which the detector names an
    encoding and the confident path does not return, [detect_encoding]
    walks [utf-8-sig, utf-8, latin-1, cp1252, iso-8859-1]: it returns the
    first encoding that decodes the sample strictly, with no error; when
    none does, it returns the first that decodes with substitution,
    together with an [INVALID_CHARACTERS] error whose severity is [ERROR];
    when none decodes at all it returns a fatal
    [ENCODING_DETECTION_FAILED].  An empty file yields a fatal
    [EMPTY_FILE]. *)
Theorem detect_encoding_fallback_order (env : Codecs) (file : list Byte.byte) :
  let raw_data := take (Z.to_nat 10000) file in
  ENCODING_PRIORITY = ["utf-8-sig"; "utf-8"; "latin-1"; "cp1252"; "iso-8859-1"]
  /\ (raw_data = [] ->
      detect_encoding env file = Returns (None, Some empty_file)
      /\ severity empty_file = FATAL)
  /\ (forall name : string,
        raw_data <> [] ->
        detected (chardet_detect env raw_data) = Some name ->
        confident_path env raw_data name = false ->
        (forall pre encoding post,
            ENCODING_PRIORITY = (pre ++ encoding :: post)%list ->
            Forall (fun e => decodes_strictly env raw_data e = false) pre ->
            decodes_strictly env raw_data encoding = true ->
            detect_encoding env file = Returns (Some encoding, None))
        /\ (Forall (fun e => decodes_strictly env raw_data e = false)
              ENCODING_PRIORITY ->
            (forall pre encoding post,
                ENCODING_PRIORITY = (pre ++ encoding :: post)%list ->
                Forall (fun e => decode_replace env e raw_data = false) pre ->
                decode_replace env encoding raw_data = true ->
                detect_encoding env file
                = Returns (Some encoding, Some (invalid_characters 0 0)))
            /\ (Forall (fun e => decode_replace env e raw_data = false)
                  ENCODING_PRIORITY ->
                detect_encoding env file
                = Returns (None, Some encoding_detection_failed))))
  /\ code (invalid_characters 0 0) = "INVALID_CHARACTERS"
  /\ severity (invalid_characters 0 0) = ERROR
  /\ severity encoding_detection_failed = FATAL.
Proof.
  intros raw_data.
  split; [reflexivity|]. split; [| split; [| repeat split]].
  - intros Hempty. unfold detect_encoding. fold raw_data. rewrite Hempty.
    split; reflexivity.
  - intros name Hne Hname Hpath.
    assert (detect_encoding env file = Returns (fallback env raw_data)) as Hfb.
    { unfold detect_encoding. fold raw_data.
      destruct raw_data as [|b raw] eqn:Eraw; [contradiction|].
      rewrite Hname. unfold confident_path in Hpath.
      destruct (high_confidence _ && negb _); [| reflexivity].
      cbn [andb] in Hpath. now rewrite Hpath. }
    rewrite Hfb. unfold fallback. split.
    + intros pre encoding post Hlist Hpre Henc.
      rewrite Hlist. now rewrite find_first.
    + intros Hnone. rewrite (find_none _ _ Hnone). split.
      * intros pre encoding post Hlist Hpre Henc.
        rewrite Hlist. now rewrite find_first.
      * intros Hnone'. now rewrite (find_none _ _ Hnone').
Qed.

Lemma detect_encoding_fallback_order_witness :
  detect_encoding latin_only [Byte.xe9] = Returns (Some "latin-1", None).
Proof.
  refine (proj1 (proj1 (proj2 (proj2
            (detect_encoding_fallback_order latin_only [Byte.xe9])))
            "Windows-1254" _ _ _) ["utf-8-sig"; "utf-8"] "latin-1"
            ["cp1252"; "iso-8859-1"] _ _ _).
  - discriminate.
  - reflexivity.
  - reflexivity.
  - reflexivity.
  - repeat constructor.
  - reflexivity.
Defined.

(** C7 (evaluation at the failing input). On a non-empty sample for
    which the detector names no encoding, [detect_encoding] raises
    [AttributeError], on [result.get('encoding', '').lower()], and never
    walks the priority list.  So it does on [escape_sample], a sample
    every encoding of the list decodes strictly and for which the walk
    returns [utf-8-sig] without error. *)
Theorem C7_undetected_encoding_raises :
  (forall (env : Codecs) (file : list Byte.byte),
      let raw_data := take (Z.to_nat 10000) file in
      raw_data <> [] ->
      detected (chardet_detect env raw_data) = None ->
      detect_encoding env file = Raises "AttributeError")
  /\ detect_encoding undetected escape_sample = Raises "AttributeError"
  /\ Forall (fun encoding =>
               decodes_strictly undetected escape_sample encoding = true)
       ENCODING_PRIORITY
  /\ fallback undetected escape_sample = (Some "utf-8-sig", None).
Proof.
  split; [| split; [reflexivity | split; [repeat constructor | reflexivity]]].
  intros env file raw_data Hne Hnone. unfold detect_encoding.
  fold raw_data. destruct raw_data as [|b raw] eqn:E; [contradiction|].
  now rewrite Hnone.
Qed.

End DetectEncoding.

(** ** Batching *)

Section Batching.
Import CsvLoader Transformer.

Lemma indices_transform_row row_values row_index csv_start_index c2e ents :
  indices (RowTransformer.transform_row row_values row_index csv_start_index
             c2e ents)
  = (row_index, (csv_start_index + row_index)%Z).
Proof.
  unfold RowTransformer.transform_row.
  destruct (RowTransformer.transform_cells _ _ _ _ _ _ _). reflexivity.
Qed.

Lemma transform_batch_from_lookup (rows : list (list string)) :
  forall (row_offset batch_len batch_index csv_start_index : Z) c2e ents
         (i : nat) (row : list string),
    rows !! i = Some row ->
    RowTransformer.transform_batch_from row_offset rows batch_len batch_index
      csv_start_index c2e ents !! i
    = Some (RowTransformer.transform_row row
              (batch_index * batch_len + (row_offset + Z.of_nat i))%Z
              csv_start_index c2e ents).
Proof.
  induction rows as [|r rows IH]; intros off bl bi start c2e ents i row Hi;
    [now rewrite lookup_nil in Hi|].
  cbn [RowTransformer.transform_batch_from].
  destruct i as [|i]; cbn [lookup list_lookup] in *.
  - inversion Hi; subst. do 3 f_equal. cbn. lia.
  - rewrite (IH _ _ _ _ _ _ _ _ Hi). do 3 f_equal. lia.
Qed.

(** The indices [transform_batch] gives the row at offset [i] of a batch. *)
Lemma transform_batch_indices (batch_rows : list (list string))
    (batch_index csv_start_index : Z) c2e ents (i : nat) (row : list string) :
  batch_rows !! i = Some row ->
  indices <$> RowTransformer.transform_batch batch_rows batch_index
                csv_start_index c2e ents !! i
  = Some ((batch_index * len batch_rows + Z.of_nat i)%Z,
          (csv_start_index + (batch_index * len batch_rows + Z.of_nat i))%Z).
Proof.
  intros Hi. unfold RowTransformer.transform_batch.
  rewrite (transform_batch_from_lookup _ _ _ _ _ _ _ _ _ Hi).
  cbn [fmap option_fmap option_map]. rewrite indices_transform_row.
  now rewrite Z.add_0_l.
Qed.

Lemma transform_batch_from_length (rows : list (list string)) :
  forall row_offset batch_len batch_index csv_start_index c2e ents,
    length (RowTransformer.transform_batch_from row_offset rows batch_len
              batch_index csv_start_index c2e ents) = length rows.
Proof.
  induction rows as [|r rows IH]; intros; cbn; [reflexivity | now rewrite IH].
Qed.

Lemma transform_batch_length batch_rows batch_index csv_start_index c2e ents :
  length (RowTransformer.transform_batch batch_rows batch_index csv_start_index
            c2e ents) = length batch_rows.
Proof. apply transform_batch_from_length. Qed.

Lemma len_app_list {A} (l1 l2 : list A) :
  len (l1 ++ l2)%list = (len l1 + len l2)%Z.
Proof. unfold len. rewrite length_app. lia. Qed.

(** The reader on rows that all have the width of the header: a chunk that
    completes the batch is yielded, and reading goes on after it. *)
Lemma read_rows_full_chunk (total_columns : Z) (chunk : list (list string)) :
  forall (rest : list (list string)) (row_index : Z)
         (batch : list (list string)) (errors : list NormalizedError),
    Forall (fun row => len row = total_columns) chunk ->
    chunk <> [] ->
    len (batch ++ chunk)%list = BatchReader.BATCH_SIZE ->
    BatchReader.read_rows total_columns (chunk ++ rest)%list row_index batch errors
    = ((batch ++ chunk)%list
         :: fst (BatchReader.read_rows total_columns rest
                   (row_index + len chunk)%Z [] errors),
       snd (BatchReader.read_rows total_columns rest
              (row_index + len chunk)%Z [] errors)).
Proof.
  induction chunk as [|row chunk IH]; intros rest row_index batch errors Hv Hne Hlen;
    [contradiction|].
  apply Forall_cons in Hv as [Hrow Hv].
  cbn [app BatchReader.read_rows].
  apply Z.eqb_eq in Hrow. rewrite Hrow. cbn [negb].
  change (row :: chunk) with ([row] ++ chunk)%list in Hlen.
  rewrite app_assoc in Hlen.
  destruct chunk as [|row' chunk'].
  - rewrite app_nil_r in Hlen. rewrite Hlen, Z.leb_refl. cbn [app].
    destruct (BatchReader.read_rows total_columns rest (row_index + 1) [] errors)
      as [bs es] eqn:E.
    change (len [row]) with 1%Z. rewrite E. reflexivity.
  - assert ((BatchReader.BATCH_SIZE <=? len (batch ++ [row])%list)%Z = false) as ->.
    { apply Z.leb_gt. rewrite len_app_list in Hlen.
      unfold len in Hlen at 2. cbn [length] in Hlen. lia. }
    rewrite (IH rest (row_index + 1)%Z (batch ++ [row])%list errors Hv
               ltac:(discriminate) Hlen).
    rewrite <- app_assoc. cbn [app].
    replace (row_index + 1 + len (row' :: chunk'))%Z
      with (row_index + len (row :: row' :: chunk'))%Z
      by (unfold len; cbn [length]; lia).
    reflexivity.
Qed.

(** The rows left over at the end of the file form the last batch. *)
Lemma read_rows_last_chunk (total_columns : Z) (chunk : list (list string)) :
  forall (row_index : Z) (batch : list (list string))
         (errors : list NormalizedError),
    Forall (fun row => len row = total_columns) chunk ->
    (batch ++ chunk)%list <> [] ->
    (len (batch ++ chunk)%list < BatchReader.BATCH_SIZE)%Z ->
    BatchReader.read_rows total_columns chunk row_index batch errors
    = ([(batch ++ chunk)%list], errors).
Proof.
  induction chunk as [|row chunk IH]; intros row_index batch errors Hv Hne Hlen.
  - rewrite app_nil_r in *. cbn [BatchReader.read_rows].
    destruct batch; [contradiction | reflexivity].
  - apply Forall_cons in Hv as [Hrow Hv].
    cbn [BatchReader.read_rows].
    apply Z.eqb_eq in Hrow. rewrite Hrow. cbn [negb].
    change (row :: chunk) with ([row] ++ chunk)%list in Hlen, Hne |- *.
    rewrite app_assoc in Hlen, Hne. rewrite app_assoc.
    assert ((BatchReader.BATCH_SIZE <=? len (batch ++ [row])%list)%Z = false) as ->.
    { apply Z.leb_gt. rewrite len_app_list in Hlen.
      assert (0 <= len chunk)%Z by (unfold len; lia). lia. }
    now apply IH.
Qed.

Lemma len_replicate {A} (n : nat) (x : A) : len (replicate n x) = Z.of_nat n.
Proof. unfold len. now rewrite length_replicate. Qed.

(** The batches of a file of 25,000 well-formed rows. *)
Lemma batches_of_25000 :
  fst (BatchReader.read_batches (file_of_rows (Z.to_nat 25000)) one_column_csv)
  = [replicate (Z.to_nat 10000) ["x"]; replicate (Z.to_nat 10000) ["x"];
     replicate (Z.to_nat 5000) ["x"]].
Proof.
  unfold BatchReader.read_batches, file_of_rows.
  change (Z.to_nat (data_start_index one_column_csv)) with 2%nat.
  cbn [drop skipn]. rewrite ?drop_0.
  change (total_columns one_column_csv) with 1%Z.
  change (data_start_index one_column_csv) with 2%Z.
  replace (Z.to_nat 25000)
    with (Z.to_nat 10000 + (Z.to_nat 10000 + Z.to_nat 5000))%nat by lia.
  rewrite !replicate_add.
  assert (forall n, Forall (fun row : list string => len row = 1%Z)
                      (replicate n ["x"])) as Hvalid
    by (intros n; apply Forall_replicate; reflexivity).
  assert (forall n : nat, (0 < n)%nat -> replicate n ["x"] <> []) as Hne
    by (intros [|n] Hn; [lia | discriminate]).
  rewrite (read_rows_full_chunk 1 (replicate (Z.to_nat 10000) ["x"]));
    [| apply Hvalid | apply Hne; lia
     | cbn [app]; rewrite len_replicate; unfold BatchReader.BATCH_SIZE; lia].
  rewrite (read_rows_full_chunk 1 (replicate (Z.to_nat 10000) ["x"]));
    [| apply Hvalid | apply Hne; lia
     | cbn [app]; rewrite len_replicate; unfold BatchReader.BATCH_SIZE; lia].
  rewrite (read_rows_last_chunk 1 (replicate (Z.to_nat 5000) ["x"]));
    [| apply Hvalid | cbn [app]; apply Hne; lia
     | cbn [app]; rewrite len_replicate; unfold BatchReader.BATCH_SIZE; lia].
  reflexivity.
Qed.

(** C1 (evaluation at the failing input). A file of 25,000 well-formed data
    rows is transformed in batches of 10,000, 10,000 and 5,000 rows.
    Transformed as one batch, the data row at position 20,000 has
    [original_row_index = 20000] and [csv_row_index = 20002]; in the
    batched run it has [original_row_index = 10000] and
    [csv_row_index = 10002], the indices the row at position 10,000
    already carries. *)
Theorem C1_partial_batch_restarts_row_indices :
  let file := file_of_rows (Z.to_nat 25000) in
  let results :=
    ValidationOrchestrator.transform_file file one_column_csv one_column_context in
  let batched := ValidationOrchestrator.rows_of_run results in
  map (fun r => len (transformed_rows r)) results = [10000; 10000; 5000]%Z
  /\ indices <$> single_batch file !! Z.to_nat 20000 = Some (20000, 20002)%Z
  /\ indices <$> batched !! Z.to_nat 20000 = Some (10000, 10002)%Z
  /\ indices <$> batched !! Z.to_nat 10000 = Some (10000, 10002)%Z.
Proof.
  intros file results batched. subst batched results file.
  unfold ValidationOrchestrator.transform_file. rewrite batches_of_25000.
  unfold ValidationOrchestrator.transform_stream,
    ValidationOrchestrator.rows_of_run,
    TransformationOrchestrator._transform_batch.
  cbn [imap flat_map map transformed_rows compose].
  rewrite app_nil_r.
  assert (forall (n i : nat), (i < n)%nat ->
            replicate n ["x"] !! i = Some ["x"]) as Hrow
    by (intros n i Hi; now apply lookup_replicate_2).
  split; [| split; [| split]].
  - unfold len. rewrite !transform_batch_length, !length_replicate.
    repeat f_equal; lia.
  - unfold single_batch, file_of_rows. cbn [drop skipn]. rewrite ?drop_0.
    rewrite (transform_batch_indices _ _ _ _ _ _ ["x"]) by (apply Hrow; lia).
    rewrite len_replicate. f_equal; lia.
  - rewrite lookup_app_r by (rewrite transform_batch_length, length_replicate; lia).
    rewrite lookup_app_r
      by (rewrite !transform_batch_length, !length_replicate; lia).
    rewrite !transform_batch_length, !length_replicate.
    rewrite (transform_batch_indices _ _ _ _ _ _ ["x"]) by (apply Hrow; lia).
    rewrite len_replicate.
    change (data_start_index (csv_context one_column_context)) with 2%Z.
    f_equal; lia.
  - rewrite lookup_app_r by (rewrite transform_batch_length, length_replicate; lia).
    rewrite lookup_app_l
      by (rewrite !transform_batch_length, !length_replicate; lia).
    rewrite !transform_batch_length, !length_replicate.
    rewrite (transform_batch_indices _ _ _ _ _ _ ["x"]) by (apply Hrow; lia).
    rewrite len_replicate.
    change (data_start_index (csv_context one_column_context)) with 2%Z.
    f_equal; lia.
Qed.

End Batching.

(** ** Report aggregation *)

Section Aggregation.
Import Comparator Comparator.ComparatorErrors Reporting
       Reporting.ReportAggregator.

(** Every severity of [ValidationSeverity] maps to the level the claim
    names; [INFO] is left for an error object without a severity. *)
Lemma level_of_severity_table :
  level_of_severity (Some FATAL) = LevelERROR
  /\ level_of_severity (Some ERROR) = LevelERROR
  /\ level_of_severity (Some WARNING) = LevelWARNING
  /\ level_of_severity None = LevelINFO.
Proof. repeat split. Qed.

Lemma entries_follow_errors (batch_results : list BatchValidationResult) :
  entries (create_report batch_results "csv" "schema")
  = map convert_error (all_errors batch_results)
  /\ forall e, level (convert_error e) = level_of_severity (Some (err_severity e)).
Proof. split; reflexivity. Qed.

(** The counter of [identificador_counts] has a single key, the name of
    the identifier column, whatever identifiers the errors carry. *)
Lemma identificador_counts_fold (errors : list ValidationError) :
  forall m : ValidationMetrics,
    identificador_counts (fold_left count_error errors m)
    = fold_left (fun d _ => bump d "personInfo_person-id-external") errors
        (identificador_counts m).
Proof.
  induction errors as [|e errors IH]; intros m; [reflexivity|].
  cbn [fold_left]. now rewrite IH.
Qed.

Lemma identificador_counts_other_key (errors : list ValidationError) (k : string) :
  k <> "personInfo_person-id-external" ->
  forall d : gmap string Z,
    fold_left (fun d _ => bump d "personInfo_person-id-external") errors d !! k
    = d !! k.
Proof.
  intros Hk. induction errors as [|e errors IH]; intros d; [reflexivity|].
  cbn [fold_left]. rewrite IH. unfold bump. now rewrite lookup_insert_ne.
Qed.

(** C9 (evaluation at the failing input). On three errors, two carrying the
    business identifier [E001] and one [E002], the report entries carry
    those identifiers and the level [ERROR], and the metrics count three
    errors under the code and under the severity; but
    [identificador_counts] has no entry for [E001] or [E002]: its only key
    is the column name [personInfo_person-id-external], with the total
    number of errors. *)
Theorem C9_identifier_counts_keyed_by_column_name :
  let report := create_report [sample_batch] "golden.csv" "SF_v1" in
  map identificador (entries report) = [Some "E001"; Some "E001"; Some "E002"]
  /\ map level (entries report) = [LevelERROR; LevelERROR; LevelERROR]
  /\ error_counts (metrics report) !! "REQUIRED_VALUE_MISSING" = Some 3%Z
  /\ severity_counts (metrics report) !! "ERROR" = Some 3%Z
  /\ identificador_counts (metrics report) !! "E001" = None
  /\ identificador_counts (metrics report) !! "E002" = None
  /\ identificador_counts (metrics report) !! "personInfo_person-id-external"
     = Some 3%Z.
Proof. vm_compute. repeat split. Qed.

End Aggregation.

(** ** Rule engine: failure isolation *)

Section RuleIsolation.
Import Comparator Comparator.ComparatorErrors Comparator.Engine.

(** The field rules run one after the other, each on its own. *)
Lemma validate_field_app (self : RuleEngine) (rules1 rules2 : list BaseRule)
    entity_id field_metadata value row_index csv_row_index column_name
    person_id_external context m :
  resolved_metadata context entity_id field_metadata column_name = Some m ->
  _validate_field (with_field_rules self (rules1 ++ rules2)%list) entity_id
    field_metadata value row_index csv_row_index column_name
    person_id_external context
  = (_validate_field (with_field_rules self rules1) entity_id field_metadata
       value row_index csv_row_index column_name person_id_external context
     ++ _validate_field (with_field_rules self rules2) entity_id
          field_metadata value row_index csv_row_index column_name
          person_id_external context)%list.
Proof.
  intros Hm. unfold _validate_field. rewrite Hm. cbn [_field_rules with_field_rules].
  apply flat_map_app.
Qed.

Lemma validate_triple_in_batch (self : RuleEngine)
    (context : ValidationContext)
    (batch_rows : list Transformer.TransformedRow) (batch_index : Z)
    (row : Transformer.TransformedRow) (entity_id : string)
    (entity_data : list (string * string)) (field_id value : string)
    (err : ValidationError) :
  row ∈ batch_rows ->
  (entity_id, entity_data) ∈ Transformer.data_by_entity row ->
  (field_id, value) ∈ entity_data ->
  err ∈ validate_triple self row context (row_person_id_external context row)
          entity_id field_id value ->
  err ∈ batch_errors (validate_batch self batch_rows batch_index context).
Proof.
  intros Hrow Hentity Hfield Herr.
  unfold validate_batch. cbn [batch_errors].
  rewrite !elem_of_app. right. right.
  apply list_elem_of_In, in_flat_map. exists row.
  split; [now apply list_elem_of_In|].
  unfold _validate_row. apply in_flat_map. exists (entity_id, entity_data).
  split; [now apply list_elem_of_In|].
  apply in_flat_map. exists (field_id, value).
  split; apply list_elem_of_In; assumption.
Qed.

Lemma context_rule_in_batch (self : RuleEngine) (context : ValidationContext)
    (batch_rows : list Transformer.TransformedRow) (batch_index : Z)
    (rule : BaseRule) (err : ValidationError) :
  rule ∈ _global_rules self \/ rule ∈ _entity_rules self ->
  err ∈ run_context_rule context rule ->
  err ∈ batch_errors (validate_batch self batch_rows batch_index context).
Proof.
  intros Hrule Herr. unfold validate_batch. cbn [batch_errors].
  rewrite !elem_of_app.
  destruct Hrule as [Hrule | Hrule]; [left | right; left];
    apply list_elem_of_In, in_flat_map; exists rule;
    split; apply list_elem_of_In; assumption.
Qed.

(** C4. A rule whose [validate] (or [should_skip]) raises while a batch is
    validated contributes exactly one [RULE_EXECUTION_FAILED] error, of
    severity [FATAL], whose details name the rule's id; the rules before
    and after it in the same scope contribute what they contribute without
    it, on the same field and in the same batch; and [validate_batch]
    returns its result for the whole batch, the errors of the three scopes
    in order, those of a row being the errors of [_validate_field] on
    each of its triples.  In the errors of the batch are, for every
    enabled global or entity rule, the failure of the rule when its
    [validate] raises and else every error it returns; and, for every
    triple of every row whose metadata resolves (as it does when the
    index holds its [entity_field] path) and every enabled field rule,
    the failure of the rule when it raises, and every error it returns
    when it is not skipped, whatever the other rules do.  A run returns
    one such result per batch. *)
Theorem C4_rule_failure_isolated
    (self : RuleEngine) (context : ValidationContext)
    (pre post : list BaseRule) (rule : BaseRule) (msg : string) :
  (* field scope *)
  (forall entity_id field_metadata value row_index csv_row_index column_name
          person_id_external m,
      resolved_metadata context entity_id field_metadata column_name = Some m ->
      should_skip rule (Some m) (Some value) = Raises msg
      \/ (should_skip rule (Some m) (Some value) = Returns false
          /\ validate rule context
               (mkRuleArgs (Some entity_id) (Some m) (Some value)
                  (Some row_index) (Some csv_row_index) column_name
                  person_id_external) = Raises msg) ->
      _validate_field (with_field_rules self (pre ++ rule :: post)%list)
        entity_id field_metadata value row_index csv_row_index column_name
        person_id_external context
      = (_validate_field (with_field_rules self pre) entity_id field_metadata
           value row_index csv_row_index column_name person_id_external context
         ++ [rule_execution_failed (rule_id rule)
               ("field " ++ entity_id ++ "."
                  ++ working_field_id field_metadata column_name ++ ": " ++ msg)
               None]
         ++ _validate_field (with_field_rules self post) entity_id
              field_metadata value row_index csv_row_index column_name
              person_id_external context)%list)
  (* global and entity scope *)
  /\ (validate rule context no_args = Raises msg ->
      _execute_global_rules (with_global_rules self (pre ++ rule :: post)%list)
        context
      = (_execute_global_rules (with_global_rules self pre) context
         ++ [rule_execution_failed (rule_id rule) msg None]
         ++ _execute_global_rules (with_global_rules self post) context)%list
      /\ _execute_entity_rules (with_entity_rules self (pre ++ rule :: post)%list)
           context
         = (_execute_entity_rules (with_entity_rules self pre) context
            ++ [rule_execution_failed (rule_id rule) msg None]
            ++ _execute_entity_rules (with_entity_rules self post) context)%list)
  (* the error *)
  /\ (forall details,
        let e := rule_execution_failed (rule_id rule) details None in
        err_code e = "RULE_EXECUTION_FAILED"
        /\ err_severity e = FATAL
        /\ err_details e = Some [("rule_id", rule_id rule)])
  (* the batch *)
  /\ (forall batch_rows batch_index,
        let result := validate_batch self batch_rows batch_index context in
        processed_rows result = len batch_rows
        /\ batch_errors result
           = (_execute_global_rules self context
              ++ _execute_entity_rules self context
              ++ flat_map (fun row => _validate_row self row context) batch_rows)%list)
  (* the rows of the batch *)
  /\ (forall row,
        _validate_row self row context
        = flat_map
            (fun '(entity_id, entity_data) =>
               flat_map
                 (fun '(field_id, value) =>
                    _validate_field self entity_id
                      (row_field_metadata context entity_id field_id) value
                      (Transformer.original_row_index row)
                      (Transformer.csv_row_index row)
                      (_get_column_name context entity_id field_id)
                      (row_person_id_external context row) context)
                 entity_data)
            (Transformer.data_by_entity row))
  (* every global and entity rule, in the errors of the batch *)
  /\ (forall batch_rows batch_index other,
        other ∈ _global_rules self \/ other ∈ _entity_rules self ->
        let result := validate_batch self batch_rows batch_index context in
        match validate other context no_args with
        | Raises e =>
            rule_execution_failed (rule_id other) e None ∈ batch_errors result
        | Returns rule_errors =>
            forall err, err ∈ rule_errors -> err ∈ batch_errors result
        end)
  (* every field rule on every triple, in the errors of the batch *)
  /\ (forall batch_rows batch_index row entity_id entity_data field_id value
             m other,
        row ∈ batch_rows ->
        (entity_id, entity_data) ∈ Transformer.data_by_entity row ->
        (field_id, value) ∈ entity_data ->
        let column_name := _get_column_name context entity_id field_id in
        let field_metadata := row_field_metadata context entity_id field_id in
        resolved_metadata context entity_id field_metadata column_name
        = Some m ->
        other ∈ _field_rules self ->
        let result := validate_batch self batch_rows batch_index context in
        let failed e :=
          rule_execution_failed (rule_id other)
            ("field " ++ entity_id ++ "."
               ++ working_field_id field_metadata column_name ++ ": " ++ e)
            None in
        match should_skip other (Some m) (Some value) with
        | Raises e => failed e ∈ batch_errors result
        | Returns true => True
        | Returns false =>
            match validate other context
                    (mkRuleArgs (Some entity_id) (Some m) (Some value)
                       (Some (Transformer.original_row_index row))
                       (Some (Transformer.csv_row_index row)) column_name
                       (row_person_id_external context row)) with
            | Raises e => failed e ∈ batch_errors result
            | Returns rule_errors =>
                forall err, err ∈ rule_errors -> err ∈ batch_errors result
            end
        end)
  (* a field whose path is in the index has its metadata resolved *)
  /\ (forall entity_id field_id column_name m,
        field_by_full_path (metadata_context context)
          !! (entity_id ++ "_" ++ field_id) = Some m ->
        resolved_metadata context entity_id
          (row_field_metadata context entity_id field_id) column_name
        = Some m)
  (* the run *)
  /\ (forall data_stream : list (list (list string)),
        let results := validate_all_batches self data_stream context in
        length results = length data_stream
        /\ forall (j : nat) (raw_batch : list (list string)),
             data_stream !! j = Some raw_batch ->
             results !! j
             = Some (validate_batch self
                       (Transformer.transformed_rows
                          (Transformer.TransformationOrchestrator._transform_batch
                             raw_batch (Z.of_nat j) (transform_context context)))
                       (Z.of_nat j) context)).
Proof.
  split; [| split; [| split; [| split; [| split; [| split; [| split; [| split]]]]]]].
  - intros entity_id field_metadata value row_index csv_row_index column_name
      person_id_external m Hm Hraise.
    change (pre ++ rule :: post)%list with (pre ++ [rule] ++ post)%list.
    rewrite !(validate_field_app _ _ _ _ _ _ _ _ _ _ _ m Hm).
    do 2 f_equal.
    unfold _validate_field. rewrite Hm. cbn [_field_rules with_field_rules flat_map].
    rewrite app_nil_r. unfold run_field_rule.
    destruct Hraise as [Hs | [Hs Hv]]; rewrite Hs; [reflexivity|].
    now rewrite Hv.
  - intros Hraise.
    unfold _execute_global_rules, _execute_entity_rules.
    cbn [_global_rules _entity_rules with_global_rules with_entity_rules].
    rewrite !flat_map_app. cbn [flat_map].
    assert (run_context_rule context rule
            = [rule_execution_failed (rule_id rule) msg None]) as ->
      by (unfold run_context_rule; now rewrite Hraise).
    split; reflexivity.
  - intros details. repeat split.
  - intros batch_rows batch_index. split; reflexivity.
  - intros row. reflexivity.
  - intros batch_rows batch_index other Hother result.
    pose proof (context_rule_in_batch self context batch_rows batch_index
                  other) as Hin.
    unfold run_context_rule in Hin.
    destruct (validate other context no_args) as [rule_errors | e].
    + intros err Herr. now apply Hin.
    + apply Hin; [assumption | left].
  - intros batch_rows batch_index row entity_id entity_data field_id value m
      other Hrow Hentity Hfield column_name field_metadata Hm Hother result
      failed.
    assert (forall err,
               err ∈ run_field_rule context entity_id
                       (working_field_id field_metadata column_name) m value
                       (Transformer.original_row_index row)
                       (Transformer.csv_row_index row) column_name
                       (row_person_id_external context row) other ->
               err ∈ batch_errors result) as Hin.
    { intros err Herr.
      apply (validate_triple_in_batch self context batch_rows batch_index row
               entity_id entity_data field_id value); try assumption.
      unfold validate_triple, _validate_field.
      fold column_name. fold field_metadata. rewrite Hm.
      apply list_elem_of_In, in_flat_map. exists other.
      split; apply list_elem_of_In; assumption. }
    unfold run_field_rule in Hin. fold failed in Hin.
    destruct (should_skip other (Some m) (Some value)) as [[|] | e].
    + exact I.
    + destruct (validate other context _) as [rule_errors | e].
      * intros err Herr. now apply Hin.
      * apply Hin. left.
    + apply Hin. left.
  - intros entity_id field_id column_name m Hm.
    unfold resolved_metadata, row_field_metadata. now rewrite Hm.
  - intros data_stream results. subst results. unfold validate_all_batches.
    split; [apply length_imap|].
    intros j raw_batch Hj. rewrite list_lookup_imap, Hj. reflexivity.
Qed.

Lemma C4_rule_failure_isolated_witness :
  _validate_field
    (with_field_rules (mkRuleEngine [] [] [])
       ([Validators.NotNullRule] ++ raising_rule :: [Validators.MaxLengthRule])%list)
    "personInfo" (Some name_metadata) "abcdef" 0 2 (Some "personInfo_name")
    (Some "E001") empty_schema_context
  = (_validate_field
       (with_field_rules (mkRuleEngine [] [] []) [Validators.NotNullRule])
       "personInfo" (Some name_metadata) "abcdef" 0 2 (Some "personInfo_name")
       (Some "E001") empty_schema_context
     ++ [rule_execution_failed "always_raises" "field personInfo.name: boom" None]
     ++ _validate_field
          (with_field_rules (mkRuleEngine [] [] []) [Validators.MaxLengthRule])
          "personInfo" (Some name_metadata) "abcdef" 0 2
          (Some "personInfo_name") (Some "E001") empty_schema_context)%list
  /\ rule_execution_failed "always_raises" "field personInfo.name: boom" None
     ∈ batch_errors
         (validate_batch engine_with_raising_rule [long_name_row] 0
            short_name_context).
Proof.
  split.
  - apply (proj1 (C4_rule_failure_isolated (mkRuleEngine [] [] [])
                    empty_schema_context
                    [Validators.NotNullRule] [Validators.MaxLengthRule]
                    raising_rule "boom")
             "personInfo" (Some name_metadata) "abcdef" 0%Z 2%Z
             (Some "personInfo_name") (Some "E001") name_metadata).
    + reflexivity.
    + right. split; reflexivity.
  - refine (proj1 (proj2 (proj2 (proj2 (proj2 (proj2 (proj2
              (C4_rule_failure_isolated engine_with_raising_rule
                 short_name_context [] [] raising_rule "boom")))))))
              [long_name_row] 0%Z long_name_row "personInfo"
              [("name", "abcdef")] "name" "abcdef"
              (mkFieldMetadata "personInfo" "name" "personInfo_name" true
                 None (Some 5%Z) None false None
                 {[ "required" := "true"; "max-length" := "5" ]})
              raising_rule _ _ _ _ _).
    + left.
    + vm_compute. left.
    + left.
    + vm_compute. reflexivity.
    + vm_compute. right. left.
Defined.

(** The same run, evaluated: the required value is present, the raising
    rule is reported, and the length rule still reports its violation. *)
Example raising_rule_between_builtin_rules :
  map err_code
    (_validate_field
       (mkRuleEngine [] []
          [Validators.NotNullRule; raising_rule; Validators.MaxLengthRule])
       "personInfo" (Some name_metadata) "abcdef" 0 2 (Some "personInfo_name")
       (Some "E001") empty_schema_context)
  = ["RULE_EXECUTION_FAILED"; "MAX_LENGTH_EXCEEDED"].
Proof. reflexivity. Qed.

(** A batch of one row, validated with the raising rule between the two
    built-in rules: the batch returns, with the failure of the raising
    rule followed by the finding of the length rule. *)
Example raising_rule_in_a_batch :
  let result :=
    validate_batch engine_with_raising_rule [long_name_row] 0
      short_name_context in
  processed_rows result = 1%Z
  /\ map (fun e => (err_code e, err_severity e, err_field_id e))
       (batch_errors result)
     = [("RULE_EXECUTION_FAILED", FATAL, None);
        ("MAX_LENGTH_EXCEEDED", ERROR, Some "name")].
Proof. vm_compute. split; reflexivity. Qed.

End RuleIsolation.

(** ** Rule engine: metadata resolution *)

Section MetadataResolution.
Import PyStr Comparator Comparator.ComparatorErrors Comparator.Engine.

Lemma first_some_app {A} (l1 l2 : list (option A)) :
  first_some (l1 ++ l2)%list
  = match first_some l1 with Some a => Some a | None => first_some l2 end.
Proof.
  induction l1 as [|[a|] l1 IH]; cbn; [reflexivity | reflexivity | exact IH].
Qed.

Lemma first_some_None {A} (l : list (option A)) :
  Forall (fun o => o = None) l -> first_some l = None.
Proof.
  induction l as [|o l IH]; intros H; [reflexivity|].
  apply Forall_cons in H as [-> H]. now apply IH.
Qed.

(** A pattern met before may be dropped from the sequence. *)
Lemma first_some_drop_seen {A} (f : string -> option A) (p : string)
    (seen rest : list string) :
  In p seen ->
  first_some (map f (seen ++ p :: rest)%list)
  = first_some (map f (seen ++ rest)%list).
Proof.
  intros Hin. rewrite !map_app, !first_some_app. cbn [map first_some].
  destruct (first_some (map f seen)) eqn:E; [reflexivity|].
  destruct (f p) eqn:Ep; [| reflexivity].
  exfalso. induction seen as [|q seen IH]; [contradiction|].
  cbn in E. destruct Hin as [-> | Hin].
  - rewrite Ep in E. discriminate.
  - destruct (f q); [discriminate | now apply IH].
Qed.

Lemma existsb_eqb_In (p : string) (l : list string) :
  existsb (String.eqb p) l = true <-> In p l.
Proof.
  rewrite existsb_exists. split.
  - intros (x & Hx & E). apply String.eqb_eq in E. now subst.
  - intros H. exists p. split; [assumption | apply String.eqb_refl].
Qed.

Lemma unique_nonempty_lookups {A} (f : string -> option A)
    (patterns : list string) :
  Forall (fun p => p <> "") patterns ->
  forall seen : list string,
    first_some (map f (unique_nonempty patterns seen))
    = first_some (map f (seen ++ patterns)%list).
Proof.
  induction patterns as [|p patterns IH]; intros Hne seen.
  - cbn. now rewrite app_nil_r.
  - apply Forall_cons in Hne as [Hp Hne]. cbn [unique_nonempty].
    destruct (p =? "")%string eqn:E; [apply String.eqb_eq in E; contradiction|].
    cbn [negb andb].
    destruct (existsb (String.eqb p) seen) eqn:Hseen; cbn [negb].
    + rewrite (IH Hne). symmetry. apply first_some_drop_seen.
      now apply existsb_eqb_In.
    + rewrite (IH Hne). now rewrite <- app_assoc.
Qed.

Lemma find_is_Some_lookup (index : gmap string FieldMetadata)
    (patterns : list string) :
  match find (fun pattern => bool_decide (is_Some (index !! pattern))) patterns with
  | Some pattern => index !! pattern
  | None => None
  end
  = first_some (map (fun pattern => index !! pattern) patterns).
Proof.
  induction patterns as [|p patterns IH]; [reflexivity|].
  cbn [find map first_some].
  destruct (index !! p) as [m|] eqn:E.
  - rewrite bool_decide_eq_true_2 by eauto. exact E.
  - rewrite bool_decide_eq_false_2 by (intros [x Hx]; discriminate). exact IH.
Qed.

Lemma append_nonempty_r (a b : string) : b <> "" -> a ++ b <> "".
Proof. intros Hb. destruct a; [exact Hb | discriminate]. Qed.

Lemma replace_char_nonempty a b s : s <> "" -> replace_char a b s <> "".
Proof. destruct s; [contradiction | discriminate]. Qed.

(** The searches of [_validate_field] are the last five lookups. *)
Lemma search_field_metadata_lookups (context : ValidationContext)
    (entity_id field_id : string) (column_name : option string) :
  search_field_metadata context entity_id field_id column_name
  = first_some
      [index_lookup context (entity_id ++ "_" ++ field_id);
       base_entity entity_id
         ≫= (fun base => index_lookup context (base ++ "_" ++ field_id));
       nonempty column_name ≫= index_lookup context;
       nonempty column_name
         ≫= (fun c => index_lookup context (replace_char underscore "."%char c));
       entity_lookup context entity_id field_id].
Proof.
  unfold search_field_metadata.
  set (index := field_by_full_path (metadata_context context)).
  pose proof (find_is_Some_lookup index
                (_build_field_search_patterns entity_id field_id column_name)) as Hfind.
  fold (entity_lookup context entity_id field_id).
  assert (first_some
            (map (fun pattern => index !! pattern)
               (_build_field_search_patterns entity_id field_id column_name))
          = first_some
              [index_lookup context (entity_id ++ "_" ++ field_id);
               base_entity entity_id
                 ≫= (fun base => index_lookup context (base ++ "_" ++ field_id));
               nonempty column_name ≫= index_lookup context;
               nonempty column_name
                 ≫= (fun c => index_lookup context
                                (replace_char underscore "."%char c))]) as Hpat.
  { unfold _build_field_search_patterns, base_entity, nonempty, index_lookup.
    fold index.
    rewrite unique_nonempty_lookups.
    - cbn [app].
      destruct (startswith_any entity_id COUNTRY_PREFIXES);
        [destruct (split1 underscore entity_id) as [|x [|base [|? ?]]] |];
        destruct column_name as [c|]; try destruct (c =? "")%string;
        try destruct (startswith_any c ["MEX_"; "USA_"; "BRA_"]);
        cbn; repeat (destruct (index !! _); [reflexivity|]); reflexivity.
    - destruct (startswith_any entity_id COUNTRY_PREFIXES);
        [destruct (split1 underscore entity_id) as [|x [|base [|? ?]]] |];
        destruct column_name as [c|]; try destruct (c =? "")%string eqn:Ec;
        try destruct (startswith_any c ["MEX_"; "USA_"; "BRA_"]);
        cbn [app];
        repeat first
          [ apply Forall_nil
          | apply Forall_cons; split ];
        try exact I;
        try (apply append_nonempty_r; discriminate);
        try (apply String.eqb_neq in Ec; first [exact Ec | now apply replace_char_nonempty]). }
  destruct (find _ _) as [pattern|] eqn:Ef.
  - rewrite Hfind, Hpat.
    change [index_lookup context (entity_id ++ "_" ++ field_id);
            base_entity entity_id
              ≫= (fun base => index_lookup context (base ++ "_" ++ field_id));
            nonempty column_name ≫= index_lookup context;
            nonempty column_name
              ≫= (fun c => index_lookup context (replace_char underscore "."%char c));
            entity_lookup context entity_id field_id]
      with ([index_lookup context (entity_id ++ "_" ++ field_id);
             base_entity entity_id
               ≫= (fun base => index_lookup context (base ++ "_" ++ field_id));
             nonempty column_name ≫= index_lookup context;
             nonempty column_name
               ≫= (fun c => index_lookup context (replace_char underscore "."%char c))]
            ++ [entity_lookup context entity_id field_id])%list.
    rewrite first_some_app.
    rewrite <- Hpat, <- Hfind.
    destruct (index !! pattern) eqn:Ep; [reflexivity|].
    exfalso. apply find_some in Ef as [_ Ef].
    apply bool_decide_eq_true_1 in Ef as [x Hx]. congruence.
  - change [index_lookup context (entity_id ++ "_" ++ field_id);
            base_entity entity_id
              ≫= (fun base => index_lookup context (base ++ "_" ++ field_id));
            nonempty column_name ≫= index_lookup context;
            nonempty column_name
              ≫= (fun c => index_lookup context (replace_char underscore "."%char c));
            entity_lookup context entity_id field_id]
      with ([index_lookup context (entity_id ++ "_" ++ field_id);
             base_entity entity_id
               ≫= (fun base => index_lookup context (base ++ "_" ++ field_id));
             nonempty column_name ≫= index_lookup context;
             nonempty column_name
               ≫= (fun c => index_lookup context (replace_char underscore "."%char c))]
            ++ [entity_lookup context entity_id field_id])%list.
    rewrite first_some_app, <- Hpat, <- Hfind.
    cbn. now destruct (entity_lookup context entity_id field_id).
Qed.

Lemma engine_resolution_order (context : ValidationContext)
    (entity_id field_id : string) (column_name : option string) :
  engine_resolution context entity_id field_id column_name
  = first_some (engine_lookups context entity_id field_id column_name).
Proof.
  unfold engine_resolution, resolved_metadata, row_field_metadata, engine_lookups.
  fold (index_lookup context (entity_id ++ "_" ++ field_id)).
  fold (entity_lookup context entity_id field_id).
  destruct (index_lookup context (entity_id ++ "_" ++ field_id)) as [m|];
    [reflexivity|].
  destruct (entity_lookup context entity_id field_id) as [m|]; [reflexivity|].
  cbn [first_some]. apply search_field_metadata_lookups.
Qed.

Lemma enabled_field_rules (registry : list Registered) (rule : BaseRule) :
  rule ∈ _field_rules (RuleEngine_new registry)
  <-> exists r, r ∈ registry /\ instance r = rule
                /\ enabled r = true /\ scope rule = FIELD.
Proof.
  unfold RuleEngine_new, RuleRegistry.get_enabled_rules. cbn [_field_rules].
  change (map instance) with (fmap (M := list) instance).
  rewrite list_elem_of_fmap. split.
  - intros (r & -> & Hr). apply list_elem_of_filter in Hr as [Hr Hin].
    apply andb_true_iff in Hr as [He Hs].
    exists r. repeat split; try assumption.
    destruct (scope (instance r)); (reflexivity || discriminate).
  - intros (r & Hin & <- & He & Hs). exists r. split; [reflexivity|].
    apply list_elem_of_filter. split; [| assumption].
    rewrite He, Hs. reflexivity.
Qed.

(** X27. For every triple of a transformed row the engine tries,
    in this order: the exact [entity_field] path in the index; the field id
    in the entity's own field map; then, with the field id replaced by the
    last [_]-separated piece of the column name, the [entity_field] path,
    the path without a known country prefix, the literal column name, the
    column name with dots for underscores, and the entity's own field map.
    When all fail it emits exactly one [MISSING_METADATA_FOR_FIELD] error
    of severity [WARNING] and runs no FIELD rule; when one answers, every
    enabled FIELD rule is run on the triple in registration order, a rule
    contributing nothing when its [should_skip] returns true and the
    result of its [validate] otherwise. *)
Theorem field_metadata_resolution_order
    (self : RuleEngine) (row : Transformer.TransformedRow)
    (context : ValidationContext) (person_id_external : option string)
    (entity_id field_id value : string) :
  let column_name := _get_column_name context entity_id field_id in
  let resolution :=
    first_some (engine_lookups context entity_id field_id column_name) in
  let used_field_id :=
    working_field_id (row_field_metadata context entity_id field_id) column_name in
  let run m :=
    run_field_rule context entity_id used_field_id m value
      (Transformer.original_row_index row) (Transformer.csv_row_index row)
      column_name person_id_external in
  engine_resolution context entity_id field_id column_name = resolution
  /\ (resolution = None ->
      exists w,
        validate_triple self row context person_id_external entity_id
          field_id value = [w]
        /\ err_code w = "MISSING_METADATA_FOR_FIELD"
        /\ err_severity w = WARNING)
  /\ (forall m,
        resolution = Some m ->
        validate_triple self row context person_id_external entity_id
          field_id value = flat_map (run m) (_field_rules self)
        /\ forall rule,
             (should_skip rule (Some m) (Some value) = Returns true ->
              run m rule = [])
             /\ (should_skip rule (Some m) (Some value) = Returns false ->
                 forall rule_errors,
                   validate rule context
                     (mkRuleArgs (Some entity_id) (Some m) (Some value)
                        (Some (Transformer.original_row_index row))
                        (Some (Transformer.csv_row_index row)) column_name
                        person_id_external) = Returns rule_errors ->
                   run m rule = rule_errors))
  /\ (forall registry rule,
        rule ∈ _field_rules (RuleEngine_new registry)
        <-> exists r, r ∈ registry /\ instance r = rule
                      /\ enabled r = true /\ scope rule = FIELD).
Proof.
  intros column_name resolution used_field_id run.
  pose proof (engine_resolution_order context entity_id field_id column_name)
    as Hres.
  fold resolution in Hres.
  split; [exact Hres|]. split; [| split].
  - intros Hnone. rewrite Hnone in Hres.
    unfold validate_triple, _validate_field.
    fold column_name. unfold engine_resolution in Hres. rewrite Hres.
    destruct (startswith_any entity_id COUNTRY_PREFIXES);
      eexists; repeat split.
  - intros m Hm. rewrite Hm in Hres. split.
    + unfold validate_triple, _validate_field.
      fold column_name. unfold engine_resolution in Hres. now rewrite Hres.
    + intros rule. subst run. unfold run_field_rule. split.
      * intros ->. reflexivity.
      * intros -> rule_errors ->. reflexivity.
  - apply enabled_field_rules.
Qed.

Lemma field_metadata_resolution_order_witness :
  exists w,
    validate_triple builtin_field_engine first_name_row empty_schema_context
      None "personInfo" "name" "x" = [w]
    /\ err_code w = "MISSING_METADATA_FOR_FIELD"
    /\ err_severity w = WARNING.
Proof.
  apply (proj1 (proj2 (field_metadata_resolution_order builtin_field_engine
                         first_name_row empty_schema_context None
                         "personInfo" "name" "x"))).
  reflexivity.
Defined.

(** C8 (evaluation at the failing input). The column
    [personInfo_first_name] is validated with the metadata of another
    field.  The schema has the entity [personInfo] with the single,
    required field [name]; the row has an empty cell under the column,
    which [parse_column] reads as the field [first_name] of [personInfo].
    Each of the four lookups fails for that field, so the resolution is
    [None]; yet [_validate_field] takes the last [_]-piece of the column
    name, [name], as the field id, finds the metadata of
    [personInfo_name], and the row gets a [REQUIRED_VALUE_MISSING] error
    for the field [name] in place of the one warning that the metadata
    is missing. *)
Theorem C8_last_piece_field_id_borrows_metadata :
  let context := first_name_context in
  let column_name := _get_column_name context "personInfo" "first_name" in
  Transformer.data_by_entity first_name_row = [("personInfo", [("first_name", "")])]
  /\ column_name = Some "personInfo_first_name"
  /\ index_lookup context "personInfo_first_name" = None
  /\ base_entity "personInfo" = None
  /\ entity_lookup context "personInfo" "first_name" = None
  /\ specified_resolution context "personInfo" "first_name" column_name = None
  /\ working_field_id (row_field_metadata context "personInfo" "first_name")
       column_name = "name"
  /\ (fm_full_path <$>
        engine_resolution context "personInfo" "first_name" column_name)
     = Some "personInfo_name"
  /\ map (fun e => (err_code e, err_severity e, err_field_id e))
       (_validate_row builtin_field_engine first_name_row context)
     = [("REQUIRED_VALUE_MISSING", ERROR, Some "name")].
Proof. vm_compute. repeat split. Qed.

End MetadataResolution.

(** ** Metadata adapter *)

Section DualPath.
Import PyStr Comparator Comparator.MetadataAdapter.

Lemma extract_unfold (node : Node) ctx parent_element :
  _extract_field_metadata node ctx parent_element
  = if contains "hris-element" (lower (tag node)) then
      fold_left walk (children node) (process_element node ctx parent_element)
    else if contains "hris-field" (lower (tag node)) then
      process_field node ctx parent_element
    else if (node_type node =? "element")%string
            && negb (technical_id node =? "")%string then
      fold_left walk (children node) (process_other_element node ctx)
    else fold_left walk (children node) (ctx, parent_element).
Proof. destruct node; reflexivity. Qed.

Lemma extract_field_node (node : Node) ctx parent_element :
  is_field_node node ->
  _extract_field_metadata node ctx parent_element
  = process_field node ctx parent_element.
Proof. intros [H1 H2]. rewrite extract_unfold. now rewrite H1, H2. Qed.

Lemma walk_field_node (node : Node) ctx parent_element :
  is_field_node node ->
  walk (ctx, parent_element) node = process_field node ctx parent_element.
Proof. intros H. unfold walk. now apply extract_field_node. Qed.

Lemma length_append (a b : string) :
  String.length (a ++ b) = (String.length a + String.length b)%nat.
Proof. induction a as [|x a IH]; cbn; [reflexivity | now rewrite IH]. Qed.

Lemma prefixed_ne (a b : string) : a <> "" -> a ++ "_" ++ b <> b.
Proof.
  intros Ha H. apply (f_equal String.length) in H.
  rewrite !length_append in H. cbn in H. lia.
Qed.

Lemma str_eqb_false (a b : string) : a <> b -> (a =? b)%string = false.
Proof. intros H. now apply String.eqb_neq. Qed.

Lemma get_update_entity (entities : list (string * EntityMetadata))
    (k k' : string) (f : EntityMetadata -> EntityMetadata) :
  OD.get (update_entity entities k f) k'
  = if decide (k = k') then f <$> OD.get entities k else OD.get entities k'.
Proof.
  unfold update_entity. destruct (OD.get entities k) as [e|] eqn:E.
  - rewrite get_set. destruct (decide (k = k')); reflexivity.
  - destruct (decide (k = k')) as [<- | _]; [now rewrite E | reflexivity].
Qed.

Lemma process_element_fresh (node : Node) ctx parent_element :
  node_id node <> "" ->
  OD.get (mc_entities ctx) (node_id node) = None ->
  raw_attributes node !! "data-origin" = Some "csf" ->
  snd (process_element node ctx parent_element) = Some (node_id node)
  /\ field_by_full_path (fst (process_element node ctx parent_element))
     = field_by_full_path ctx
  /\ (forall c, raw_attributes node !! "data-country" = Some c ->
                c <> "" -> c <> "UNKNOWN" ->
                scoped_at (fst (process_element node ctx parent_element))
                  (node_id node) c)
  /\ (raw_attributes node !! "data-country" = None
      \/ raw_attributes node !! "data-country" = Some ""
      \/ raw_attributes node !! "data-country" = Some "UNKNOWN" ->
      unscoped_at (fst (process_element node ctx parent_element)) (node_id node)).
Proof.
  intros Hid Hfresh Horigin. unfold process_element. fold (node_id node).
  rewrite (str_eqb_false _ _ Hid), Hfresh, Horigin. cbn [default fst snd].
  split; [reflexivity|]. split; [reflexivity|]. split.
  - intros c Hc Hc1 Hc2. rewrite Hc.
    rewrite (str_eqb_false _ _ Hc1), (str_eqb_false _ _ Hc2). cbn [orb].
    unfold scoped_at, set_entities. cbn [fst mc_entities].
    eexists. split; [apply get_set_eq|]. split; reflexivity.
  - intros [Hc | [Hc | Hc]]; rewrite Hc; cbn [orb String.eqb Ascii.eqb Bool.eqb];
      unfold unscoped_at, set_entities; cbn [fst mc_entities];
      eexists; (split; [apply get_set_eq | reflexivity]).
Qed.

Lemma process_field_no_id (node : Node) ctx parent :
  node_id node = "" ->
  process_field node ctx (Some parent) = (ctx, Some parent).
Proof.
  intros Hid. unfold process_field. fold (node_id node). rewrite Hid.
  now destruct (parent =? "")%string.
Qed.

(** A field processed in the context of a scoped entity: two entries. *)
Lemma process_field_scoped (node : Node) ctx parent country :
  parent <> "" -> country <> "" -> node_id node <> "" ->
  scoped_at ctx parent country ->
  let ctx' := fst (process_field node ctx (Some parent)) in
  let internal := parent ++ "_" ++ node_id node in
  let csv := country ++ "_" ++ parent ++ "_" ++ node_id node in
  snd (process_field node ctx (Some parent)) = Some parent
  /\ scoped_at ctx' parent country
  /\ exists mi mc,
      field_by_full_path ctx'
      = <[csv := mc]> (<[internal := mi]> (field_by_full_path ctx))
      /\ fm_full_path mi = internal /\ fm_full_path mc = csv
      /\ declares node mi /\ declares node mc
      /\ (OD.get (mc_entities ctx') parent ≫= fun e => em_fields e !! node_id node)
         = Some mi
      /\ (OD.get (mc_entities ctx') (country ++ "_" ++ parent)
            ≫= fun e => em_fields e !! node_id node) = Some mc.
Proof.
  intros Hp Hc Hid (e & He & Hics & Hcc) ctx' internal csv.
  subst ctx'. unfold process_field. fold (node_id node).
  rewrite (str_eqb_false _ _ Hp), (str_eqb_false _ _ Hid), He.
  assert (is_scoped e = true) as ->.
  { unfold is_scoped. rewrite Hics, Hcc. cbn. now rewrite (str_eqb_false _ _ Hc). }
  rewrite Hcc. cbv zeta. cbn [default fst snd mc_entities field_by_full_path].
  unfold id.
  assert (country ++ "_" ++ parent <> parent) as Hne by now apply prefixed_ne.
  split; [reflexivity|]. split.
  - unfold scoped_at. cbn [mc_entities].
    rewrite get_update_entity, decide_False by assumption.
    rewrite get_update_entity, decide_True by reflexivity.
    destruct (OD.get (mc_entities ctx) (country ++ "_" ++ parent)) eqn:E.
    + rewrite He. cbn. eexists. split; [reflexivity|]. now split.
    + rewrite get_set_ne by assumption. rewrite He. cbn.
      eexists. split; [reflexivity|]. now split.
  - eexists. eexists. cbn [field_by_full_path mc_entities].
    split; [reflexivity|]. split; [reflexivity|]. split; [reflexivity|].
    split; [repeat split|]. split; [repeat split|].
    split.
    + rewrite get_update_entity, decide_False by assumption.
      rewrite get_update_entity, decide_True by reflexivity.
      destruct (OD.get (mc_entities ctx) (country ++ "_" ++ parent)) eqn:E.
      * rewrite He. cbn. now rewrite lookup_insert_eq.
      * rewrite get_set_ne by assumption. rewrite He. cbn.
        now rewrite lookup_insert_eq.
    + rewrite get_update_entity, decide_True by reflexivity.
      rewrite get_update_entity, decide_False by congruence.
      destruct (OD.get (mc_entities ctx) (country ++ "_" ++ parent)) eqn:E.
      * rewrite E. cbn. now rewrite lookup_insert_eq.
      * rewrite get_set_eq. cbn. now rewrite lookup_insert_eq.
Qed.

(** A field processed in the context of a non-scoped entity: one entry. *)
Lemma process_field_unscoped (node : Node) ctx parent :
  parent <> "" -> node_id node <> "" ->
  unscoped_at ctx parent ->
  let ctx' := fst (process_field node ctx (Some parent)) in
  snd (process_field node ctx (Some parent)) = Some parent
  /\ unscoped_at ctx' parent
  /\ exists m,
      field_by_full_path ctx'
      = <[parent ++ "_" ++ node_id node := m]> (field_by_full_path ctx)
      /\ fm_full_path m = parent ++ "_" ++ node_id node
      /\ declares node m
      /\ (OD.get (mc_entities ctx') parent ≫= fun e => em_fields e !! node_id node)
         = Some m.
Proof.
  intros Hp Hid (e & He & Hns) ctx'.
  subst ctx'. unfold process_field. fold (node_id node).
  rewrite (str_eqb_false _ _ Hp), (str_eqb_false _ _ Hid), He, Hns.
  cbv zeta. cbn [fst snd mc_entities field_by_full_path].
  split; [reflexivity|]. split.
  - unfold unscoped_at. cbn [fst mc_entities].
    rewrite get_update_entity, decide_True, He by reflexivity. cbn.
    eexists. split; [reflexivity|]. exact Hns.
  - eexists. cbn [fst mc_entities field_by_full_path].
    split; [reflexivity|]. split; [reflexivity|].
    split; [repeat split|].
    rewrite get_update_entity, decide_True, He by reflexivity. cbn.
    now rewrite lookup_insert_eq.
Qed.

Lemma walk_fields_scoped (fields : list Node) parent country :
  parent <> "" -> country <> "" ->
  Forall is_field_node fields ->
  forall ctx,
    scoped_at ctx parent country ->
    snd (fold_left walk fields (ctx, Some parent)) = Some parent
    /\ scoped_at (fst (fold_left walk fields (ctx, Some parent))) parent country.
Proof.
  intros Hp Hc. induction fields as [|fd fields IH]; intros Hf ctx Hs;
    [now split|].
  apply Forall_cons in Hf as [Hfd Hf]. cbn [fold_left].
  rewrite (walk_field_node _ _ _ Hfd).
  destruct (decide (node_id fd = "")) as [Hid | Hid].
  - rewrite (process_field_no_id _ _ _ Hid). now apply IH.
  - destruct (process_field_scoped fd ctx parent country Hp Hc Hid Hs)
      as (H1 & H2 & _).
    destruct (process_field fd ctx (Some parent)) as [ctx' p'].
    cbn [fst snd] in *. subst p'. now apply IH.
Qed.

Lemma walk_fields_unscoped (fields : list Node) parent :
  parent <> "" ->
  Forall is_field_node fields ->
  forall ctx,
    unscoped_at ctx parent ->
    snd (fold_left walk fields (ctx, Some parent)) = Some parent
    /\ unscoped_at (fst (fold_left walk fields (ctx, Some parent))) parent.
Proof.
  intros Hp. induction fields as [|fd fields IH]; intros Hf ctx Hs;
    [now split|].
  apply Forall_cons in Hf as [Hfd Hf]. cbn [fold_left].
  rewrite (walk_field_node _ _ _ Hfd).
  destruct (decide (node_id fd = "")) as [Hid | Hid].
  - rewrite (process_field_no_id _ _ _ Hid). now apply IH.
  - destruct (process_field_unscoped fd ctx parent Hp Hid Hs) as (H1 & H2 & _).
    destruct (process_field fd ctx (Some parent)) as [ctx' p'].
    cbn [fst snd] in *. subst p'. now apply IH.
Qed.

(** X25. Take a schema element that registers its id for the first
    time (no earlier node of the walk carried that id), with origin [csf],
    whose children are field nodes.  The walk of the element processes the
    element and then its children in order.  If its country code is
    resolved (present, non-empty, not [UNKNOWN]), every field child with an
    id inserts exactly two entries in the full-path index, [entity_field]
    and [COUNTRY_entity_field], distinct keys that both resolve, to
    metadata carrying the same required flag, type and maximum length, those
    the field declares.  If the country is unresolved the element is
    non-scoped and every field child with an id inserts the single entry
    [entity_field]. *)
Theorem fresh_scoped_element_dual_path
    (el : Node) (ctx : MetadataContext) (parent_element : option string) :
  is_element_node el ->
  node_id el <> "" ->
  OD.get (mc_entities ctx) (node_id el) = None ->
  raw_attributes el !! "data-origin" = Some "csf" ->
  Forall is_field_node (children el) ->
  _extract_field_metadata el ctx parent_element
    = fold_left walk (children el) (process_element el ctx parent_element)
  /\ forall (before : list Node) (fd : Node) (after : list Node),
      children el = (before ++ fd :: after)%list ->
      node_id fd <> "" ->
      let st := fold_left walk before (process_element el ctx parent_element) in
      let index := field_by_full_path (fst st) in
      let index' := field_by_full_path (fst (walk st fd)) in
      let internal := node_id el ++ "_" ++ node_id fd in
      (forall c,
          raw_attributes el !! "data-country" = Some c ->
          c <> "" -> c <> "UNKNOWN" ->
          let csv := c ++ "_" ++ node_id el ++ "_" ++ node_id fd in
          internal <> csv
          /\ exists mi mc,
              index' = <[csv := mc]> (<[internal := mi]> index)
              /\ index' !! internal = Some mi
              /\ index' !! csv = Some mc
              /\ fm_full_path mi = internal
              /\ fm_full_path mc = csv
              /\ declares fd mi /\ declares fd mc
              /\ fm_is_required mi = fm_is_required mc
              /\ fm_data_type mi = fm_data_type mc
              /\ fm_max_length mi = fm_max_length mc)
      /\ (raw_attributes el !! "data-country" = None
          \/ raw_attributes el !! "data-country" = Some ""
          \/ raw_attributes el !! "data-country" = Some "UNKNOWN" ->
          exists m,
            index' = <[internal := m]> index
            /\ index' !! internal = Some m
            /\ fm_full_path m = internal
            /\ declares fd m).
Proof.
  intros Hel Hid Hfresh Horigin Hfields.
  split; [rewrite extract_unfold; now rewrite Hel|].
  intros before fd after Hch Hfid st index index' internal.
  rewrite Hch in Hfields. apply Forall_app in Hfields as [Hbefore Hrest].
  apply Forall_cons in Hrest as [Hfd _].
  destruct (process_element_fresh el ctx parent_element Hid Hfresh Horigin)
    as (Hp & _ & Hscoped & Hunscoped).
  subst index index' st.
  destruct (process_element el ctx parent_element) as [ctx1 p1].
  cbn [fst snd] in Hp, Hscoped, Hunscoped. subst p1.
  split.
  - intros c Hc Hc1 Hc2 csv.
    destruct (walk_fields_scoped before (node_id el) c Hid Hc1 Hbefore ctx1
                (Hscoped c Hc Hc1 Hc2)) as [Hsnd Hs].
    destruct (fold_left walk before (ctx1, Some (node_id el))) as [ctx2 p2].
    cbn [fst snd] in *. subst p2.
    rewrite (walk_field_node _ _ _ Hfd).
    destruct (process_field_scoped fd ctx2 (node_id el) c Hid Hc1 Hfid Hs)
      as (_ & _ & mi & mc & Hidx & Hpi & Hpc & Hdi & Hdc & _).
    assert (internal <> csv) as Hne.
    { subst internal csv. intros H. symmetry in H. revert H. now apply prefixed_ne. }
    split; [exact Hne|].
    exists mi, mc. fold internal in Hidx, Hpi. fold csv in Hidx, Hpc.
    rewrite Hidx.
    split; [reflexivity|].
    split; [rewrite lookup_insert_ne by (apply not_eq_sym; exact Hne);
            apply lookup_insert_eq|].
    split; [apply lookup_insert_eq|].
    split; [exact Hpi|]. split; [exact Hpc|].
    split; [exact Hdi|]. split; [exact Hdc|].
    destruct Hdi as (_ & Hi1 & Hi2 & Hi3). destruct Hdc as (_ & Hc3 & Hc4 & Hc5).
    split; [congruence|]. split; congruence.
  - intros Hc.
    destruct (walk_fields_unscoped before (node_id el) Hid Hbefore ctx1
                (Hunscoped Hc)) as [Hsnd Hs].
    destruct (fold_left walk before (ctx1, Some (node_id el))) as [ctx2 p2].
    cbn [fst snd] in *. subst p2.
    rewrite (walk_field_node _ _ _ Hfd).
    destruct (process_field_unscoped fd ctx2 (node_id el) Hid Hfid Hs)
      as (_ & _ & m & Hidx & Hpath & Hd & _).
    exists m. fold internal in Hidx, Hpath. rewrite Hidx.
    split; [reflexivity|]. split; [apply lookup_insert_eq|].
    split; assumption.
Qed.

Lemma fresh_scoped_element_dual_path_witness :
  let index := field_by_full_path (fst (process_element home_address_mex
                                          empty_context None)) in
  let index' :=
    field_by_full_path
      (fst (walk (process_element home_address_mex empty_context None)
              (field_node "street" [("required", "true"); ("max-length", "40")]))) in
  "homeAddress_fiscal_street" <> "MEX_homeAddress_fiscal_street"
  /\ exists mi mc,
      index' = <["MEX_homeAddress_fiscal_street" := mc]>
                 (<["homeAddress_fiscal_street" := mi]> index)
      /\ index' !! "homeAddress_fiscal_street" = Some mi
      /\ index' !! "MEX_homeAddress_fiscal_street" = Some mc
      /\ fm_full_path mi = "homeAddress_fiscal_street"
      /\ fm_full_path mc = "MEX_homeAddress_fiscal_street"
      /\ declares (field_node "street" [("required", "true"); ("max-length", "40")]) mi
      /\ declares (field_node "street" [("required", "true"); ("max-length", "40")]) mc
      /\ fm_is_required mi = fm_is_required mc
      /\ fm_data_type mi = fm_data_type mc
      /\ fm_max_length mi = fm_max_length mc.
Proof.
  refine (proj1 (proj2 (fresh_scoped_element_dual_path home_address_mex
                          empty_context None _ _ _ _ _)
                   [] (field_node "street" [("required", "true"); ("max-length", "40")])
                   [] _ _) "MEX" _ _ _).
  - reflexivity.
  - discriminate.
  - reflexivity.
  - reflexivity.
  - repeat constructor.
  - reflexivity.
  - discriminate.
  - reflexivity.
  - discriminate.
  - discriminate.
Defined.

(** C2 (evaluation at the failing input). The dual path is lost for a
    [csf] element that repeats an element id.  In [mex_then_usa] the
    element [jobInfo] comes once for MEX and once for USA, both with a
    resolved country.  The field [position] of the first gets its two
    entries, [jobInfo_position] and [MEX_jobInfo_position].  The field
    [grade] of the second is entered under [jobInfo_grade] and
    [MEX_jobInfo_grade], with country code MEX: [USA_jobInfo_grade]
    resolves to nothing, and no entity [USA_jobInfo] is created.  In
    [global_then_mex], where a global [jobInfo] comes first, the field
    [position] of the [csf] element of MEX gets the single entry
    [jobInfo_position]. *)
Theorem C2_repeated_element_id_loses_dual_path :
  let ctx := adapt_parsed_metadata mex_then_usa "SF" "v1" in
  let index := field_by_full_path ctx in
  let index1 :=
    field_by_full_path (adapt_parsed_metadata global_then_mex "SF" "v1") in
  (fm_country_code <$> index !! "jobInfo_position") = Some (Some "MEX")
  /\ (fm_country_code <$> index !! "MEX_jobInfo_position") = Some (Some "MEX")
  /\ (fm_country_code <$> index !! "jobInfo_grade") = Some (Some "MEX")
  /\ (fm_country_code <$> index !! "MEX_jobInfo_grade") = Some (Some "MEX")
  /\ index !! "USA_jobInfo_grade" = None
  /\ size index = 4%nat
  /\ OD.keys (mc_entities ctx) = ["jobInfo"; "MEX_jobInfo"]
  /\ is_Some (index1 !! "jobInfo_position")
  /\ index1 !! "MEX_jobInfo_position" = None.
Proof.
  vm_compute. repeat split. eexists; reflexivity.
Qed.

End DualPath.

(** ** Column parser: results *)

Section ParseColumnResults.
Import PyStr Transformer Transformer.TransformerErrors Transformer.ColumnParser.

Lemma eqb_empty_false (s : string) : (s =? "")%string = false <-> s <> "".
Proof. apply String.eqb_neq. Qed.

(** X1. A column [parse_column] accepts keeps the stripped name as its
    original name, has a non-empty element id and field id, and the
    stripped name is exactly its country code (when it has one), element
    id and field id joined by underscores; it is country-specific
    exactly when it has a country code, and that code passes the country
    heuristic. *)
Theorem parse_column_reassembles (name : string) (pc : ParsedColumn) :
  parse_column name = (Some pc, None) ->
  original_name pc = strip name
  /\ reassembled pc = strip name
  /\ element_id pc <> ""
  /\ field_id pc <> ""
  /\ full_path pc = element_id pc ++ "." ++ field_id pc
  /\ match country_code pc with
     | Some c => is_country_specific pc = true
                 /\ _looks_like_country_code c = true
     | None => is_country_specific pc = false
     end.
Proof.
  intros H. unfold parse_column in H.
  destruct (name =? "")%string; [discriminate|].
  destruct (negb (contains_char underscore (strip name))); [discriminate|].
  pose proof (join_split underscore (strip name)) as Hjoin.
  set (parts := split underscore (strip name)) in *.
  clearbody parts.
  match type of H with
  | context [match ?r with inl _ => _ | inr _ => _ end] =>
      destruct r as [[[[ics cc] eid] fid] | e] eqn:Hr
  end; [| discriminate].
  destruct (eid =? "")%string eqn:Heid; [discriminate|].
  destruct (fid =? "")%string eqn:Hfid; [discriminate|].
  apply eqb_empty_false in Heid, Hfid.
  inversion H; subst pc; clear H. unfold reassembled. cbn.
  split; [reflexivity|].
  assert (match cc with
          | Some c => c ++ "_" ++ eid ++ "_" ++ fid = strip name
                      /\ ics = true /\ _looks_like_country_code c = true
          | None => eid ++ "_" ++ fid = strip name /\ ics = false
          end) as Hshape.
  { rewrite <- Hjoin. clear Hjoin Heid Hfid.
    destruct (_looks_like_country_code (nth 0 parts "")) eqn:Hc;
      destruct parts as [|p0 [|p1 [|p2 [|p3 rest]]]];
      cbn -[in_set join String.append COMPOUND_ELEMENTS of_nat chr String.eqb
            _looks_like_country_code] in Hr, Hc;
      rewrite ?Hc in Hr;
      cbn -[in_set join String.append COMPOUND_ELEMENTS of_nat chr String.eqb
            _looks_like_country_code] in Hr;
      try discriminate;
      repeat match type of Hr with
             | context [in_set ?a ?b] => destruct (in_set a b)
             end;
      cbn -[join String.append of_nat chr String.eqb] in Hr;
      inversion Hr; subst; unfold join; cbn -[String.append];
      rewrite ?append_assoc; repeat split; try assumption; reflexivity. }
  destruct cc as [c|].
  - destruct Hshape as (H1 & H2 & H3). repeat split; assumption.
  - destruct Hshape as (H1 & H2). repeat split; assumption.
Qed.

Lemma parse_column_reassembles_witness :
  reassembled
    (mkParsedColumn "MEX_homeAddress_home_zip_code" "homeAddress_home"
       "zip_code" true (Some "MEX") "homeAddress_home.zip_code")
  = strip "  MEX_homeAddress_home_zip_code ".
Proof.
  apply (parse_column_reassembles "  MEX_homeAddress_home_zip_code "
           (mkParsedColumn "MEX_homeAddress_home_zip_code" "homeAddress_home"
              "zip_code" true (Some "MEX") "homeAddress_home.zip_code")).
  reflexivity.
Defined.

Lemma parse_column_element_nonempty (name : string) (pc : ParsedColumn) :
  parse_column name = (Some pc, None) -> element_id pc <> "".
Proof.
  intros H. unfold parse_column in H.
  destruct (name =? "")%string; [discriminate|].
  destruct (negb (contains_char underscore (strip name))); [discriminate|].
  match type of H with
  | context [match ?r with inl _ => _ | inr _ => _ end] =>
      destruct r as [[[[ics cc] eid] fid] | e]
  end; [| discriminate].
  destruct (eid =? "")%string eqn:Heid; [discriminate|].
  destruct (fid =? "")%string; [discriminate|].
  inversion H; subst pc. cbn. now apply eqb_empty_false.
Qed.

Lemma split_ne_length sep s :
  contains_char sep s = true -> snd (split_ne sep s) <> [].
Proof.
  unfold contains_char. induction s as [|c s IH]; cbn; [discriminate|].
  destruct (split_ne sep s) as [p ps]. cbn in *.
  rewrite Ascii.eqb_sym.
  destruct (Ascii.eqb c sep); cbn; [discriminate | assumption].
Qed.

Lemma split_length sep s :
  contains_char sep s = true -> (2 <= length (split sep s))%nat.
Proof.
  intros H. apply split_ne_length in H. unfold split.
  destruct (split_ne sep s) as [p [|q ps]]; [contradiction | cbn; lia].
Qed.

Lemma join_nonempty sep p l : p <> "" -> join sep (p :: l) <> "".
Proof.
  intros Hp. unfold join. destruct l as [|q l]; cbn -[String.append];
    [assumption|].
  destruct p; [contradiction | discriminate].
Qed.

Lemma append_nonempty_l (a b : string) : a <> "" -> a ++ b <> "".
Proof. destruct a; [contradiction | discriminate]. Qed.

Lemma parse_column_error_form (name : string) (e : TransformationError) :
  snd (parse_column name) = Some e ->
  exists c d, e = invalid_column_composition c d.
Proof.
  unfold parse_column. cbv zeta.
  repeat match goal with
         | |- context [if ?b then _ else _] => destruct b
         end;
    cbn [snd]; intros [= <-]; eauto.
Qed.

(** X2. What [parse_column] returns.  A name with no underscore is
    rejected; a name with an underscore whose underscore-separated
    pieces are all non-empty is accepted; and whenever an error is
    returned no column is, the error being an
    [INVALID_COLUMN_COMPOSITION] of severity [ERROR]. *)
Theorem parse_column_outcome (name : string) :
  (contains_char underscore (strip name) = false ->
   exists e, parse_column name = (None, Some e))
  /\ (contains_char underscore (strip name) = true ->
      Forall (fun piece => piece <> "") (split underscore (strip name)) ->
      exists pc, parse_column name = (Some pc, None))
  /\ (forall e, snd (parse_column name) = Some e ->
        fst (parse_column name) = None
        /\ code e = "INVALID_COLUMN_COMPOSITION"
        /\ severity e = ERROR
        /\ row_index e = None).
Proof.
  split; [| split].
  - intros H. unfold parse_column.
    destruct (name =? "")%string; [eauto|]. rewrite H. cbn. eauto.
  - intros H Hparts. unfold parse_column.
    destruct (name =? "")%string eqn:E.
    { apply String.eqb_eq in E. subst name. discriminate. }
    rewrite H. cbn [negb].
    pose proof (split_length _ _ H) as Hn.
    set (parts := split underscore (strip name)) in *. clearbody parts.
    destruct (_looks_like_country_code (nth 0 parts "")) eqn:Hc;
      destruct parts as [|p0 [|p1 [|p2 [|p3 rest]]]]; cbn in Hn; try lia;
      repeat match goal with
             | H : Forall _ (_ :: _) |- _ => apply Forall_cons in H as [? H]
             end;
      cbn -[in_set join String.append COMPOUND_ELEMENTS of_nat chr String.eqb
            _looks_like_country_code] in Hc |- *;
      rewrite ?Hc;
      cbn -[in_set join String.append COMPOUND_ELEMENTS of_nat chr String.eqb
            _looks_like_country_code];
      repeat match goal with
             | |- context [in_set ?a ?b] => destruct (in_set a b)
             end;
      cbn -[join String.append of_nat chr String.eqb];
      repeat match goal with
             | |- context [(?x =? "")%string] =>
                 let E := fresh in
                 destruct (x =? "")%string eqn:E;
                 [apply String.eqb_eq in E; exfalso;
                  revert E;
                  first [ assumption
                        | apply join_nonempty; assumption
                        | apply append_nonempty_l; assumption ]
                 |]
             end;
      eauto.
  - intros e He.
    destruct (parse_column_error_form name e He) as (c & d & ->).
    destruct (parse_column_cases name) as [[pc H] | [e' H]]; rewrite H in *;
      [discriminate|].
    repeat split; reflexivity.
Qed.

End ParseColumnResults.

(** ** Entity mapper *)

Section EntityMapping.
Import PyStr Transformer Transformer.ColumnParser Transformer.EntityMapper.

Lemma enumerate_snoc {A} (l : list A) (x : A) :
  enumerate (l ++ [x]) = (enumerate l ++ [(length l, x)])%list.
Proof.
  unfold enumerate. rewrite imap_app. cbn. now rewrite Nat.add_0_r.
Qed.

Lemma map_columns_from_app (l1 l2 : list ParsedColumn) :
  forall k ents c2e,
    map_columns_from k (l1 ++ l2)%list ents c2e
    = map_columns_from (k + length l1) l2
        (fst (map_columns_from k l1 ents c2e))
        (snd (map_columns_from k l1 ents c2e)).
Proof.
  induction l1 as [|c l1 IH]; intros k ents c2e.
  - cbn. now rewrite Nat.add_0_r.
  - cbn [app map_columns_from length]. rewrite IH.
    now rewrite Nat.add_succ_r.
Qed.

Lemma entity_of_snoc parsed c e :
  entity_of (parsed ++ [c])%list e
  = if decide (element_id c = e)
    then add_column (entity_of parsed e) (length parsed) c
    else entity_of parsed e.
Proof.
  unfold entity_of. rewrite enumerate_snoc, fold_left_app. reflexivity.
Qed.

Lemma has_entity_snoc parsed c e :
  has_entity (parsed ++ [c])%list e
  = has_entity parsed e || bool_decide (element_id c = e).
Proof. unfold has_entity. rewrite existsb_app. cbn. now rewrite orb_false_r. Qed.

(** What [map_columns_to_entities] has built when its loop ends. *)
Lemma map_columns_from_spec (parsed : list ParsedColumn) :
  let r := map_columns_from 0 parsed [] [] in
  (forall i, OD.get (snd r) i = element_id <$> parsed !! i)
  /\ length (snd r) = length parsed
  /\ (forall e, OD.get (fst r) e
                = if has_entity parsed e then Some (entity_of parsed e) else None).
Proof.
  induction parsed as [|c parsed IH] using rev_ind.
  - cbn. split; [intros i; reflexivity|]. split; reflexivity.
  - rewrite map_columns_from_app. cbn [Nat.add].
    destruct (map_columns_from 0 parsed [] []) as [ents c2e].
    cbn [fst snd] in *. destruct IH as (IH1 & IH2 & IH3).
    cbn [map_columns_from fst snd].
    split; [| split].
    + intros i. rewrite get_set.
      destruct (decide (length parsed = i)) as [<- | Hne].
      * rewrite lookup_app_r by lia. now rewrite Nat.sub_diag.
      * rewrite IH1. destruct (decide (i < length parsed)%nat).
        -- now rewrite lookup_app_l.
        -- rewrite !lookup_ge_None_2; [reflexivity | rewrite length_app; cbn; lia | lia].
    + rewrite length_set, length_app. cbn.
      unfold OD.mem. rewrite IH1, lookup_ge_None_2 by lia. cbn. lia.
    + intros e. rewrite has_entity_snoc, entity_of_snoc.
      unfold OD.mem. rewrite IH3.
      destruct (has_entity parsed (element_id c)) eqn:Hc.
      * rewrite IH3, Hc. rewrite get_set.
        destruct (decide (element_id c = e)) as [<- | Hne].
        -- rewrite Hc. reflexivity.
        -- rewrite IH3. rewrite bool_decide_eq_false_2 by assumption.
           now rewrite orb_false_r.
      * rewrite get_set_eq. rewrite get_set.
        destruct (decide (element_id c = e)) as [<- | Hne].
        -- rewrite Hc. cbn. rewrite bool_decide_eq_true_2 by reflexivity.
           do 2 f_equal. unfold entity_of.
           assert (forall l ed,
                     Forall (fun p => element_id (snd p) <> element_id c) l ->
                     fold_left
                       (fun ed '(i, column) =>
                          if decide (element_id column = element_id c)
                          then add_column ed i column else ed) l ed = ed) as Hskip.
           { induction l as [|[i x] l IHl]; intros ed Hl; [reflexivity|].
             apply Forall_cons in Hl as [Hx Hl]. cbn in *.
             rewrite decide_False by assumption. now apply IHl. }
           rewrite Hskip; [reflexivity|].
           apply Forall_forall. intros [i x] Hin. cbn.
           unfold enumerate in Hin.
           apply list_elem_of_lookup in Hin as [j Hj].
           rewrite list_lookup_imap in Hj.
           destruct (parsed !! j) as [y|] eqn:Ey; [| discriminate].
           cbn in Hj. inversion Hj; subst.
           intros Heq. unfold has_entity in Hc.
           apply not_true_iff_false in Hc. apply Hc.
           apply existsb_exists. exists x. split.
           ++ apply list_elem_of_In. eapply list_elem_of_lookup_2; eassumption.
           ++ now apply bool_decide_eq_true_2.
        -- rewrite get_set_ne by assumption. rewrite IH3.
           rewrite bool_decide_eq_false_2 by assumption.
           now rewrite orb_false_r.
Qed.

Lemma entity_of_entity_id parsed e : entity_id (entity_of parsed e) = e.
Proof.
  induction parsed as [|c parsed IH] using rev_ind; [reflexivity|].
  rewrite entity_of_snoc. destruct (decide (element_id c = e)); [| assumption].
  cbn. assumption.
Qed.

Lemma entity_of_columns parsed e :
  columns (entity_of parsed e)
  = filter (fun column => element_id column = e) parsed.
Proof.
  induction parsed as [|c parsed IH] using rev_ind; [reflexivity|].
  rewrite entity_of_snoc, filter_app, filter_cons, filter_nil.
  destruct (decide (element_id c = e)); cbn; rewrite IH;
    [reflexivity | now rewrite app_nil_r].
Qed.

Lemma entity_of_column_index_mapping parsed e i :
  OD.get (column_index_mapping (entity_of parsed e)) i
  = match parsed !! i with
    | Some column => if decide (element_id column = e) then Some column else None
    | None => None
    end.
Proof.
  induction parsed as [|c parsed IH] using rev_ind; [reflexivity|].
  rewrite entity_of_snoc.
  destruct (decide (i < length parsed)%nat) as [Hlt | Hge].
  - rewrite lookup_app_l by assumption.
    destruct (decide (element_id c = e)); [| assumption].
    cbn. rewrite get_set_ne by lia. assumption.
  - rewrite lookup_ge_None_2 in IH by lia.
    destruct (decide (i = length parsed)) as [-> | Hne].
    + rewrite lookup_app_r, Nat.sub_diag by lia. cbn.
      destruct (decide (element_id c = e)); [cbn; apply get_set_eq | assumption].
    + rewrite lookup_ge_None_2 by (rewrite length_app; cbn; lia).
      destruct (decide (element_id c = e)); [| assumption].
      cbn. rewrite get_set_ne by lia. assumption.
Qed.

(** [field_mapping] keeps, for each field id, the last column added
    under it. *)
Lemma entity_of_field_mapping parsed e f :
  OD.get (field_mapping (entity_of parsed e)) f
  = last (filter (fun column => element_id column = e /\ field_id column = f)
            parsed).
Proof.
  induction parsed as [|c parsed IH] using rev_ind; [reflexivity|].
  rewrite entity_of_snoc, filter_app, filter_cons, filter_nil.
  destruct (decide (element_id c = e)) as [He | He].
  - cbn [field_mapping add_column]. rewrite get_set.
    destruct (decide (field_id c = f)) as [Hf | Hf].
    + rewrite decide_True by (split; assumption). now rewrite last_snoc.
    + rewrite decide_False by (intros [_ H]; contradiction).
      now rewrite app_nil_r.
  - rewrite decide_False by (intros [H _]; contradiction).
    now rewrite app_nil_r.
Qed.

Lemma has_entity_spec parsed e :
  has_entity parsed e = true
  <-> exists column, column ∈ parsed /\ element_id column = e.
Proof.
  unfold has_entity. rewrite existsb_exists. split.
  - intros (c & Hin & Hc). exists c.
    split; [now apply list_elem_of_In | now apply bool_decide_eq_true_1 in Hc].
  - intros (c & Hin & Hc). exists c.
    split; [now apply list_elem_of_In | now apply bool_decide_eq_true_2].
Qed.

(** X3. [map_columns_to_entities] maps every column position to the
    element id of its column and to nothing else, and reports no error;
    it creates an entity exactly for the element ids that occur, and
    each entity holds its columns in header order, finds them by
    position, and finds by field id the last column added under that
    field id. *)
Theorem map_columns_to_entities_index (parsed : list ParsedColumn) :
  let entities := fst (fst (map_columns_to_entities parsed)) in
  let column_to_entity_map := snd (fst (map_columns_to_entities parsed)) in
  snd (map_columns_to_entities parsed) = []
  /\ len column_to_entity_map = len parsed
  /\ (forall i : nat,
        OD.get column_to_entity_map i = element_id <$> parsed !! i)
  /\ (forall e : string,
        OD.get entities e = None
        <-> forall column, column ∈ parsed -> element_id column <> e)
  /\ (forall (e : string) (entity_data : EntityData),
        OD.get entities e = Some entity_data ->
        entity_id entity_data = e
        /\ columns entity_data
           = filter (fun column => element_id column = e) parsed
        /\ columns entity_data <> []
        /\ (forall (i : nat) (column : ParsedColumn),
              OD.get (column_index_mapping entity_data) i = Some column
              <-> parsed !! i = Some column /\ element_id column = e)
        /\ (forall f : string,
              OD.get (field_mapping entity_data) f
              = last (filter (fun column =>
                                element_id column = e /\ field_id column = f)
                        parsed))).
Proof.
  intros entities column_to_entity_map.
  subst entities column_to_entity_map. unfold map_columns_to_entities.
  pose proof (map_columns_from_spec parsed) as (H1 & H2 & H3).
  destruct (map_columns_from 0 parsed [] []) as [ents c2e].
  cbn [fst snd] in *.
  split; [reflexivity|]. split; [unfold len; now rewrite H2|].
  split; [exact H1|]. split.
  - intros e. rewrite H3.
    destruct (has_entity parsed e) eqn:He.
    + apply has_entity_spec in He as (c & Hin & Hc).
      split; [discriminate | intros H; now apply H in Hin].
    + split; [| reflexivity]. intros _ c Hin Hc.
      apply not_true_iff_false in He. apply He.
      apply has_entity_spec. now exists c.
  - intros e ed Hed. rewrite H3 in Hed.
    destruct (has_entity parsed e) eqn:He; [| discriminate].
    inversion Hed; subst ed. clear Hed.
    split; [apply entity_of_entity_id|].
    split; [apply entity_of_columns|]. split; [| split].
    + rewrite entity_of_columns.
      apply has_entity_spec in He as (c & Hin & Hc).
      intros Hnil.
      assert (c ∈ filter (fun column => element_id column = e) parsed) as Hc'
        by (apply list_elem_of_filter; split; assumption).
      rewrite Hnil in Hc'. now apply elem_of_nil in Hc'.
    + intros i column. rewrite entity_of_column_index_mapping.
      destruct (parsed !! i) as [c|]; [| split; [discriminate | intros [? _]; discriminate]].
      destruct (decide (element_id c = e)) as [Hc | Hc].
      * split; [intros [= <-]; split; [reflexivity | assumption]
               | intros [H _]; assumption].
      * split; [discriminate | intros [[= <-] Hcol]; contradiction].
    + intros f. apply entity_of_field_mapping.
Qed.

End EntityMapping.

(** ** Row transformer *)

Section RowTransformation.
Import PyStr Transformer Transformer.TransformerErrors Transformer.ColumnParser.
Import Transformer.EntityMapper Transformer.RowTransformer.
Import Transformer.TransformationOrchestrator.

Lemma map_columns_from_keys (parsed : list ParsedColumn) :
  NoDup (OD.keys (fst (map_columns_from 0 parsed [] []))).
Proof.
  induction parsed as [|c parsed IH] using rev_ind; [apply NoDup_nil_2|].
  rewrite map_columns_from_app. cbn [Nat.add].
  destruct (map_columns_from 0 parsed [] []) as [ents c2e].
  cbn [fst snd map_columns_from] in *.
  destruct (OD.mem ents (element_id c)) eqn:E.
  - destruct (OD.get ents (element_id c)); [| assumption].
    now apply keys_set_NoDup.
  - rewrite get_set_eq. now do 2 apply keys_set_NoDup.
Qed.

(** The dictionary [transform_row] starts from: every entity id mapped
    to an empty dictionary. *)
Lemma initial_data (keys : list string) :
  forall data0 : list (string * list (string * string)),
    NoDup (OD.keys data0 ++ keys)%list ->
    (forall e f, lookup_value data0 e f = None) ->
    OD.keys (fold_left (fun d entity_id => OD.set d entity_id []) keys data0)
    = (OD.keys data0 ++ keys)%list
    /\ forall e f,
         lookup_value
           (fold_left (fun d entity_id => OD.set d entity_id []) keys data0)
           e f = None.
Proof.
  induction keys as [|k keys IH]; intros data0 Hnd Hempty; cbn [fold_left].
  - now rewrite app_nil_r.
  - assert (OD.mem data0 k = false) as Hk.
    { apply not_true_iff_false. rewrite mem_keys. intros Hin.
      apply NoDup_app in Hnd as (_ & Hnd & _).
      apply (Hnd k Hin). left. }
    destruct (IH (OD.set data0 k [])) as [IH1 IH2].
    + rewrite keys_set_new by assumption. now rewrite <- app_assoc.
    + intros e f. unfold lookup_value. rewrite get_set.
      destruct (decide (k = e)); [reflexivity | apply Hempty].
    + split; [| assumption].
      rewrite IH1, keys_set_new by assumption. now rewrite <- app_assoc.
Qed.

Lemma stored_value_cons column parsed v row e f :
  stored_value (column :: parsed) (v :: row) e f
  = match stored_value parsed row e f with
    | Some x => Some x
    | None =>
        if decide (element_id column = e /\ field_id column = f)
        then Some v else None
    end.
Proof.
  unfold stored_value. cbn [zip zip_with]. rewrite filter_cons. cbn [fst].
  destruct (decide (element_id column = e /\ field_id column = f)).
  - rewrite last_cons. now destruct (last _).
  - now destruct (last _).
Qed.

Lemma lookup_value_set data e f v e' f' :
  lookup_value (OD.set data e (OD.set (default [] (OD.get data e)) f v)) e' f'
  = if decide (e = e' /\ f = f') then Some v else lookup_value data e' f'.
Proof.
  unfold lookup_value. rewrite get_set.
  destruct (decide (e = e')) as [<- | He].
  - rewrite get_set. destruct (decide (f = f')) as [<- | Hf].
    + now rewrite decide_True.
    + rewrite decide_False by (intros [_ H]; contradiction).
      now destruct (OD.get data e).
  - now rewrite decide_False by (intros [H _]; contradiction).
Qed.

(** The loop of [transform_row] over the cells from column [k] on, for
    the maps [map_columns_to_entities] builds. *)
Lemma transform_cells_spec (parsed : list ParsedColumn) (row_index : Z) :
  Forall (fun column => element_id column <> "") parsed ->
  forall (row : list string) (k : nat) data errs,
    (forall e, has_entity parsed e = true -> OD.mem data e = true) ->
    snd (transform_cells row_index k row
           (snd (map_columns_from 0 parsed [] []))
           (fst (map_columns_from 0 parsed [] [])) data errs)
    = (errs ++ map (out_of_range_error row_index)
                 (seq (Nat.max k (length parsed))
                    (k + length row - Nat.max k (length parsed))))%list
    /\ OD.keys (fst (transform_cells row_index k row
                       (snd (map_columns_from 0 parsed [] []))
                       (fst (map_columns_from 0 parsed [] [])) data errs))
       = OD.keys data
    /\ forall e f,
         lookup_value
           (fst (transform_cells row_index k row
                   (snd (map_columns_from 0 parsed [] []))
                   (fst (map_columns_from 0 parsed [] [])) data errs)) e f
         = match stored_value (drop k parsed) row e f with
           | Some v => Some v
           | None => lookup_value data e f
           end.
Proof.
  intros Hne.
  pose proof (map_columns_from_spec parsed) as (H1 & H2 & H3).
  destruct (map_columns_from 0 parsed [] []) as [ents c2e].
  cbn [fst snd] in *.
  induction row as [|v row IH]; intros k data errs Hmem.
  - cbn [transform_cells fst snd length].
    replace (k + 0 - Nat.max k (length parsed))%nat with 0%nat by lia.
    cbn [seq map]. rewrite app_nil_r. split; [reflexivity|].
    split; [reflexivity|]. intros e f.
    unfold stored_value. now rewrite zip_with_nil_r.
  - destruct (Z.of_nat (length parsed) <=? Z.of_nat k)%Z eqn:Hk.
    + assert (transform_cells row_index k (v :: row) c2e ents data errs
              = transform_cells row_index (S k) row c2e ents data
                  (errs ++ [out_of_range_error row_index k])%list) as ->.
      { cbn [transform_cells]. unfold len. now rewrite H2, Hk. }
      apply Z.leb_le in Hk.
      destruct (IH (S k) data
                  (errs ++ [out_of_range_error row_index k])%list Hmem)
        as (I1 & I2 & I3).
      split; [| split].
      * rewrite I1, <- app_assoc. f_equal.
        replace (Nat.max k (length parsed)) with k by lia.
        replace (Nat.max (S k) (length parsed)) with (S k) by lia.
        replace (k + length (v :: row) - k)%nat with (S (length row))
          by (cbn [length]; lia).
        replace (S k + length row - S k)%nat with (length row) by lia.
        reflexivity.
      * exact I2.
      * intros e f. rewrite I3.
        rewrite !drop_ge by lia. reflexivity.
    + destruct (parsed !! k) as [column|] eqn:Hcol;
        [| apply Z.leb_gt in Hk; apply lookup_ge_None in Hcol; lia].
      pose proof (proj1 (Forall_forall _ _) Hne column
                    (list_elem_of_lookup_2 _ _ _ Hcol)) as Hc.
      apply eqb_empty_false in Hc.
      assert (has_entity parsed (element_id column) = true) as Hhas.
      { apply has_entity_spec. exists column.
        split; [eapply list_elem_of_lookup_2; eassumption | reflexivity]. }
      assert (transform_cells row_index k (v :: row) c2e ents data errs
              = transform_cells row_index (S k) row c2e ents
                  (OD.set data (element_id column)
                     (OD.set (default [] (OD.get data (element_id column)))
                        (field_id column) v)) errs) as ->.
      { cbn [transform_cells]. unfold len. rewrite H2, Hk.
        rewrite H1, Hcol. cbn [fmap option_fmap option_map]. rewrite Hc.
        rewrite H3, Hhas. rewrite entity_of_column_index_mapping, Hcol.
        now rewrite decide_True by reflexivity. }
      apply Z.leb_gt in Hk.
      destruct (IH (S k)
                  (OD.set data (element_id column)
                     (OD.set (default [] (OD.get data (element_id column)))
                        (field_id column) v)) errs) as (I1 & I2 & I3).
      { intros e He. apply mem_set. now apply Hmem. }
      split; [| split].
      * rewrite I1. f_equal. f_equal.
        replace (Nat.max k (length parsed)) with (length parsed) by lia.
        replace (Nat.max (S k) (length parsed)) with (length parsed) by lia.
        f_equal. cbn [length]. lia.
      * rewrite I2. apply keys_set_mem. now apply Hmem.
      * intros e f. rewrite I3.
        rewrite (drop_S _ _ _ Hcol), stored_value_cons.
        destruct (stored_value (drop (S k) parsed) row e f); [reflexivity|].
        rewrite lookup_value_set.
        now destruct (decide (element_id column = e /\ field_id column = f)).
Qed.

Lemma parsed_columns_element_nonempty (column_names : list string) :
  Forall (fun column => element_id column <> "")
    (fst (parse_all_columns column_names)).
Proof.
  unfold parse_all_columns. rewrite parse_all_columns_from_spec.
  cbn [fst app Nat.add]. apply Forall_lookup. intros i column Hi.
  rewrite list_lookup_imap in Hi.
  destruct (column_names !! i) as [name|]; [| discriminate].
  cbn in Hi. inversion Hi; subst column; clear Hi.
  destruct (parse_one_cases i name) as [(pc & H1 & H2) | (e & H1 & H2)];
    rewrite H2; cbn [fst].
  - eapply parse_column_element_nonempty; eassumption.
  - discriminate.
Qed.

Lemma transform_csv_context_Some csv_context ctx :
  transform_csv_context csv_context = (Some ctx, None) ->
  parsed_columns ctx = fst (parse_all_columns (CsvLoader.columns csv_context))
  /\ entities ctx = fst (map_columns_from 0 (parsed_columns ctx) [] [])
  /\ column_to_entity_map ctx
     = snd (map_columns_from 0 (parsed_columns ctx) [] [])
  /\ csv_context = Transformer.csv_context ctx.
Proof.
  unfold transform_csv_context, map_columns_to_entities.
  destruct (parse_all_columns (CsvLoader.columns csv_context))
    as [parsed errs].
  destruct parsed as [|c parsed]; [discriminate|].
  destruct (map_columns_from 0 (c :: parsed) [] []) as [ents c2e] eqn:E.
  intros [= <-]. unfold ContextBuilder.build_context.
  cbn [parsed_columns entities column_to_entity_map Transformer.csv_context].
  rewrite E. repeat split; reflexivity.
Qed.

Lemma stored_value_of_unique parsed row i column v :
  parsed !! i = Some column ->
  row !! i = Some v ->
  (forall j column',
      parsed !! j = Some column' -> (i < j < length row)%nat ->
      ~ (element_id column' = element_id column
         /\ field_id column' = field_id column)) ->
  stored_value parsed row (element_id column) (field_id column) = Some v.
Proof.
  intros Hcol Hv Hlast. unfold stored_value.
  assert (zip parsed row !! i = Some (column, v)) as Hz.
  { rewrite lookup_zip_with, Hcol. cbn. now rewrite Hv. }
  rewrite <- (take_drop_middle _ _ _ Hz), filter_app, filter_cons.
  cbn [fst]. rewrite decide_True by (split; reflexivity).
  assert (filter (fun p => element_id (fst p) = element_id column
                           /\ field_id (fst p) = field_id column)
            (drop (S i) (zip parsed row)) = []) as ->.
  { apply elem_of_nil_inv. intros [c' v'] Hin.
    apply list_elem_of_filter in Hin as [Hq Hin]. cbn in Hq.
    apply list_elem_of_lookup in Hin as [j Hj].
    rewrite lookup_drop, lookup_zip_with in Hj.
    assert (i < S i + j)%nat as Hm by lia.
    revert Hm Hj. generalize (S i + j)%nat. intros m Hm Hj.
    destruct (parsed !! m) as [c''|] eqn:Hc; [| discriminate].
    destruct (row !! m) as [v''|] eqn:Hr; [| discriminate].
    cbn in Hj. inversion Hj; subst c'' v''.
    apply (Hlast _ _ Hc); [| assumption].
    apply lookup_lt_Some in Hr. lia. }
  now rewrite last_snoc.
Qed.

(** X4. A row transformed with the context [transform_csv_context]
    built keeps its indices and raw cells; its errors are exactly one
    [ROW_TRANSFORMATION_ERROR], whose message says that the column index
    is out of range, per cell beyond the last header column, so none
    when the row is not wider than the header; its dictionary has the
    entities of the context as keys, in their order; and under each
    entity and field it holds the cell of the last column of that
    entity and field that has a cell in the row, so the cell of a column
    whose entity and field no later column repeats is found under them. *)
Theorem transform_row_of_context
    (csv_context : CsvLoader.CsvContext) (ctx : TransformationContext)
    (row : list string) (row_index csv_start_index : Z) :
  transform_csv_context csv_context = (Some ctx, None) ->
  let r := transform_row row row_index csv_start_index
             (column_to_entity_map ctx) (entities ctx) in
  let n := length (parsed_columns ctx) in
  n = length (CsvLoader.columns csv_context)
  /\ original_row_index r = row_index
  /\ csv_row_index r = (csv_start_index + row_index)%Z
  /\ raw_values r = row
  /\ errors r
     = map (out_of_range_error row_index) (seq n (length row - n))
  /\ OD.keys (data_by_entity r) = OD.keys (entities ctx)
  /\ (forall e f : string,
        lookup_value (data_by_entity r) e f
        = stored_value (parsed_columns ctx) row e f)
  /\ (forall (i : nat) (column : ParsedColumn) (v : string),
        parsed_columns ctx !! i = Some column ->
        row !! i = Some v ->
        (forall j column',
            parsed_columns ctx !! j = Some column' ->
            (i < j < length row)%nat ->
            ~ (element_id column' = element_id column
               /\ field_id column' = field_id column)) ->
        lookup_value (data_by_entity r) (element_id column) (field_id column)
        = Some v).
Proof.
  intros Hctx r n.
  apply transform_csv_context_Some in Hctx as (Hp & He & Hc & _).
  pose proof (parsed_columns_element_nonempty (CsvLoader.columns csv_context))
    as Hne.
  rewrite <- Hp in Hne.
  assert (n = length (CsvLoader.columns csv_context)) as Hn.
  { subst n. rewrite Hp. unfold parse_all_columns.
    rewrite parse_all_columns_from_spec. cbn [fst app].
    now rewrite length_imap. }
  pose proof (map_columns_from_keys (parsed_columns ctx)) as Hkeys.
  rewrite <- He in Hkeys.
  destruct (initial_data (OD.keys (entities ctx)) [] Hkeys
              ltac:(reflexivity)) as [K1 K2].
  cbn [OD.keys map app] in K1.
  pose proof (map_columns_from_spec (parsed_columns ctx)) as (_ & _ & H3).
  rewrite <- He in H3.
  destruct (transform_cells_spec (parsed_columns ctx) row_index Hne row 0
              (fold_left (fun d entity_id => OD.set d entity_id [])
                 (OD.keys (entities ctx)) []) [])
    as (T1 & T2 & T3).
  { intros e Hhas. apply mem_keys. rewrite K1. apply mem_keys.
    unfold OD.mem. now rewrite H3, Hhas. }
  rewrite <- He, <- Hc in T1, T2, T3.
  assert (forall e f : string,
             lookup_value (data_by_entity r) e f
             = stored_value (parsed_columns ctx) row e f) as Hval.
  { intros e f. subst r. unfold transform_row.
    destruct (transform_cells _ _ _ _ _ _ _) as [data errs].
    cbn [data_by_entity fst] in *. rewrite T3, drop_0, K2.
    now destruct (stored_value _ _ e f). }
  split; [exact Hn|].
  subst r. unfold transform_row in *.
  destruct (transform_cells _ _ _ _ _ _ _) as [data errs].
  cbn [fst snd original_row_index csv_row_index raw_values errors
       data_by_entity] in *.
  repeat split.
  - rewrite T1. cbn [app]. fold n.
    replace (Nat.max 0 n) with n by lia. reflexivity.
  - now rewrite T2, K1.
  - exact Hval.
  - intros i column v Hcol Hv Hlast. rewrite Hval.
    now apply stored_value_of_unique with (i := i).
Qed.

Lemma transform_row_of_context_witness :
  exists ctx : TransformationContext,
    transform_csv_context
      (CsvLoader.mkCsvContext "utf-8"
         (CsvLoader.mkCsvDialectInfo "," "'" None true false)
         ["personInfo_name"; "MEX_homeAddress_home_zip"] 2 [] true 2)
    = (Some ctx, None)
    /\ errors (transform_row ["Ana"; "01000"; "extra"] 0 2
                 (column_to_entity_map ctx) (entities ctx))
       = [out_of_range_error 0 2]
    /\ lookup_value
         (data_by_entity
            (transform_row ["Ana"; "01000"; "extra"] 0 2
               (column_to_entity_map ctx) (entities ctx)))
         "homeAddress_home" "zip" = Some "01000".
Proof.
  eexists. split; [vm_compute; reflexivity|].
  match goal with
  | |- context [column_to_entity_map ?c] =>
      pose proof (transform_row_of_context
                    (CsvLoader.mkCsvContext "utf-8"
                       (CsvLoader.mkCsvDialectInfo "," "'" None true false)
                       ["personInfo_name"; "MEX_homeAddress_home_zip"] 2 []
                       true 2)
                    c ["Ana"; "01000"; "extra"] 0 2
                    ltac:(vm_compute; reflexivity)) as T
  end.
  destruct T as (_ & _ & _ & _ & T1 & _ & T2 & _).
  split; [exact T1 | rewrite T2; reflexivity].
Defined.

(** X5. In the context [transform_csv_context] builds,
    [get_column_info] at a column position returns the parsed column of
    that position, [get_entity_for_column] its element id, and both
    return nothing outside the header. *)
Theorem get_column_info_of_context
    (csv_context : CsvLoader.CsvContext) (ctx : TransformationContext)
    (column_index : Z) :
  transform_csv_context csv_context = (Some ctx, None) ->
  get_entity_for_column ctx column_index
  = (if (column_index <? 0)%Z then None
     else element_id <$> parsed_columns ctx !! Z.to_nat column_index)
  /\ get_column_info ctx column_index
     = (if (column_index <? 0)%Z then None
        else parsed_columns ctx !! Z.to_nat column_index).
Proof.
  intros Hctx.
  apply transform_csv_context_Some in Hctx as (Hp & He & Hc & _).
  pose proof (parsed_columns_element_nonempty (CsvLoader.columns csv_context))
    as Hne.
  rewrite <- Hp in Hne.
  pose proof (map_columns_from_spec (parsed_columns ctx)) as (H1 & _ & H3).
  rewrite <- He, <- Hc in *.
  unfold get_column_info, get_entity_for_column.
  destruct (column_index <? 0)%Z; [split; reflexivity|].
  rewrite H1. split; [reflexivity|].
  destruct (parsed_columns ctx !! Z.to_nat column_index) as [column|] eqn:Hcol;
    [| reflexivity].
  cbn [fmap option_fmap option_map].
  pose proof (proj1 (Forall_forall _ _) Hne column
                (list_elem_of_lookup_2 _ _ _ Hcol)) as Hn.
  apply eqb_empty_false in Hn. rewrite Hn. cbn [negb andb].
  assert (has_entity (parsed_columns ctx) (element_id column) = true) as Hhas.
  { apply has_entity_spec. exists column.
    split; [eapply list_elem_of_lookup_2; eassumption | reflexivity]. }
  unfold OD.mem. rewrite H3, Hhas.
  rewrite entity_of_column_index_mapping, Hcol.
  now rewrite decide_True by reflexivity.
Qed.

Lemma get_column_info_of_context_witness :
  exists ctx : TransformationContext,
    transform_csv_context
      (CsvLoader.mkCsvContext "utf-8"
         (CsvLoader.mkCsvDialectInfo "," "'" None true false)
         ["personInfo_name"; "nounderscore"] 2 [] true 2)
    = (Some ctx, None)
    /\ get_column_info ctx 1 = parsed_columns ctx !! 1%nat
    /\ get_column_info ctx 2 = None.
Proof.
  eexists. split; [vm_compute; reflexivity|].
  match goal with
  | |- context [get_column_info ?c] =>
      split;
      [ exact (proj2 (get_column_info_of_context
                        (CsvLoader.mkCsvContext "utf-8"
                           (CsvLoader.mkCsvDialectInfo "," "'" None true false)
                           ["personInfo_name"; "nounderscore"] 2 [] true 2)
                        c 1 ltac:(vm_compute; reflexivity)))
      | reflexivity ]
  end.
Defined.

End RowTransformation.

(** ** Entity structure *)

Section EntityStructure.
Import PyStr Transformer Transformer.TransformerErrors Transformer.ColumnParser.
Import Transformer.EntityMapper Transformer.TransformationOrchestrator.

Lemma field_counts_snoc columns c :
  field_counts (columns ++ [c])%list
  = OD.set (field_counts columns) (field_id c)
      (default 0 (OD.get (field_counts columns) (field_id c)) + 1)%Z.
Proof. unfold field_counts. now rewrite fold_left_app. Qed.

Lemma field_counts_keys columns : NoDup (OD.keys (field_counts columns)).
Proof.
  induction columns as [|c columns IH] using rev_ind; [apply NoDup_nil_2|].
  rewrite field_counts_snoc. now apply keys_set_NoDup.
Qed.

Lemma field_counts_get columns f :
  OD.get (field_counts columns) f
  = let n := len (filter (fun column => field_id column = f) columns) in
    if (n =? 0)%Z then None else Some n.
Proof.
  induction columns as [|c columns IH] using rev_ind; [reflexivity|].
  rewrite field_counts_snoc, get_set, filter_app, filter_cons, filter_nil.
  cbv zeta in *. unfold len in *. rewrite length_app.
  destruct (decide (field_id c = f)) as [-> | Hne].
  - rewrite IH. cbn [length].
    destruct (Z.of_nat (length (filter _ columns)) =? 0)%Z eqn:E.
    + apply Z.eqb_eq in E.
      destruct (_ =? 0)%Z eqn:E'; [apply Z.eqb_eq in E'; lia|].
      cbn. f_equal. lia.
    + destruct (_ =? 0)%Z eqn:E' in |- *; [apply Z.eqb_eq in E'; lia|].
      cbn. f_equal. lia.
  - rewrite IH. cbn [length]. now rewrite Nat.add_0_r.
Qed.

Lemma validate_entity_structure_warnings
    (entities : list (string * EntityData)) :
  Forall (fun e => severity e <> FATAL) (validate_entity_structure entities).
Proof.
  apply Forall_forall. intros err Herr.
  unfold validate_entity_structure in Herr.
  apply list_elem_of_In, in_flat_map in Herr as ([e ed] & _ & Herr).
  unfold validate_entity in Herr.
  apply in_app_or in Herr as [Herr | Herr].
  - destruct (columns ed); [| contradiction].
    destruct Herr as [<- | []]. discriminate.
  - apply in_flat_map in Herr as ([f count] & _ & Herr).
    destruct (1 <? count)%Z; [| contradiction].
    destruct Herr as [<- | []]. discriminate.
Qed.

Lemma NoDup_flat_map {A B} (f : A -> list B) (l : list A) :
  NoDup l ->
  (forall x, x ∈ l -> NoDup (f x)) ->
  (forall x y b, x ∈ l -> y ∈ l -> b ∈ f x -> b ∈ f y -> x = y) ->
  NoDup (flat_map f l).
Proof.
  induction l as [|a l IH]; intros Hl Hf Hdisj; cbn [flat_map];
    [apply NoDup_nil_2|].
  apply NoDup_cons in Hl as [Ha Hl]. apply NoDup_app. split; [| split].
  - apply Hf. left.
  - intros b Hb Hb'.
    apply list_elem_of_In, in_flat_map in Hb' as (y & Hy & Hb').
    apply list_elem_of_In in Hy, Hb'.
    assert (a = y) as -> by (apply (Hdisj a y b); [left | now right | assumption..]).
    contradiction.
  - apply IH; [assumption | |].
    + intros x Hx. apply Hf. now right.
    + intros x y b Hx Hy. apply Hdisj; now right.
Qed.

Lemma NoDup_items {K V} (d : list (K * V)) : NoDup (OD.keys d) -> NoDup d.
Proof. unfold OD.keys. apply (NoDup_fmap_1 fst). Qed.

Lemma duplicate_field_in_entity_inj e f c e' f' c' :
  duplicate_field_in_entity e f c = duplicate_field_in_entity e' f' c' ->
  e = e' /\ f = f'.
Proof.
  unfold duplicate_field_in_entity. intros H.
  apply (f_equal details) in H. cbn [details] in H.
  injection H as He Hf _. split; assumption.
Qed.

Lemma validate_entity_named e ed err :
  err ∈ validate_entity e ed ->
  (details err ≫= head) = Some ("entity_id", e).
Proof.
  unfold validate_entity. rewrite list_elem_of_In. intros Herr.
  apply in_app_or in Herr as [Herr | Herr].
  - destruct (columns ed); [| contradiction].
    destruct Herr as [<- | []]. reflexivity.
  - apply in_flat_map in Herr as ([f count] & _ & Herr).
    destruct (1 <? count)%Z; [| contradiction].
    destruct Herr as [<- | []]. reflexivity.
Qed.

Lemma validate_entity_NoDup e ed : NoDup (validate_entity e ed).
Proof.
  unfold validate_entity. apply NoDup_app. split; [| split].
  - destruct (columns ed); [apply NoDup_singleton | apply NoDup_nil_2].
  - intros err H1 H2. destruct (columns ed); [| now apply elem_of_nil in H1].
    apply list_elem_of_singleton in H1. subst err.
    apply list_elem_of_In, in_flat_map in H2 as ([f count] & _ & H2).
    destruct (1 <? count)%Z; [| contradiction].
    destruct H2 as [H2 | []]. discriminate H2.
  - apply NoDup_flat_map.
    + apply NoDup_items, field_counts_keys.
    + intros [f count] _.
      destruct (1 <? count)%Z; [apply NoDup_singleton | apply NoDup_nil_2].
    + intros [f count] [f' count'] err Hin Hin' H1 H2.
      destruct (1 <? count)%Z; [| now apply elem_of_nil in H1].
      destruct (1 <? count')%Z; [| now apply elem_of_nil in H2].
      apply list_elem_of_singleton in H1, H2. subst err.
      apply duplicate_field_in_entity_inj in H2 as [_ <-].
      apply (elem_of_dict _ _ _ (field_counts_keys _)) in Hin, Hin'.
      congruence.
Qed.

(** No warning of [validate_entity_structure] comes twice. *)
Lemma validate_entity_structure_NoDup (entities : list (string * EntityData)) :
  NoDup (OD.keys entities) -> NoDup (validate_entity_structure entities).
Proof.
  intros Hkeys. unfold validate_entity_structure. apply NoDup_flat_map.
  - now apply NoDup_items.
  - intros [e ed] _. apply validate_entity_NoDup.
  - intros [e ed] [e' ed'] err Hin Hin' H1 H2.
    apply validate_entity_named in H1, H2.
    assert (e = e') as <- by congruence.
    apply (elem_of_dict _ _ _ Hkeys) in Hin, Hin'. congruence.
Qed.

Lemma validate_entity_structure_members
    (parsed : list ParsedColumn) (err : TransformationError) :
  err ∈ validate_entity_structure (fst (fst (map_columns_to_entities parsed)))
  <-> exists e f : string,
        (1 < occurrences parsed e f)%Z
        /\ err = duplicate_field_in_entity e f (occurrences parsed e f).
Proof.
  unfold map_columns_to_entities.
  pose proof (map_columns_from_spec parsed) as (_ & _ & H3).
  pose proof (map_columns_from_keys parsed) as Hkeys.
  destruct (map_columns_from 0 parsed [] []) as [ents c2e].
  cbn [fst snd] in *. unfold validate_entity_structure.
  assert (forall e f : string,
             filter (fun column => field_id column = f)
               (filter (fun column => element_id column = e) parsed)
             = filter (fun column => element_id column = e
                                     /\ field_id column = f) parsed)
    as Hff.
  { intros e f. rewrite list_filter_filter. apply list_filter_iff.
    intros x. tauto. }
  rewrite list_elem_of_In, in_flat_map. split.
  - intros ([e ed] & Hin & Herr).
    apply list_elem_of_In, (elem_of_dict _ _ _ Hkeys) in Hin.
    rewrite H3 in Hin.
    destruct (has_entity parsed e) eqn:Hhas; [| discriminate].
    inversion Hin; subst ed; clear Hin.
    unfold validate_entity in Herr. rewrite entity_of_columns in Herr.
    apply in_app_or in Herr as [Herr | Herr].
    + exfalso. apply has_entity_spec in Hhas as (c & Hc & He).
      destruct (filter (fun column => element_id column = e) parsed) eqn:Ef;
        [| contradiction].
      assert (c ∈ filter (fun column => element_id column = e) parsed) as Hc'
        by (apply list_elem_of_filter; split; assumption).
      rewrite Ef in Hc'. now apply elem_of_nil in Hc'.
    + apply in_flat_map in Herr as ([f count] & Hf & Herr).
      apply list_elem_of_In, (elem_of_dict _ _ _ (field_counts_keys _)) in Hf.
      rewrite field_counts_get in Hf. cbv zeta in Hf.
      rewrite Hff in Hf.
      fold (occurrences parsed e f) in Hf.
      destruct (occurrences parsed e f =? 0)%Z; [discriminate|].
      inversion Hf; subst count; clear Hf.
      destruct (1 <? occurrences parsed e f)%Z eqn:Hc; [| contradiction].
      destruct Herr as [<- | []]. exists e, f.
      split; [now apply Z.ltb_lt | reflexivity].
  - intros (e & f & Hc & ->).
    assert (has_entity parsed e = true) as Hhas.
    { unfold occurrences, len in Hc.
      destruct (filter _ parsed) as [|c l] eqn:Ef; [cbn in Hc; lia|].
      assert (c ∈ filter (fun column => element_id column = e
                                        /\ field_id column = f) parsed) as Hin
        by (rewrite Ef; left).
      apply list_elem_of_filter in Hin as [[He _] Hin].
      apply has_entity_spec. now exists c. }
    exists (e, entity_of parsed e). split.
    + apply list_elem_of_In, (elem_of_dict _ _ _ Hkeys).
      now rewrite H3, Hhas.
    + unfold validate_entity. rewrite entity_of_columns.
      apply in_or_app. right. apply in_flat_map.
      exists (f, occurrences parsed e f). split.
      * apply list_elem_of_In, (elem_of_dict _ _ _ (field_counts_keys _)).
        rewrite field_counts_get. cbv zeta.
        rewrite Hff.
        fold (occurrences parsed e f).
        destruct (occurrences parsed e f =? 0)%Z eqn:E;
          [apply Z.eqb_eq in E; lia | reflexivity].
      * apply Z.ltb_lt in Hc. rewrite Hc. now left.
Qed.

(** X6. On the entities [map_columns_to_entities] builds,
    [validate_entity_structure] reports exactly one
    [DUPLICATE_FIELD_IN_ENTITY] warning, carrying the count, for every
    entity and field that more than one column has, and nothing else: no
    entity is ever reported empty.  The warnings of two entities or of
    two fields differ, and no warning comes twice. *)
Theorem validate_entity_structure_of_mapping (parsed : list ParsedColumn) :
  let warnings :=
    validate_entity_structure (fst (fst (map_columns_to_entities parsed))) in
  NoDup warnings
  /\ (forall e f c e' f' c',
        duplicate_field_in_entity e f c = duplicate_field_in_entity e' f' c' ->
        e = e' /\ f = f')
  /\ forall err : TransformationError,
       err ∈ warnings
       <-> exists e f : string,
             (1 < occurrences parsed e f)%Z
             /\ err = duplicate_field_in_entity e f (occurrences parsed e f).
Proof.
  intros warnings. split; [| split].
  - subst warnings. apply validate_entity_structure_NoDup.
    unfold map_columns_to_entities.
    pose proof (map_columns_from_keys parsed) as Hkeys.
    now destruct (map_columns_from 0 parsed [] []) as [ents c2e].
  - apply duplicate_field_in_entity_inj.
  - apply validate_entity_structure_members.
Qed.

Lemma parse_all_columns_errors (column_names : list string) :
  snd (parse_all_columns column_names)
  = omap (fun name => snd (parse_column name)) column_names.
Proof.
  unfold parse_all_columns. rewrite parse_all_columns_from_spec.
  cbn [snd app]. apply (parse_errors_in_order column_names 0).
Qed.

Lemma parse_all_columns_length (column_names : list string) :
  length (fst (parse_all_columns column_names)) = length column_names.
Proof.
  unfold parse_all_columns. rewrite parse_all_columns_from_spec.
  cbn [fst app]. apply length_imap.
Qed.

(** X7. [transform_csv_context] fails only on an empty header.  On any
    other header it returns a context with one parsed column per header
    cell, whatever the cells hold: the names that do not parse are
    reported in the context as errors of severity [ERROR], followed by
    the warnings of [validate_entity_structure], and none of the errors
    of the context is fatal. *)
Theorem transform_csv_context_result (csv_context : CsvLoader.CsvContext) :
  match CsvLoader.columns csv_context with
  | [] =>
      transform_csv_context csv_context
      = (None, Some "No se pudieron parsear columnas del CSV")
  | _ :: _ =>
      exists ctx : TransformationContext,
        transform_csv_context csv_context = (Some ctx, None)
        /\ Transformer.csv_context ctx = csv_context
        /\ parsed_columns ctx
           = fst (parse_all_columns (CsvLoader.columns csv_context))
        /\ length (parsed_columns ctx)
           = length (CsvLoader.columns csv_context)
        /\ context_errors ctx
           = (omap (fun name => snd (parse_column name))
                (CsvLoader.columns csv_context)
              ++ validate_entity_structure (entities ctx))%list
        /\ Forall (fun e => severity e <> FATAL) (context_errors ctx)
  end.
Proof.
  destruct (CsvLoader.columns csv_context) as [|name names] eqn:Hcols.
  - unfold transform_csv_context. now rewrite Hcols.
  - pose proof (parse_all_columns_length (name :: names)) as Hlen.
    pose proof (parse_all_columns_errors (name :: names)) as Herrs.
    unfold transform_csv_context. rewrite Hcols.
    destruct (parse_all_columns (name :: names)) as [parsed errs].
    cbn [fst snd] in *.
    destruct parsed as [|c parsed]; [discriminate|].
    unfold map_columns_to_entities.
    pose proof (validate_entity_structure_warnings
                  (fst (map_columns_from 0 (c :: parsed) [] []))) as Hw.
    destruct (map_columns_from 0 (c :: parsed) [] []) as [ents c2e].
    cbn [fst] in Hw.
    eexists. split; [reflexivity|].
    unfold ContextBuilder.build_context.
    cbn [Transformer.csv_context parsed_columns context_errors entities].
    split; [reflexivity|]. split; [reflexivity|]. split; [exact Hlen|].
    cbn [app]. split; [now rewrite Herrs|].
    apply Forall_app. split; [| exact Hw].
    rewrite Herrs. apply Forall_forall. intros e He.
    apply list_elem_of_omap in He as (nm & _ & He).
    destruct (parse_column_error_form nm e He) as (x & y & ->).
    discriminate.
Qed.

End EntityStructure.

(** ** Row indices under batching *)

Section BatchedIndices.
Import CsvLoader CsvLoader.BatchReader Transformer Transformer.RowTransformer.
Import Transformer.TransformationOrchestrator.

(** Lists cut into chunks of [size] elements, the last one possibly
    shorter: where the element at position [k] of the concatenation is. *)
Lemma concat_lookup_chunks {A} (size : nat) (chunks : list (list A)) :
  (0 < size)%nat ->
  Forall (fun c => (length c <= size)%nat) chunks ->
  (forall i c, chunks !! i = Some c -> (S i < length chunks)%nat ->
               length c = size) ->
  forall k,
    concat chunks !! k
    = match chunks !! (k / size)%nat with
      | Some c => c !! (k mod size)%nat
      | None => None
      end.
Proof.
  intros Hsize. induction chunks as [|c chunks IH]; intros Hle Hfull k.
  - reflexivity.
  - apply Forall_cons in Hle as [Hc Hle]. cbn [concat].
    destruct (decide (k < size)%nat) as [Hk | Hk].
    + rewrite Nat.div_small, Nat.mod_small by assumption. cbn.
      destruct chunks as [|c' chunks].
      * cbn. now rewrite app_nil_r.
      * assert (length c = size) as Hlen by (apply (Hfull 0%nat); cbn; [reflexivity | lia]).
        apply lookup_app_l. lia.
    + destruct chunks as [|c' chunks].
      * cbn. rewrite app_nil_r, lookup_ge_None_2 by lia.
        destruct (k / size)%nat eqn:E; [| reflexivity].
        apply Nat.div_small_iff in E; lia.
      * assert (length c = size) as Hlen by (apply (Hfull 0%nat); cbn; [reflexivity | lia]).
        rewrite lookup_app_r by lia. rewrite Hlen.
        rewrite IH; [| assumption |].
        2: { intros i x Hi Hlt. apply (Hfull (S i)); [exact Hi | cbn in *; lia]. }
        assert (k = (k - size) + 1 * size)%nat as Hk' by lia.
        assert (k / size = S ((k - size) / size))%nat as ->
          by (rewrite Hk' at 1; rewrite Nat.div_add by lia; lia).
        assert (k mod size = (k - size) mod size)%nat as ->
          by (rewrite Hk' at 1; now rewrite Nat.Div0.mod_add).
        reflexivity.
Qed.

Lemma chunk_length {A} (size : nat) (chunks : list (list A)) :
  (0 < size)%nat ->
  Forall (fun c => c <> [] /\ (length c <= size)%nat) chunks ->
  (forall i c, chunks !! i = Some c -> (S i < length chunks)%nat ->
               length c = size) ->
  forall i c,
    chunks !! i = Some c ->
    length c = Nat.min size (length (concat chunks) - i * size).
Proof.
  intros Hsize. induction chunks as [|c0 chunks IH]; intros Hle Hfull i c Hi.
  - now rewrite lookup_nil in Hi.
  - apply Forall_cons in Hle as [[Hne Hc0] Hle]. cbn [concat].
    rewrite length_app.
    destruct chunks as [|c1 chunks].
    + destruct i as [|i]; [| now rewrite lookup_cons, lookup_nil in Hi].
      cbn in Hi. inversion Hi; subst c. cbn. lia.
    + assert (length c0 = size) as Hlen by (apply (Hfull 0%nat); cbn; [reflexivity | lia]).
      destruct i as [|i].
      * cbn in Hi. inversion Hi; subst c.
        apply Forall_cons in Hle as [[Hne1 _] _].
        assert (0 < length c1)%nat by (destruct c1; [contradiction | cbn; lia]).
        cbn [concat]. rewrite length_app. lia.
      * cbn in Hi. rewrite (IH Hle) with (i := i) (c := c); [| | exact Hi].
        -- rewrite Hlen. f_equal. cbn [Nat.mul]. lia.
        -- intros j x Hj Hlt. apply (Hfull (S j)); [exact Hj | cbn in *; lia].
Qed.

Lemma flat_map_imap {A B C} (f : B -> list C) (l : list A) :
  forall g : nat -> A -> B,
    flat_map f (imap g l) = concat (imap (fun j x => f (g j x)) l).
Proof.
  induction l as [|x l IH]; intros g; [reflexivity|].
  cbn [imap flat_map concat]. f_equal. apply (IH (g ∘ S)).
Qed.

Lemma rows_of_run_transform_stream batches ctx :
  ValidationOrchestrator.rows_of_run
    (ValidationOrchestrator.transform_stream batches ctx)
  = concat
      (imap (fun j batch =>
               transform_batch batch (Z.of_nat j)
                 (data_start_index (csv_context ctx))
                 (column_to_entity_map ctx) (entities ctx)) batches).
Proof.
  unfold ValidationOrchestrator.rows_of_run,
    ValidationOrchestrator.transform_stream.
  now rewrite flat_map_imap.
Qed.

(** X8. The indices of every row of a batched run.  The run keeps the
    rows as wide as the header, in file order; the row at position [k]
    among them lies in batch [k / 10000] at offset [k mod 10000], and
    its [original_row_index] is the batch index times the length of that
    batch plus the offset, its [csv_row_index] being
    [data_start_index] more.  So the index equals [k] in the first batch
    and in every batch of 10,000 rows. *)
Theorem batched_row_indices
    (file : list (list string)) (csv_context : CsvContext)
    (trans_context : TransformationContext) (k : nat) :
  let valid := valid_rows file csv_context in
  let batch := (Z.of_nat k / BATCH_SIZE)%Z in
  let offset := (Z.of_nat k mod BATCH_SIZE)%Z in
  let batch_len := Z.min BATCH_SIZE (len valid - batch * BATCH_SIZE) in
  match ValidationOrchestrator.rows_of_run
          (ValidationOrchestrator.transform_file file csv_context
             trans_context) !! k with
  | Some r =>
      valid !! k = Some (raw_values r)
      /\ original_row_index r = (batch * batch_len + offset)%Z
      /\ csv_row_index r
         = (data_start_index (Transformer.csv_context trans_context)
            + original_row_index r)%Z
      /\ (batch = 0%Z \/ batch_len = BATCH_SIZE ->
          original_row_index r = Z.of_nat k)
  | None => valid !! k = None
  end.
Proof.
  intros valid batch offset batch_len.
  pose proof BATCH_SIZE_pos as Hpos.
  set (size := Z.to_nat BATCH_SIZE).
  assert (Z.of_nat size = BATCH_SIZE) as Hsize by (subst size; lia).
  assert (0 < size)%nat as Hsize0 by lia.
  unfold ValidationOrchestrator.transform_file.
  rewrite rows_of_run_transform_stream.
  pose proof (read_rows_spec (total_columns csv_context)
                (drop (Z.to_nat (data_start_index csv_context)) file)
                (data_start_index csv_context) [] [] Hpos)
    as (H1 & _ & H3 & H4).
  fold (read_batches file csv_context) in H1, H3, H4.
  set (batches := fst (read_batches file csv_context)) in *.
  cbn [app] in H1. fold (valid_rows file csv_context) in H1. fold valid in H1.
  assert (Forall (fun b : list (list string) =>
                    b <> [] /\ (length b <= size)%nat) batches) as H3'.
  { eapply Forall_impl; [exact H3|]. intros b [Hb Hl]. split; [assumption|].
    unfold len in Hl. lia. }
  assert (forall i b, batches !! i = Some b -> (S i < length batches)%nat ->
                      length b = size) as H4'.
  { intros i b Hi Hlt. specialize (H4 i b Hi Hlt). unfold len in H4. lia. }
  set (tbs := imap _ batches).
  assert (forall j, tbs !! j
                    = (fun b => transform_batch b (Z.of_nat j)
                                  (data_start_index
                                     (Transformer.csv_context trans_context))
                                  (column_to_entity_map trans_context)
                                  (entities trans_context)) <$> batches !! j)
    as Htbs by (intros j; subst tbs; apply list_lookup_imap).
  assert (length tbs = length batches) as Hlen
    by (subst tbs; apply length_imap).
  rewrite (concat_lookup_chunks size tbs Hsize0).
  2: { apply Forall_lookup. intros j tb Hj. rewrite Htbs in Hj.
       destruct (batches !! j) as [b|] eqn:Hb; [| discriminate].
       cbn in Hj. inversion Hj. rewrite transform_batch_length.
       exact (proj2 (proj1 (Forall_lookup _ _) H3' j b Hb)). }
  2: { intros j tb Hj Hlt. rewrite Htbs in Hj.
       destruct (batches !! j) as [b|] eqn:Hb; [| discriminate].
       cbn in Hj. inversion Hj. rewrite transform_batch_length.
       apply (H4' j b Hb). lia. }
  assert (valid !! k
          = match batches !! (k / size)%nat with
            | Some c => c !! (k mod size)%nat
            | None => None
            end) as Hvalid.
  { rewrite <- H1. apply concat_lookup_chunks; [assumption | | assumption].
    eapply Forall_impl; [exact H3'|]. intros b [_ Hl]. exact Hl. }
  rewrite Htbs.
  destruct (batches !! (k / size)%nat) as [b|] eqn:Hb; [| exact Hvalid].
  cbn [fmap option_fmap option_map].
  destruct (b !! (k mod size)%nat) as [row|] eqn:Hrow.
  - unfold transform_batch.
    rewrite (transform_batch_from_lookup _ _ _ _ _ _ _ _ _ Hrow).
    unfold transform_row.
    destruct (transform_cells _ _ _ _ _ _ _) as [data errs].
    cbn [raw_values original_row_index csv_row_index].
    pose proof (chunk_length size batches Hsize0 H3' H4' _ _ Hb) as Hbl.
    rewrite H1 in Hbl.
    assert (Z.of_nat (k / size) = batch) as Hq
      by (subst batch; rewrite Nat2Z.inj_div, Hsize; reflexivity).
    assert (Z.of_nat (k mod size) = offset) as Hr
      by (subst offset; rewrite Nat2Z.inj_mod, Hsize; reflexivity).
    assert (len b = batch_len) as Hl.
    { pose proof (proj1 (proj1 (Forall_lookup _ _) H3' _ _ Hb)) as Hne.
      assert (0 < length b)%nat as Hb0
        by (destruct b; [contradiction | cbn; lia]).
      subst batch_len. unfold len. rewrite <- Hq. fold valid in Hbl.
      revert Hbl Hb0. generalize (k / size)%nat (length b) (length valid).
      intros q lb lv Hbl Hb0. nia. }
    rewrite Hq, Hr, Hl, Z.add_0_l.
    split; [exact Hvalid|]. split; [reflexivity|]. split; [reflexivity|].
    pose proof (Z.div_mod (Z.of_nat k) BATCH_SIZE ltac:(lia)) as Hdm.
    fold batch offset in Hdm.
    intros [H0 | Hfull]; [rewrite H0 in *; lia | rewrite Hfull; lia].
  - rewrite lookup_ge_None_2; [exact Hvalid|].
    rewrite transform_batch_length. now apply lookup_ge_None.
Qed.

End BatchedIndices.

(** ** Streamed batches *)

Section StreamedBatches.
Import CsvLoader CsvLoader.BatchReader Transformer Transformer.RowTransformer.
Import Transformer.TransformationOrchestrator.

Lemma transform_row_errors_of_context
    (csv_context : CsvContext) (ctx : TransformationContext)
    (row : list string) (row_index csv_start_index : Z) :
  transform_csv_context csv_context = (Some ctx, None) ->
  errors (transform_row row row_index csv_start_index
            (column_to_entity_map ctx) (entities ctx))
  = map (out_of_range_error row_index)
      (seq (length (CsvLoader.columns csv_context))
         (length row - length (CsvLoader.columns csv_context))).
Proof.
  intros Hctx.
  apply transform_csv_context_Some in Hctx as (Hp & He & Hc & _).
  pose proof (parsed_columns_element_nonempty (CsvLoader.columns csv_context)) as Hne.
  pose proof (parse_all_columns_length (CsvLoader.columns csv_context)) as Hlen.
  rewrite <- Hp in Hne, Hlen.
  pose proof (map_columns_from_keys (parsed_columns ctx)) as Hkeys.
  rewrite <- He in Hkeys.
  destruct (initial_data (OD.keys (entities ctx)) [] Hkeys
              ltac:(reflexivity)) as [K1 _].
  cbn [OD.keys map app] in K1.
  pose proof (map_columns_from_spec (parsed_columns ctx)) as (_ & _ & H3).
  rewrite <- He in H3.
  destruct (transform_cells_spec (parsed_columns ctx) row_index Hne row 0
              (fold_left (fun d entity_id => OD.set d entity_id [])
                 (OD.keys (entities ctx)) []) [])
    as (T1 & _).
  { intros e Hhas. apply mem_keys. rewrite K1. apply mem_keys.
    unfold OD.mem. now rewrite H3, Hhas. }
  rewrite <- He, <- Hc in T1.
  unfold transform_row.
  destruct (transform_cells _ _ _ _ _ _ _) as [data errs].
  cbn [errors snd] in *. rewrite T1, Hlen. cbn [app].
  now replace (Nat.max 0 (length (CsvLoader.columns csv_context)))
    with (length (CsvLoader.columns csv_context)) by lia.
Qed.

(** X9. Streamed batches transform without error.  When the column
    count of the CSV context is the length of its header, as
    [detect_structure] sets it, and the transformation context was built
    from that CSV context, no batch of a run has a transformation
    error: the reader only passes on rows as wide as the header, and
    the transformer maps every cell of such a row. *)
Theorem streamed_batches_have_no_errors
    (file : list (list string)) (csv_context : CsvContext)
    (ctx : TransformationContext) (result : BatchTransformationResult) :
  total_columns csv_context = len (CsvLoader.columns csv_context) ->
  transform_csv_context csv_context = (Some ctx, None) ->
  result ∈ ValidationOrchestrator.transform_file file csv_context ctx ->
  batch_errors result = []
  /\ Forall (fun r => errors r = []) (transformed_rows result).
Proof.
  intros Hcols Hctx Hin.
  pose proof (read_rows_spec (total_columns csv_context)
                (drop (Z.to_nat (data_start_index csv_context)) file)
                (data_start_index csv_context) [] [] BATCH_SIZE_pos)
    as (H1 & _).
  fold (read_batches file csv_context) in H1. cbn [app] in H1.
  unfold ValidationOrchestrator.transform_file,
    ValidationOrchestrator.transform_stream in Hin.
  apply list_elem_of_lookup in Hin as [j Hj].
  rewrite list_lookup_imap in Hj.
  destruct (fst (read_batches file csv_context) !! j) as [batch|] eqn:Hb;
    [| discriminate].
  cbn in Hj. inversion Hj; subst result; clear Hj.
  assert (Forall (fun row : list string =>
                    length row = length (CsvLoader.columns csv_context)) batch)
    as Hwide.
  { apply Forall_forall. intros row Hrow.
    assert (row ∈ concat (fst (read_batches file csv_context))) as Hc.
    { apply list_elem_of_In, in_concat. exists batch.
      split; apply list_elem_of_In;
        [eapply list_elem_of_lookup_2; eassumption | assumption]. }
    rewrite H1 in Hc. apply list_elem_of_filter in Hc as [Hc _].
    rewrite Hcols in Hc. unfold len in Hc. lia. }
  assert (Forall (fun r => errors r = [])
            (transform_batch batch (Z.of_nat j)
               (data_start_index (Transformer.csv_context ctx))
               (column_to_entity_map ctx) (entities ctx))) as Hrows.
  { apply Forall_lookup. intros i r Hi. unfold transform_batch in Hi.
    destruct (batch !! i) as [row|] eqn:Hrow.
    - rewrite (transform_batch_from_lookup _ _ _ _ _ _ _ _ _ Hrow) in Hi.
      inversion Hi; subst r.
      rewrite (transform_row_errors_of_context csv_context ctx) by assumption.
      rewrite (proj1 (Forall_lookup _ _) Hwide i row Hrow).
      now rewrite Nat.sub_diag.
    - apply lookup_lt_Some in Hi.
      rewrite transform_batch_from_length in Hi.
      apply lookup_ge_None in Hrow. lia. }
  unfold _transform_batch. cbn [batch_errors transformed_rows].
  split; [| exact Hrows].
  induction Hrows as [|r rs Hr _ IH]; [reflexivity|].
  cbn [flat_map]. now rewrite Hr, IH.
Qed.

Lemma streamed_batches_have_no_errors_witness :
  exists ctx result,
    transform_csv_context one_column_csv = (Some ctx, None)
    /\ result ∈ ValidationOrchestrator.transform_file
                  [["personInfo_name"]; ["Name"]; ["x"]; ["y"; "z"]]
                  one_column_csv ctx
    /\ batch_errors result = [].
Proof.
  eexists. eexists. split; [vm_compute; reflexivity|].
  match goal with
  | |- ?r ∈ ValidationOrchestrator.transform_file ?f ?c ?x /\ _ =>
      assert (r ∈ ValidationOrchestrator.transform_file f c x) as Hin
  end.
  { vm_compute. left. }
  split; [exact Hin|].
  refine (proj1 (streamed_batches_have_no_errors _ one_column_csv _ _ _ _ Hin));
    vm_compute; reflexivity.
Defined.

End StreamedBatches.

(** ** Header validation *)

Section HeaderValidation.
Import PyStr CsvLoader CsvLoader.CsvLoaderErrors CsvLoader.StructureDetector.

Lemma strip_empty_of_empty (cell : string) : cell = "" -> strip cell = "".
Proof. now intros ->. Qed.

(** The state of the loop of [_validate_header_row] once the cells
    [seen] have passed: its result on the remaining cells. *)
Lemma validate_header_from_cases (rest : list string) :
  forall (seen : list string),
    Forall well_formed_cell seen ->
    NoDup (strip <$> seen) ->
    match validate_header_from (length seen) rest
            (list_to_set (strip <$> seen)) with
    | None =>
        Forall well_formed_cell (seen ++ rest)%list
        /\ NoDup (strip <$> (seen ++ rest)%list)
    | Some e =>
        exists (i : nat) (cell : string),
          (seen ++ rest)%list !! i = Some cell
          /\ Forall well_formed_cell (take i (seen ++ rest)%list)
          /\ NoDup (strip <$> take i (seen ++ rest)%list)
          /\ ((strip cell = "" /\ e = empty_column_name 0 (Z.of_nat i))
              \/ (strip cell <> ""
                  /\ strip cell ∈ (strip <$> take i (seen ++ rest)%list)
                  /\ e = duplicated_column 0 (Z.of_nat i) (strip cell))
              \/ (strip cell <> ""
                  /\ (strip cell ∉ (strip <$> take i (seen ++ rest)%list))
                  /\ contains_char underscore cell = false
                  /\ e = invalid_column_identifier 0 (Z.of_nat i) (strip cell)))
    end.
Proof.
  induction rest as [|cell rest IH]; intros seen Hwf Hnd.
  - cbn [validate_header_from]. rewrite app_nil_r. split; assumption.
  - cbn [validate_header_from].
    assert ((seen ++ cell :: rest)%list !! length seen = Some cell) as Hcell
      by (rewrite lookup_app_r, Nat.sub_diag by lia; reflexivity).
    assert (take (length seen) (seen ++ cell :: rest)%list = seen) as Htake
      by (rewrite take_app_length; reflexivity).
    destruct ((cell =? "")%string || (strip cell =? "")%string) eqn:Eempty.
    { exists (length seen), cell. rewrite Htake.
      split; [assumption|]. split; [assumption|]. split; [assumption|].
      left. split; [| reflexivity].
      apply orb_true_iff in Eempty as [E | E]; apply String.eqb_eq in E;
        [now apply strip_empty_of_empty | assumption]. }
    apply orb_false_iff in Eempty as [E1 E2].
    apply String.eqb_neq in E1, E2.
    destruct (decide (strip cell ∈ (list_to_set (strip <$> seen) : gset string)))
      as [Hin | Hnotin].
    { exists (length seen), cell. rewrite Htake.
      split; [assumption|]. split; [assumption|]. split; [assumption|].
      right. left. split; [assumption|]. split; [| reflexivity].
      now apply elem_of_list_to_set in Hin. }
    rewrite elem_of_list_to_set in Hnotin.
    destruct (contains_char underscore (strip cell)) eqn:Hus; cbn [negb].
    + rewrite contains_char_strip in Hus by reflexivity.
      specialize (IH (seen ++ [cell])%list).
      rewrite length_app, Nat.add_1_r in IH.
      rewrite fmap_app, list_to_set_app_L in IH. cbn in IH.
      rewrite (union_empty_r_L {[strip cell]}) in IH.
      rewrite (union_comm_L _ {[strip cell]}) in IH.
      rewrite <- app_assoc in IH. cbn [app] in IH.
      apply IH.
      * apply Forall_app. split; [assumption|]. repeat constructor; assumption.
      * apply NoDup_app. split; [assumption|]. split; [| apply NoDup_singleton].
        intros x Hx Hx'. apply list_elem_of_singleton in Hx'. now subst x.
    + rewrite contains_char_strip in Hus by reflexivity.
      exists (length seen), cell. rewrite Htake.
      split; [assumption|]. split; [assumption|]. split; [assumption|].
      right. right. repeat split; assumption.
Qed.

Lemma validate_header_row_None_iff (header : list string) :
  _validate_header_row header = None
  <-> header <> [] /\ Forall well_formed_cell header
      /\ NoDup (strip <$> header).
Proof.
  split.
  - intros H. destruct header as [|cell cells]; [discriminate|].
    unfold _validate_header_row in H.
    pose proof (validate_header_from_cases (cell :: cells) []
                  ltac:(constructor) ltac:(constructor)) as Hc.
    cbn [length fmap list_fmap list_to_set app] in Hc. rewrite H in Hc.
    split; [discriminate | exact Hc].
  - intros (Hne & Hwf & Hnd). destruct header as [|cell cells];
      [contradiction|].
    unfold _validate_header_row.
    apply validate_header_from_ok; [assumption | assumption |].
    intros c _. apply not_elem_of_empty.
Qed.

Lemma header_error_fatal (header : list string) (e : NormalizedError) :
  _validate_header_row header = Some e -> severity e = FATAL.
Proof.
  destruct header as [|cell cells]; [now intros [= <-]|].
  unfold _validate_header_row. intros H.
  pose proof (validate_header_from_cases (cell :: cells) []
                ltac:(constructor) ltac:(constructor)) as Hc.
  cbn [length fmap list_fmap list_to_set app] in Hc. rewrite H in Hc.
  destruct Hc as (i & c & _ & _ & _ & [[_ ->] | [(_ & _ & ->) | (_ & _ & _ & ->)]]);
    reflexivity.
Qed.

(** X10. The error [_validate_header_row] returns.  It is fatal; for an
    empty header it is [MISSING_HEADER_ROW]; otherwise it names the
    first column that is blank, or repeats an earlier column once both
    are stripped, or has no underscore, every column before it being
    well formed and the stripped names before it pairwise distinct.  A
    blank cell is reported as [EMPTY_COLUMN_NAME], a repeated one as
    [DUPLICATED_COLUMN], and one without underscore as
    [INVALID_COLUMN_IDENTIFIER], in this order of precedence. *)
Theorem validate_header_row_first_error
    (header : list string) (e : NormalizedError) :
  _validate_header_row header = Some e ->
  severity e = FATAL
  /\ ((header = [] /\ e = missing_header_row)
      \/ exists (i : nat) (cell : string),
           header !! i = Some cell
           /\ column_index e = Some (Z.of_nat i)
           /\ Forall well_formed_cell (take i header)
           /\ NoDup (strip <$> take i header)
           /\ ((strip cell = "" /\ code e = "EMPTY_COLUMN_NAME")
               \/ (strip cell <> ""
                   /\ strip cell ∈ (strip <$> take i header)
                   /\ code e = "DUPLICATED_COLUMN"
                   /\ value e = Some (strip cell))
               \/ (strip cell <> ""
                   /\ (strip cell ∉ (strip <$> take i header))
                   /\ contains_char underscore cell = false
                   /\ code e = "INVALID_COLUMN_IDENTIFIER"
                   /\ value e = Some (strip cell)))).
Proof.
  intros H. split; [eapply header_error_fatal; eassumption|].
  destruct header as [|c0 cells]; [left; split; [reflexivity | now inversion H]|].
  right. unfold _validate_header_row in H.
  pose proof (validate_header_from_cases (c0 :: cells) []
                ltac:(constructor) ltac:(constructor)) as Hc.
  cbn [length fmap list_fmap list_to_set app] in Hc. rewrite H in Hc.
  destruct Hc as (i & cell & Hi & Hwf & Hnd & Hcase).
  exists i, cell. split; [assumption|].
  destruct Hcase as [[Hs ->] | [(Hs & Hin & ->) | (Hs & Hin & Hus & ->)]];
    (split; [reflexivity|]); (split; [assumption|]); (split; [assumption|]).
  - left. split; [assumption | reflexivity].
  - right. left. repeat split; assumption.
  - right. right. repeat split; assumption.
Qed.

Lemma validate_header_row_first_error_witness :
  _validate_header_row ["a_b"; "b_c"; " b_c"; "nounderscore"]
  = Some (duplicated_column 0 2 "b_c")
  /\ severity (duplicated_column 0 2 "b_c") = FATAL.
Proof.
  split; [vm_compute; reflexivity|].
  apply (proj1 (validate_header_row_first_error
                  ["a_b"; "b_c"; " b_c"; "nounderscore"]
                  (duplicated_column 0 2 "b_c")
                  ltac:(vm_compute; reflexivity))).
Defined.

(** X11. [detect_structure] returns a context or an error, never both
    and never neither, and the error is always fatal.  It returns a
    context exactly when the file has a first row that is non-empty,
    whose cells are non-empty and contain an underscore, and are
    pairwise distinct once stripped; the context then has that row as
    its columns, its length as [total_columns] and
    [data_start_index = 2].  An empty file gives [EMPTY_FILE]. *)
Theorem detect_structure_outcome (file : list (list string))
    (encoding : string) (dialect_info : CsvDialectInfo) :
  match detect_structure file encoding dialect_info with
  | (Some context, None) =>
      exists header rest,
        file = header :: rest
        /\ header <> [] /\ Forall well_formed_cell header
        /\ NoDup (strip <$> header)
        /\ columns context = header
        /\ total_columns context = len header
        /\ data_start_index context = 2%Z
        /\ CsvLoader.encoding context = encoding
        /\ dialect context = dialect_info
  | (None, Some e) =>
      severity e = FATAL
      /\ match file with
         | [] => e = empty_file
         | header :: _ =>
             _validate_header_row header = Some e
             /\ ~ (header <> [] /\ Forall well_formed_cell header
                   /\ NoDup (strip <$> header))
         end
  | _ => False
  end.
Proof.
  destruct file as [|header rest]; [cbn; split; reflexivity|].
  unfold detect_structure. cbn [take].
  destruct (_validate_header_row header) as [e|] eqn:Hh.
  - split; [eapply header_error_fatal; eassumption|].
    split; [reflexivity|]. intros Hv.
    apply validate_header_row_None_iff in Hv. congruence.
  - apply validate_header_row_None_iff in Hh as (H1 & H2 & H3).
    exists header, rest. repeat split; assumption.
Qed.

End HeaderValidation.

(** ** Encoding and loading *)

Section Loading.
Import PyStr CsvLoader CsvLoader.CsvLoaderErrors CsvLoader.StructureDetector.
Import CsvLoader.EncodingResolver CsvLoader.BatchReader CsvLoader.Loader.

Lemma fallback_result (env : Codecs) (raw_data : list Byte.byte) :
  match fallback env raw_data with
  | (Some encoding, None) =>
      In encoding ENCODING_PRIORITY
      /\ decodes_strictly env raw_data encoding = true
  | (Some encoding, Some e) =>
      In encoding ENCODING_PRIORITY
      /\ e = invalid_characters 0 0
      /\ Forall (fun enc => decodes_strictly env raw_data enc = false)
           ENCODING_PRIORITY
  | (None, Some e) => e = encoding_detection_failed
  | (None, None) => False
  end.
Proof.
  unfold fallback.
  destruct (find (decodes_strictly env raw_data) ENCODING_PRIORITY)
    as [enc|] eqn:F1.
  - apply find_some in F1. exact F1.
  - destruct (find (fun encoding => decode_replace env encoding raw_data)
                ENCODING_PRIORITY) as [enc|] eqn:F2.
    + apply find_some in F2 as [F2 _]. split; [assumption|].
      split; [reflexivity|].
      apply Forall_forall. intros x Hx. apply list_elem_of_In in Hx.
      exact (List.find_none _ _ F1 x Hx).
    + reflexivity.
Qed.

(** X12. What [detect_encoding] returns when the detector names an
    encoding.  It returns an encoding or a fatal error, never neither;
    an encoding returned without an error decodes the sample strictly and
    is one of the priority list or the normalised name the detector gave;
    an encoding returned with an error comes with [INVALID_CHARACTERS],
    of severity [ERROR], no encoding of the priority list decoding the
    sample strictly. *)
Theorem detect_encoding_result (env : Codecs) (file : list Byte.byte)
    (name : string) :
  let raw_data := take (Z.to_nat 10000) file in
  detected (chardet_detect env raw_data) = Some name ->
  exists result,
    detect_encoding env file = Returns result
    /\ match result with
       | (Some encoding, None) =>
           decodes_strictly env raw_data encoding = true
           /\ (In encoding ENCODING_PRIORITY
               \/ encoding = encoding_map (lower name))
       | (Some encoding, Some e) =>
           In encoding ENCODING_PRIORITY
           /\ e = invalid_characters 0 0 /\ severity e = ERROR
           /\ Forall (fun enc => decodes_strictly env raw_data enc = false)
                ENCODING_PRIORITY
       | (None, Some e) =>
           severity e = FATAL
           /\ (raw_data = [] /\ e = empty_file
               \/ raw_data <> [] /\ e = encoding_detection_failed)
       | (None, None) => False
       end.
Proof.
  intros raw_data Hname. unfold detect_encoding. fold raw_data.
  destruct raw_data as [|b raw] eqn:Eraw.
  - eexists. split; [reflexivity|]. cbn. split; [reflexivity|]. now left.
  - rewrite Hname.
    pose proof (fallback_result env (b :: raw)) as Hfb.
    assert (match fallback env (b :: raw) with
            | (Some encoding, None) =>
                decodes_strictly env (b :: raw) encoding = true
                /\ (In encoding ENCODING_PRIORITY
                    \/ encoding = encoding_map (lower name))
            | (Some encoding, Some e) =>
                In encoding ENCODING_PRIORITY
                /\ e = invalid_characters 0 0 /\ severity e = ERROR
                /\ Forall (fun enc => decodes_strictly env (b :: raw) enc = false)
                     ENCODING_PRIORITY
            | (None, Some e) =>
                severity e = FATAL
                /\ (b :: raw = [] /\ e = empty_file
                    \/ b :: raw <> [] /\ e = encoding_detection_failed)
            | (None, None) => False
            end) as Hfb'.
    { destruct (fallback env (b :: raw)) as [[enc|] [e|]]; try assumption.
      - destruct Hfb as (H1 & -> & H3). repeat split; assumption.
      - destruct Hfb as [H1 H2]. split; [assumption | now left].
      - subst e. split; [reflexivity|]. right. split; [discriminate | reflexivity]. }
    destruct (high_confidence (confidence (chardet_detect env (b :: raw)))
              && negb (lower name =? "")%string).
    + destruct (decodes_strictly env (b :: raw) (encoding_map (lower name)))
        eqn:Hd.
      * eexists. split; [reflexivity|]. cbn. split; [assumption | now right].
      * eexists. split; [reflexivity | exact Hfb'].
    + eexists. split; [reflexivity | exact Hfb'].
Qed.

Lemma detect_encoding_result_witness :
  exists result,
    detect_encoding lossy_only [Byte.xff] = Returns result
    /\ match result with
       | (Some encoding, None) =>
           decodes_strictly lossy_only [Byte.xff] encoding = true
           /\ (In encoding ENCODING_PRIORITY
               \/ encoding = encoding_map (lower "ascii"))
       | (Some encoding, Some e) =>
           In encoding ENCODING_PRIORITY
           /\ e = invalid_characters 0 0 /\ severity e = ERROR
           /\ Forall (fun enc => decodes_strictly lossy_only [Byte.xff] enc = false)
                ENCODING_PRIORITY
       | (None, Some e) =>
           severity e = FATAL
           /\ ([Byte.xff] = [] /\ e = empty_file
               \/ [Byte.xff] <> [] /\ e = encoding_detection_failed)
       | (None, None) => False
       end.
Proof.
  apply (detect_encoding_result lossy_only [Byte.xff] "ascii"). reflexivity.
Defined.

Lemma detect_encoding_never_neither (env : Codecs) (file : list Byte.byte) :
  detect_encoding env file <> Returns (None, None).
Proof.
  unfold detect_encoding.
  destruct (take (Z.to_nat 10000) file) as [|b raw]; [discriminate|].
  destruct (detected _); [| discriminate].
  pose proof (fallback_result env (b :: raw)) as Hfb.
  destruct (_ && _); [destruct (decodes_strictly _ _ _); [discriminate|]|];
    intros [= H]; rewrite H in Hfb; exact Hfb.
Qed.

Lemma detect_structure_context (file : list (list string))
    (encoding : string) (dialect_info : CsvDialectInfo) (context : CsvContext) :
  detect_structure file encoding dialect_info = (Some context, None) ->
  exists header rest,
    file = header :: rest
    /\ context = mkCsvContext encoding dialect_info header (len header)
                   (structure_errors header rest) true 2.
Proof.
  unfold detect_structure. destruct file as [|header rest]; [discriminate|].
  cbn [take]. destruct (_validate_header_row header); [discriminate|].
  intros [= <-]. exists header, rest. split; [reflexivity|]. f_equal.
  unfold structure_errors, _validate_data_row.
  rewrite !lookup_take_lt by lia.
  destruct (rest !! 0%nat) as [labels|]; destruct (rest !! 1%nat) as [data_row|];
    repeat match goal with
           | |- context [(?a =? ?b)%Z] => destruct (a =? b)%Z
           end; reflexivity.
Qed.

Lemma detect_encoding_clean_is_strict (env : Codecs) (file : list Byte.byte)
    (encoding : string) :
  detect_encoding env file = Returns (Some encoding, None) ->
  decodes_strictly env (take (Z.to_nat 10000) file) encoding = true.
Proof.
  unfold detect_encoding.
  set (raw_data := take (Z.to_nat 10000) file).
  assert (fallback env raw_data = (Some encoding, None) ->
          decodes_strictly env raw_data encoding = true) as Hfb.
  { unfold fallback.
    destruct (find (decodes_strictly env raw_data) ENCODING_PRIORITY)
      as [enc|] eqn:Ef.
    - intros [= <-]. now apply List.find_some in Ef as [_ Ef].
    - destruct (find (fun enc => decode_replace env enc raw_data)
                  ENCODING_PRIORITY); intros H; discriminate H. }
  destruct raw_data as [|b raw] eqn:E; [intros H; discriminate H|].
  destruct (detected (chardet_detect env (b :: raw))) as [name|];
    [| intros H; discriminate H].
  destruct (high_confidence _ && negb _).
  - destruct (decodes_strictly env (b :: raw) (encoding_map (lower name)))
      eqn:Hd.
    + now intros [= <-].
    + intros [= H]. now apply Hfb.
  - intros [= H]. now apply Hfb.
Qed.

(** X13. [load_csv] on an existing file.  Any error [detect_encoding]
    returns makes the load fail, the non-fatal [INVALID_CHARACTERS] of
    the lossy fallback included, so a file is loaded only under an
    encoding that decodes its sample strictly.  A load either fails with
    a message or returns a context, never both; the context returned is
    the one [detect_structure] built, its errors being the label-row and
    first-data-row findings only, and its data stream the batches of
    [read_batches]. *)
Theorem load_csv_outcome (env : Codecs) (file_path : string) (file : FileView) :
  file_exists file = true ->
  (forall encoding e,
      detect_encoding env (file_bytes file) = Returns (encoding, Some e) ->
      load_csv env file_path file
      = Returns (None, Some ("Error de codificaci" ++ chr 243 ++ "n: "
                               ++ message e)))
  /\ (forall result,
        load_csv env file_path file = Returns result ->
        match result with
        | (Some loaded, None) =>
            exists encoding dialect_info header rest,
              detect_encoding env (file_bytes file)
              = Returns (Some encoding, None)
              /\ decodes_strictly env
                   (take (Z.to_nat 10000) (file_bytes file)) encoding = true
              /\ detected_dialect file = inl dialect_info
              /\ file_rows file = header :: rest
              /\ loaded_context loaded
                 = mkCsvContext encoding dialect_info header (len header)
                     (structure_errors header rest) true 2
              /\ data_stream loaded
                 = fst (read_batches (file_rows file) (loaded_context loaded))
        | (None, Some _) => True
        | _ => False
        end).
Proof.
  intros Hex. unfold load_csv. rewrite Hex. cbn [negb]. split.
  - intros encoding e ->. reflexivity.
  - intros result.
    pose proof (detect_encoding_never_neither env (file_bytes file)) as Hnn.
    pose proof (detect_encoding_clean_is_strict env (file_bytes file))
      as Hstrict.
    destruct (detect_encoding env (file_bytes file)) as [[enc [e|]]|exc];
      [intros [= <-]; exact I | | discriminate].
    destruct enc as [encoding|]; [| contradiction].
    specialize (Hstrict encoding eq_refl).
    destruct (detected_dialect file) as [dialect_info|e];
      [| intros [= <-]; exact I].
    change (default "" (Some encoding)) with encoding.
    destruct (detect_structure (file_rows file) encoding dialect_info)
      as [[context|] [e|]] eqn:Hs; cbv beta iota;
      try (intros [= <-]; exact I).
    apply detect_structure_context in Hs as (header & rest & Hrows & Hctx).
    destruct (read_batches (file_rows file) context) as [batches errs] eqn:Hb.
    intros [= <-]. exists encoding, dialect_info, header, rest.
    cbn [loaded_context data_stream]. rewrite Hb.
    repeat split; assumption.
Qed.

Lemma load_csv_outcome_witness :
  load_csv lossy_only "gr.csv"
    (mkFileView true [Byte.xff]
       (inl (mkCsvDialectInfo "," "'" None true false)) [["a_b"]])
  = Returns (None, Some ("Error de codificaci" ++ chr 243 ++ "n: "
                           ++ message (invalid_characters 0 0))).
Proof.
  apply (proj1 (load_csv_outcome lossy_only "gr.csv"
                  (mkFileView true [Byte.xff]
                     (inl (mkCsvDialectInfo "," "'" None true false))
                     [["a_b"]])
                  ltac:(reflexivity)) (Some "utf-8-sig")
           (invalid_characters 0 0)).
  reflexivity.
Defined.

End Loading.

(** ** Search patterns *)

Section SearchPatterns.
Import PyStr Comparator Comparator.ComparatorErrors Comparator.Engine.

Lemma unique_nonempty_spec (patterns : list string) :
  forall acc : list string,
    NoDup acc -> "" ∉ acc ->
    NoDup (unique_nonempty patterns acc)
    /\ ("" ∉ unique_nonempty patterns acc)
    /\ (forall p, p ∈ unique_nonempty patterns acc
                  <-> p ∈ acc \/ (p ∈ patterns /\ p <> ""))
    /\ exists rest, unique_nonempty patterns acc = (acc ++ rest)%list.
Proof.
  induction patterns as [|q patterns IH]; intros acc Hnd Hne.
  - cbn. split; [assumption|]. split; [assumption|]. split.
    + intros p. split; [now left|]. intros [H | [H _]]; [assumption|].
      now apply elem_of_nil in H.
    + exists []. now rewrite app_nil_r.
  - cbn [unique_nonempty].
    destruct (q =? "")%string eqn:Eq; cbn [negb andb].
    + apply String.eqb_eq in Eq. subst q.
      destruct (IH acc Hnd Hne) as (I1 & I2 & I3 & I4).
      split; [assumption|]. split; [assumption|]. split; [| assumption].
      intros p. rewrite I3, elem_of_cons. split.
      * intros [H | [H1 H2]]; [now left | right; split; [now right | assumption]].
      * intros [H | [[-> | H1] H2]]; [now left | contradiction | right; now split].
    + apply String.eqb_neq in Eq.
      destruct (existsb (String.eqb q) acc) eqn:Ex; cbn [negb].
      * apply existsb_eqb_In in Ex.
        destruct (IH acc Hnd Hne) as (I1 & I2 & I3 & I4).
        split; [assumption|]. split; [assumption|]. split; [| assumption].
        intros p. rewrite I3, elem_of_cons. split.
        -- intros [H | [H1 H2]]; [now left | right; split; [now right | assumption]].
        -- intros [H | [[-> | H1] H2]];
             [now left | left; now apply list_elem_of_In | right; now split].
      * assert (~ In q acc) as Hq.
        { intros Hin. apply existsb_eqb_In in Hin. congruence. }
        destruct (IH (acc ++ [q])%list) as (I1 & I2 & I3 & I4).
        -- apply NoDup_app. split; [assumption|].
           split; [| apply NoDup_singleton].
           intros x Hx Hx'. apply list_elem_of_singleton in Hx'. subst x.
           now apply list_elem_of_In in Hx.
        -- rewrite elem_of_app, list_elem_of_singleton. intros [H | H];
             [contradiction | congruence].
        -- split; [assumption|]. split; [assumption|]. split.
           ++ intros p. rewrite I3, elem_of_app, list_elem_of_singleton, elem_of_cons.
              split.
              ** intros [[H | ->] | [H1 H2]];
                   [now left | right; split; [now left | assumption]
                    | right; split; [now right | assumption]].
              ** intros [H | [[-> | H1] H2]];
                   [left; now left | left; now right | right; now split].
           ++ destruct I4 as [rest Hrest]. exists (q :: rest).
              rewrite Hrest, <- app_assoc. reflexivity.
Qed.

(** X14. The search patterns [_validate_field] tries, in order, for an
    entity, a field and a column name: they start with [entity_field],
    hold no empty string and no pattern twice, and are exactly the
    non-empty ones among [entity_field], the same without a known
    country prefix of the entity, the column name, and the column name
    with dots for underscores. *)
Theorem build_field_search_patterns_spec
    (entity_id field_id : string) (column_name : option string) :
  let patterns := _build_field_search_patterns entity_id field_id column_name in
  NoDup patterns
  /\ ("" ∉ patterns)
  /\ head patterns = Some (entity_id ++ "_" ++ field_id)
  /\ forall p : string,
       p ∈ patterns
       <-> p <> ""
           /\ (p = entity_id ++ "_" ++ field_id
               \/ (exists base, base_entity entity_id = Some base
                                /\ p = base ++ "_" ++ field_id)
               \/ (exists c, nonempty column_name = Some c
                             /\ (p = c \/ p = replace_char underscore "." c))).
Proof.
  intros patterns. subst patterns. unfold _build_field_search_patterns.
  fold (nonempty column_name).
  set (candidates :=
         match nonempty column_name with
         | Some c =>
             if startswith_any c ["MEX_"; "USA_"; "BRA_"] then _ else _
         | None => _
         end).
  destruct (unique_nonempty_spec candidates [] ltac:(apply NoDup_nil_2)
              ltac:(apply not_elem_of_nil)) as (H1 & H2 & H3 & [rest H4]).
  split; [assumption|]. split; [assumption|].
  assert (exists tl, candidates = (entity_id ++ "_" ++ field_id) :: tl) as [tl Htl].
  { subst candidates. unfold base_entity.
    destruct (nonempty column_name) as [c|];
      destruct (startswith_any entity_id COUNTRY_PREFIXES);
      try destruct (split1 underscore entity_id) as [|? [|? [|? ?]]];
      try destruct (startswith_any c _); cbn [app]; eauto. }
  split.
  - rewrite Htl. cbn [unique_nonempty].
    assert ((entity_id ++ "_" ++ field_id =? "")%string = false) as ->.
    { apply String.eqb_neq. apply append_nonempty_r. discriminate. }
    cbn [negb andb existsb app].
    destruct (unique_nonempty_spec tl [entity_id ++ "_" ++ field_id])
      as (_ & _ & _ & [r Hr]).
    + apply NoDup_singleton.
    + rewrite list_elem_of_singleton. intros H. symmetry in H. revert H.
      apply append_nonempty_r. discriminate.
    + now rewrite Hr.
  - intros p. rewrite H3. split.
    + intros [H | [Hin Hne]]; [now apply elem_of_nil in H|].
      split; [assumption|]. subst candidates. unfold base_entity.
      destruct (nonempty column_name) as [c|];
        destruct (startswith_any entity_id COUNTRY_PREFIXES);
        try destruct (split1 underscore entity_id) as [|? [|? [|? ?]]];
        try destruct (startswith_any c _);
        repeat (rewrite elem_of_app in Hin || rewrite elem_of_cons in Hin);
        rewrite ?elem_of_nil in Hin;
        intuition (subst; eauto 8).
    + intros [Hne Hp]. right. split; [| assumption].
      subst candidates. unfold base_entity in Hp.
      destruct (nonempty column_name) as [c|];
        destruct (startswith_any entity_id COUNTRY_PREFIXES);
        try destruct (split1 underscore entity_id) as [|? [|? [|? ?]]];
        try destruct (startswith_any c _);
        repeat (rewrite elem_of_app || rewrite elem_of_cons);
        destruct Hp as [-> | [(base & [= <-] & ->) | (c' & [= <-] & [-> | ->])]];
        tauto.
Qed.

End SearchPatterns.

(** ** Built-in field rules *)

Section BuiltinFieldRules.
Import PyStr Comparator Comparator.ComparatorErrors Comparator.Engine.
Import Comparator.Validators.

(** What the two built-in field rules report for one value. *)
Lemma run_not_null context entity_id field_id m value row_index csv_row_index
    column_name person_id_external :
  run_field_rule context entity_id field_id m value row_index csv_row_index
    column_name person_id_external NotNullRule
  = if fm_is_required m && (strip value =? "")%string
    then [required_value_missing row_index csv_row_index entity_id
            (fm_field_id m)
            (default (entity_id ++ "_" ++ fm_field_id m) (nonempty column_name))
            person_id_external]
    else [].
Proof.
  unfold run_field_rule, NotNullRule, nonempty.
  cbn [should_skip validate arg_field_metadata arg_entity_id arg_row_index
       arg_csv_row_index arg_value arg_column_name arg_person_id_external
       is_null_or_empty].
  destruct (fm_is_required m); cbn [negb andb]; [| reflexivity].
  destruct (strip value =? "")%string; [| reflexivity].
  destruct column_name as [c|]; [| reflexivity].
  now destruct (c =? "")%string.
Qed.

Lemma run_max_length context entity_id field_id m value row_index csv_row_index
    column_name person_id_external :
  run_field_rule context entity_id field_id m value row_index csv_row_index
    column_name person_id_external MaxLengthRule
  = match fm_max_length m with
    | Some max_length =>
        if (max_length <? slen value)%Z
        then [max_length_exceeded row_index csv_row_index entity_id
                (fm_field_id m)
                (default (entity_id ++ "_" ++ fm_field_id m)
                   (nonempty column_name))
                max_length (slen value) value person_id_external]
        else []
    | None => []
    end.
Proof.
  unfold run_field_rule, MaxLengthRule, nonempty.
  cbn [should_skip validate arg_field_metadata arg_entity_id arg_row_index
       arg_csv_row_index arg_value arg_column_name arg_person_id_external].
  destruct (fm_max_length m) as [max_length|]; [| reflexivity].
  destruct (max_length <? slen value)%Z; [| reflexivity].
  destruct column_name as [c|]; [| reflexivity].
  now destruct (c =? "")%string.
Qed.

(** X15. The errors of a row validated with the field rules [not_null]
    and [max_length].  Each is a warning that a field has no metadata,
    or a [REQUIRED_VALUE_MISSING] or [MAX_LENGTH_EXCEEDED] of severity
    [ERROR] that carries the indices of the row, the identifier of the
    row (the stripped cell of the column [personInfo_person-id-external],
    when it is not blank) and an entity of the row; no rule execution
    failure is among them. *)
Theorem validate_row_errors_traceable
    (context : ValidationContext) (row : Transformer.TransformedRow)
    (err : ValidationError) :
  err ∈ _validate_row builtin_field_engine row context ->
  (err_code err = "MISSING_METADATA_FOR_FIELD"
   /\ err_severity err = WARNING)
  \/ ((err_code err = "REQUIRED_VALUE_MISSING"
       \/ err_code err = "MAX_LENGTH_EXCEEDED")
      /\ err_severity err = ERROR
      /\ err_row_index err = Some (Transformer.original_row_index row)
      /\ err_csv_row_index err = Some (Transformer.csv_row_index row)
      /\ err_person_id_external err = row_person_id_external context row
      /\ exists entity_id,
           err_entity_id err = Some entity_id
           /\ entity_id ∈ OD.keys (Transformer.data_by_entity row)).
Proof.
  unfold _validate_row. intros Herr.
  apply list_elem_of_In, in_flat_map in Herr as ([entity_id entity_data] & He & Herr).
  apply in_flat_map in Herr as ([field_id value] & Hf & Herr).
  assert (entity_id ∈ OD.keys (Transformer.data_by_entity row)) as Hkey.
  { unfold OD.keys. apply list_elem_of_In, in_map_iff.
    exists (entity_id, entity_data). split; [reflexivity | assumption]. }
  unfold validate_triple, _validate_field in Herr.
  destruct (resolved_metadata context entity_id _ _) as [m|].
  - right.
    change (_field_rules builtin_field_engine)
      with [NotNullRule; MaxLengthRule] in Herr.
    cbn [flat_map] in Herr. rewrite run_not_null, run_max_length in Herr.
    rewrite app_nil_r in Herr.
    apply in_app_or in Herr as [Herr | Herr].
    + destruct (fm_is_required m && _); [| contradiction].
      destruct Herr as [<- | []].
      split; [now left|]. repeat split. eauto.
    + destruct (fm_max_length m) as [max_length|]; [| contradiction].
      destruct (max_length <? slen value)%Z; [| contradiction].
      destruct Herr as [<- | []].
      split; [now right|]. repeat split. eauto.
  - left. destruct (startswith_any entity_id COUNTRY_PREFIXES);
      destruct Herr as [<- | []]; split; reflexivity.
Qed.

Lemma validate_row_errors_traceable_witness :
  exists err,
    err ∈ _validate_row builtin_field_engine first_name_row first_name_context
    /\ err_code err = "REQUIRED_VALUE_MISSING"
    /\ err_row_index err = Some 0%Z.
Proof.
  exists (required_value_missing 0 2 "personInfo" "name"
            "personInfo_first_name" None).
  assert (required_value_missing 0 2 "personInfo" "name"
            "personInfo_first_name" None
          ∈ _validate_row builtin_field_engine first_name_row
              first_name_context) as Hin
    by (vm_compute; left).
  split; [exact Hin|].
  destruct (validate_row_errors_traceable first_name_context first_name_row
              _ Hin) as [[Hc _] | (_ & _ & Hr & _)]; [discriminate|].
  split; [reflexivity | exact Hr].
Defined.

End BuiltinFieldRules.

(** ** Required columns *)

Section RequiredColumns.
Import PyStr Comparator Comparator.ComparatorErrors Comparator.Engine.
Import Comparator.Validators.

(** X16. The rule [required_columns], run on the context that
    [transform_csv_context] built, never raises, and reports a
    [REQUIRED_COLUMN_MISSING] for entity [e] and field [f] exactly when
    the metadata has an entity [e] that requires [f] and the header has
    no column of entity [e] and field [f]; it reports nothing else.  The
    errors come entity by entity, in the order of the metadata
    entities. *)
Theorem required_column_rule_reports
    (csv_context : CsvLoader.CsvContext) (context : ValidationContext)
    (args : RuleArgs) :
  Transformer.TransformationOrchestrator.transform_csv_context csv_context
  = (Some (transform_context context), None) ->
  exists errors,
    validate RequiredColumnRule context args = Returns errors
    /\ (forall err,
          err ∈ errors
          <-> exists (e f : string) (meta : EntityMetadata),
                (e, meta) ∈ mc_entities (metadata_context context)
                /\ f ∈ em_required_fields meta
                /\ ~ has_column context e f
                /\ err = required_column_missing e f None)
    /\ exists groups : list (list ValidationError),
         errors = concat groups
         /\ Forall2
              (fun entity group =>
                 forall err,
                   err ∈ group
                   <-> exists f : string,
                         f ∈ em_required_fields (snd entity)
                         /\ ~ has_column context (fst entity) f
                         /\ err = required_column_missing (fst entity) f None)
              (mc_entities (metadata_context context)) groups.
Proof.
  intros Hctx.
  apply transform_csv_context_Some in Hctx as (_ & Hents & _ & _).
  pose proof (map_columns_from_spec
                (Transformer.parsed_columns (transform_context context)))
    as (_ & _ & H3).
  rewrite <- Hents in H3.
  assert (forall e f,
             has_column context e f
             <-> match OD.get (Transformer.entities (transform_context context)) e with
                 | Some te =>
                     existsb (fun col => (Transformer.field_id col =? f)%string)
                       (Transformer.columns te) = true
                 | None => False
                 end) as Hcol.
  { intros e f. rewrite H3. unfold has_column.
    destruct (has_entity _ e) eqn:Hhas.
    - rewrite entity_of_columns, existsb_exists. split.
      + intros (c & Hin & He & Hf). exists c. split.
        * apply list_elem_of_In, list_elem_of_filter. split; assumption.
        * now apply String.eqb_eq.
      + intros (c & Hin & Hf).
        apply list_elem_of_In, list_elem_of_filter in Hin as [He Hin].
        apply String.eqb_eq in Hf. exists c. repeat split; assumption.
    - split; [| contradiction]. intros (c & Hin & He & _).
      apply not_true_iff_false in Hhas. apply Hhas.
      apply has_entity_spec. now exists c. }
  set (entity_errors :=
         fun entity : string * EntityMetadata =>
           let '(meta_entity_id, meta_entity) := entity in
           match OD.get (Transformer.entities (transform_context context))
                   meta_entity_id with
           | None =>
               map (fun field_id =>
                      required_column_missing meta_entity_id field_id None)
                 (elements (em_required_fields meta_entity))
           | Some transform_entity =>
               flat_map
                 (fun field_id =>
                    if negb (existsb
                               (fun col =>
                                  (Transformer.field_id col =? field_id)%string)
                               (Transformer.columns transform_entity))
                    then [required_column_missing meta_entity_id field_id None]
                    else [])
                 (elements (em_required_fields meta_entity))
           end).
  assert (forall e meta err,
             err ∈ entity_errors (e, meta)
             <-> exists f : string,
                   f ∈ em_required_fields meta
                   /\ ~ has_column context e f
                   /\ err = required_column_missing e f None) as Hgroup.
  { intros e meta err. subst entity_errors. cbv beta iota.
    specialize (Hcol e).
    destruct (OD.get (Transformer.entities (transform_context context)) e)
      as [te|].
    - rewrite list_elem_of_In, in_flat_map. split.
      + intros (f & Hf & Herr).
        apply list_elem_of_In, elem_of_elements in Hf.
        destruct (existsb _ (Transformer.columns te)) eqn:Ex; cbn in Herr;
          [contradiction|].
        destruct Herr as [<- | []]. exists f.
        repeat split; try assumption. rewrite Hcol, Ex. discriminate.
      + intros (f & Hf & Hno & ->). exists f.
        split; [now apply list_elem_of_In, elem_of_elements|].
        rewrite Hcol in Hno.
        destruct (existsb _ (Transformer.columns te)); [contradiction | now left].
    - rewrite list_elem_of_In, in_map_iff. split.
      + intros (f & <- & Hf).
        apply list_elem_of_In, elem_of_elements in Hf.
        exists f. repeat split; try assumption. now rewrite Hcol.
      + intros (f & Hf & _ & ->). exists f.
        split; [reflexivity | now apply list_elem_of_In, elem_of_elements]. }
  exists (flat_map entity_errors (mc_entities (metadata_context context))).
  split; [reflexivity|]. split.
  - intros err. rewrite list_elem_of_In, in_flat_map. split.
    + intros ([e meta] & Hin & Herr).
      apply list_elem_of_In, Hgroup in Herr as (f & Hf & Hno & ->).
      exists e, f, meta. repeat split; try assumption.
      now apply list_elem_of_In.
    + intros (e & f & meta & Hmeta & Hf & Hno & ->).
      exists (e, meta). split; [now apply list_elem_of_In|].
      apply list_elem_of_In, Hgroup. now exists f.
  - exists (map entity_errors (mc_entities (metadata_context context))).
    split; [apply flat_map_concat_map|].
    induction (mc_entities (metadata_context context)) as [|[e meta] l IH];
      cbn [map]; constructor; [| exact IH].
    intros err. cbn [fst snd]. apply Hgroup.
Qed.

Lemma required_column_rule_reports_witness :
  exists errors,
    validate RequiredColumnRule first_name_context no_args = Returns errors
    /\ (required_column_missing "personInfo" "name" None ∈ errors
        <-> exists (e f : string) (meta : EntityMetadata),
              (e, meta) ∈ mc_entities (metadata_context first_name_context)
              /\ f ∈ em_required_fields meta
              /\ ~ has_column first_name_context e f
              /\ required_column_missing "personInfo" "name" None
                 = required_column_missing e f None).
Proof.
  destruct (required_column_rule_reports
              (CsvLoader.mkCsvContext "utf-8"
                 (CsvLoader.mkCsvDialectInfo "," "'" None true false)
                 ["personInfo_first_name"] 1 [] true 2)
              first_name_context no_args ltac:(vm_compute; reflexivity))
    as (errors & H1 & H2 & _).
  exists errors. split; [exact H1 | apply H2].
Defined.

End RequiredColumns.

(** ** Rule registry *)

Section Registry.
Import PyStr Comparator Comparator.RuleRegistry.

Lemma set_new {K V} `{EqDecision K} (d : list (K * V)) (k : K) (v : V) :
  OD.mem d k = false -> OD.set d k v = (d ++ [(k, v)])%list.
Proof.
  unfold OD.mem. induction d as [|[k' v'] d IH]; cbn; [reflexivity|].
  destruct (decide (k' = k)); [discriminate|]. intros H. now rewrite IH.
Qed.

Lemma get_enabled_rules_app (l1 l2 : list Registered) (wanted : ValidationScope) :
  get_enabled_rules (l1 ++ l2)%list wanted
  = (get_enabled_rules l1 wanted ++ get_enabled_rules l2 wanted)%list.
Proof. unfold get_enabled_rules. now rewrite filter_app, map_app. Qed.

(** X17. [register_rule] refuses an id that is already registered, by
    raising, and otherwise appends the rule, enabled, after the rules
    registered before: the rule is then found under its id, the other
    ids answer as before, and the enabled rules of each scope are those
    of before followed by the new rule when it has that scope. *)
Theorem register_rule_appends (self : registry) (rule_id : string)
    (rule : BaseRule) :
  match register_rule self rule_id rule with
  | Raises exc => exc = "ValueError" /\ get_rule self rule_id <> None
  | Returns self' =>
      get_rule self rule_id = None
      /\ self' = (self ++ [(rule_id, mkRegistered rule true)])%list
      /\ get_rule self' rule_id = Some rule
      /\ (forall other, other <> rule_id ->
                        get_rule self' other = get_rule self other)
      /\ (forall wanted,
            get_enabled_rules (instances self') wanted
            = (get_enabled_rules (instances self) wanted
               ++ if scope_eqb (scope rule) wanted then [rule] else [])%list)
  end.
Proof.
  unfold register_rule, get_rule.
  destruct (OD.mem self rule_id) eqn:Hmem.
  - split; [reflexivity|]. unfold OD.mem in Hmem.
    now destruct (OD.get self rule_id).
  - assert (OD.get self rule_id = None) as Hget
      by (unfold OD.mem in Hmem; now destruct (OD.get self rule_id)).
    rewrite Hget. split; [reflexivity|].
    split; [now apply set_new|]. rewrite get_set_eq.
    split; [reflexivity|]. split.
    + intros other Hne. now rewrite get_set_ne by congruence.
    + intros wanted. rewrite set_new by assumption.
      unfold instances. rewrite map_app, get_enabled_rules_app. f_equal.
      unfold get_enabled_rules. cbn [map snd]. rewrite filter_cons, filter_nil.
      cbn [enabled instance andb].
      destruct (scope_eqb (scope rule) wanted);
        [now rewrite decide_True | now rewrite decide_False].
Qed.

Lemma filter_all {A} (P : A -> Prop) `{forall x, Decision (P x)} (l : list A) :
  Forall P l -> filter P l = l.
Proof.
  induction l as [|x l IH]; intros Hl; [reflexivity|].
  apply Forall_cons in Hl as [Hx Hl].
  rewrite filter_cons, decide_True by assumption. now rewrite IH.
Qed.

Lemma set_existing_without {V} (d : list (string * V)) (k : string) (v : V) :
  NoDup (OD.keys d) -> OD.mem d k = true ->
  exists d1 v0 d2,
    d = (d1 ++ (k, v0) :: d2)%list
    /\ OD.set d k v = (d1 ++ (k, v) :: d2)%list
    /\ filter (fun kv => fst kv <> k) d = (d1 ++ d2)%list.
Proof.
  unfold OD.keys, OD.mem. induction d as [|[k' v'] d IH];
    [cbn; discriminate|].
  intros Hnd Hmem. cbn [map fst] in Hnd.
  apply NoDup_cons in Hnd as [Hk Hnd].
  cbn [OD.get OD.set] in *. rewrite filter_cons. cbn [fst].
  destruct (decide (k' = k)) as [-> | Hne].
  - exists [], v', d. cbn [app]. split; [reflexivity|]. split; [reflexivity|].
    rewrite decide_False by (intros H; now apply H).
    apply filter_all. apply Forall_forall. intros [a b] Hin. cbn. intros ->.
    apply Hk. apply list_elem_of_In, in_map_iff. exists (k, b).
    split; [reflexivity | now apply list_elem_of_In].
  - destruct (IH Hnd Hmem) as (d1 & v0 & d2 & E1 & E2 & E3).
    exists ((k', v') :: d1), v0, d2. cbn [app].
    rewrite E2, E3, decide_True by assumption.
    split; [now rewrite E1 at 1|]. split; reflexivity.
Qed.

(** X18. [configure_rule] with an [enabled] flag.  It raises for an id
    that is not registered.  Otherwise it keeps the ids and their order
    and the rule found under every id, and changes only the flag of the
    configured rule; after disabling a rule, the enabled rules of every
    scope are those the registry would have without that rule. *)
Theorem configure_rule_toggles (self : registry) (rule_id : string) (b : bool) :
  NoDup (OD.keys self) ->
  match configure_rule self rule_id (Some b) with
  | Raises exc => exc = "ValueError" /\ get_rule self rule_id = None
  | Returns self' =>
      get_rule self rule_id <> None
      /\ OD.keys self' = OD.keys self
      /\ (forall id, get_rule self' id = get_rule self id)
      /\ (forall id,
            enabled <$> OD.get self' id
            = if decide (id = rule_id) then Some b
              else enabled <$> OD.get self id)
      /\ (b = false ->
          forall wanted,
            get_enabled_rules (instances self') wanted
            = get_enabled_rules
                (instances (filter (fun kv => fst kv <> rule_id) self)) wanted)
  end.
Proof.
  intros Hnd. unfold configure_rule, get_rule.
  destruct (OD.get self rule_id) as [r|] eqn:Hget; [| split; reflexivity].
  assert (OD.mem self rule_id = true) as Hmem by (unfold OD.mem; now rewrite Hget).
  split; [discriminate|]. split; [now apply keys_set_mem|]. split; [| split].
  - intros id. rewrite get_set.
    destruct (decide (rule_id = id)) as [<- | Hne]; [now rewrite Hget | reflexivity].
  - intros id. rewrite get_set.
    destruct (decide (rule_id = id)) as [<- | Hne].
    + now rewrite decide_True.
    + now rewrite decide_False by congruence.
  - intros -> wanted.
    destruct (set_existing_without self rule_id
                (mkRegistered (instance r) false) Hnd Hmem)
      as (d1 & v0 & d2 & _ & E2 & E3).
    unfold registry in *. rewrite E2, E3.
    unfold instances. rewrite !map_app. cbn [map snd].
    rewrite !get_enabled_rules_app. reflexivity.
Qed.

Lemma configure_rule_toggles_witness :
  let self :=
    [("not_null", mkRegistered Validators.NotNullRule true);
     ("max_length", mkRegistered Validators.MaxLengthRule true)] in
  match configure_rule self "not_null" (Some false) with
  | Raises exc => exc = "ValueError" /\ get_rule self "not_null" = None
  | Returns self' =>
      get_rule self "not_null" <> None
      /\ OD.keys self' = OD.keys self
      /\ (forall id, get_rule self' id = get_rule self id)
      /\ (forall id,
            enabled <$> OD.get self' id
            = if decide (id = "not_null") then Some false
              else enabled <$> OD.get self id)
      /\ (false = false ->
          forall wanted,
            get_enabled_rules (instances self') wanted
            = get_enabled_rules
                (instances (filter (fun kv => fst kv <> "not_null") self))
                wanted)
  end.
Proof.
  intros self. apply (configure_rule_toggles self "not_null" false).
  subst self. repeat constructor; [| intros H; now apply elem_of_nil in H].
  intros H. apply list_elem_of_singleton in H. discriminate.
Defined.

End Registry.

(** ** Column names of the reported errors *)

Section ColumnNames.
Import PyStr Comparator Comparator.Engine.
Import Transformer Transformer.TransformationOrchestrator.

(** X19. Over a transformation context built by
    [transform_csv_context], the column name the engine reports for a
    field of an entity is the header name of the last parsed column with
    that element id and field id, and there is none when no column has
    them. *)
Theorem get_column_name_of_context
    (csv_context : CsvLoader.CsvContext) (context : ValidationContext)
    (entity_id field_id : string) :
  transform_csv_context csv_context
  = (Some (transform_context context), None) ->
  _get_column_name context entity_id field_id
  = original_name <$>
      last (filter (fun column =>
                      element_id column = entity_id
                      /\ Transformer.field_id column = field_id)
              (parsed_columns (transform_context context))).
Proof.
  intros Hctx.
  apply transform_csv_context_Some in Hctx as (_ & He & _ & _).
  pose proof (map_columns_from_spec
                (parsed_columns (transform_context context)))
    as (_ & _ & H3).
  rewrite <- He in H3.
  unfold _get_column_name. rewrite H3.
  destruct (has_entity _ entity_id) eqn:Hhas.
  - now rewrite entity_of_field_mapping.
  - replace (filter _ _) with (@nil ParsedColumn); [reflexivity|].
    symmetry. apply elem_of_nil_inv. intros column Hin.
    apply list_elem_of_filter in Hin as [[Hin _] Hcol].
    assert (has_entity (parsed_columns (transform_context context))
              entity_id = true) as Habs
      by (apply has_entity_spec; exists column; split; assumption).
    rewrite Hhas in Habs. discriminate.
Qed.

Lemma get_column_name_of_context_witness :
  _get_column_name first_name_context "personInfo" "first_name"
  = Some "personInfo_first_name"
  /\ _get_column_name first_name_context "personInfo" "name" = None.
Proof.
  split.
  - rewrite (get_column_name_of_context
               (CsvLoader.mkCsvContext "utf-8"
                  (CsvLoader.mkCsvDialectInfo "," "'" None true false)
                  ["personInfo_first_name"] 1 [] true 2)
               first_name_context "personInfo" "first_name"
               ltac:(vm_compute; reflexivity)).
    vm_compute. reflexivity.
  - rewrite (get_column_name_of_context
               (CsvLoader.mkCsvContext "utf-8"
                  (CsvLoader.mkCsvDialectInfo "," "'" None true false)
                  ["personInfo_first_name"] 1 [] true 2)
               first_name_context "personInfo" "name"
               ltac:(vm_compute; reflexivity)).
    vm_compute. reflexivity.
Defined.

End ColumnNames.

(** ** Metrics *)

Section Metrics.
Import PyStr Comparator Comparator.ComparatorErrors Reporting.
Import Reporting.ReportAggregator.

Lemma bump_fold {A} (key : A -> string) (l : list A) (k : string) :
  forall d : gmap string Z,
    fold_left (fun d x => bump d (key x)) l d !! k
    = match counted (filter (fun x => key x = k) l) with
      | None => d !! k
      | Some n => Some (default 0 (d !! k) + n)%Z
      end.
Proof.
  induction l as [|x l IH]; intros d; [reflexivity|].
  cbn [fold_left]. rewrite IH, filter_cons. unfold bump.
  destruct (decide (key x = k)) as [<- | Hne].
  - rewrite lookup_insert_eq. cbn [default].
    destruct (filter _ l) as [|y l'] eqn:E; cbn [counted].
    + apply (f_equal Some). unfold len, id. cbn [length]. lia.
    + apply (f_equal Some). unfold len, id. cbn [length]. lia.
  - now rewrite lookup_insert_ne.
Qed.

Lemma count_error_fold (errors : list ValidationError) :
  forall m : ValidationMetrics,
    let m' := fold_left count_error errors m in
    total_rows m' = total_rows m
    /\ total_batches m' = total_batches m
    /\ total_errors m'
       = (total_errors m + len (of_severity "ERROR" errors)
          + len (of_severity "FATAL" errors))%Z
    /\ total_warnings m'
       = (total_warnings m + len (of_severity "WARNING" errors))%Z
    /\ error_counts m'
       = fold_left (fun d e => bump d (err_code e)) errors (error_counts m)
    /\ severity_counts m'
       = fold_left (fun d e => bump d (severity_value (err_severity e))) errors
           (severity_counts m)
    /\ identificador_counts m'
       = fold_left (fun d _ => bump d "personInfo_person-id-external") errors
           (identificador_counts m).
Proof.
  induction errors as [|e errors IH]; intros m.
  - cbn. repeat split; unfold len; cbn; lia.
  - cbn [fold_left]. cbv zeta.
    destruct (IH (count_error m e)) as (I1 & I2 & I3 & I4 & I5 & I6 & I7).
    rewrite I1, I2, I3, I4, I5, I6, I7. clear IH I1 I2 I3 I4 I5 I6 I7.
    unfold of_severity. rewrite !filter_cons.
    unfold count_error; cbn [total_rows total_batches total_errors
      total_warnings error_counts severity_counts identificador_counts].
    repeat split.
    all: destruct (err_severity e); cbn; try reflexivity; unfold len;
      repeat match goal with
             | |- context [decide (?a = ?b)] =>
                 let Hd := fresh in
                 destruct (decide (a = b)) as [Hd | Hd];
                 [try discriminate Hd | try (exfalso; apply Hd; reflexivity)]
             end;
      cbn [length]; lia.
Qed.

Lemma batch_fold (batch_results : list BatchValidationResult) :
  forall m : ValidationMetrics,
    let m' :=
      fold_left
        (fun m batch_result =>
           mkValidationMetrics (total_rows m + processed_rows batch_result)%Z
             (total_batches m + 1)%Z (total_errors m) (total_warnings m)
             (error_counts m) (identificador_counts m) (severity_counts m))
        batch_results m in
    total_rows m'
    = (total_rows m + fold_right Z.add 0%Z (map processed_rows batch_results))%Z
    /\ total_batches m' = (total_batches m + len batch_results)%Z
    /\ total_errors m' = total_errors m
    /\ total_warnings m' = total_warnings m
    /\ error_counts m' = error_counts m
    /\ identificador_counts m' = identificador_counts m
    /\ severity_counts m' = severity_counts m.
Proof.
  induction batch_results as [|b bs IH]; intros m.
  - cbn. unfold len. cbn. repeat split; lia.
  - cbn [fold_left map fold_right]. cbv zeta.
    destruct (IH (mkValidationMetrics (total_rows m + processed_rows b)%Z
                    (total_batches m + 1)%Z (total_errors m) (total_warnings m)
                    (error_counts m) (identificador_counts m)
                    (severity_counts m)))
      as (I1 & I2 & I3 & I4 & I5 & I6 & I7).
    rewrite I1, I2, I3, I4, I5, I6, I7.
    cbn [total_rows total_batches total_errors total_warnings error_counts
         severity_counts identificador_counts].
    unfold len. cbn [length]. repeat split; lia.
Qed.

Lemma severity_partition (errors : list ValidationError) :
  (len (of_severity "ERROR" errors) + len (of_severity "FATAL" errors)
   + len (of_severity "WARNING" errors))%Z = len errors.
Proof.
  unfold of_severity, len.
  induction errors as [|e errors IH]; [reflexivity|].
  rewrite !filter_cons.
  destruct (err_severity e); cbn [severity_value];
    repeat match goal with
           | |- context [decide (?a = ?b)] =>
               let Hd := fresh in
               destruct (decide (a = b)) as [Hd | Hd];
               [try discriminate Hd | try (exfalso; apply Hd; reflexivity)]
           end;
    cbn [length]; lia.
Qed.

Lemma metrics_rows_batches (batch_results : list BatchValidationResult) :
  total_rows (_calculate_metrics batch_results)
  = fold_right Z.add 0%Z (map processed_rows batch_results)
  /\ total_batches (_calculate_metrics batch_results) = len batch_results.
Proof.
  unfold _calculate_metrics.
  destruct (count_error_fold (all_errors batch_results)
              (fold_left
                 (fun m batch_result =>
                    mkValidationMetrics
                      (total_rows m + processed_rows batch_result)%Z
                      (total_batches m + 1)%Z (total_errors m)
                      (total_warnings m) (error_counts m)
                      (identificador_counts m) (severity_counts m))
                 batch_results (mkValidationMetrics 0 0 0 0 ∅ ∅ ∅)))
    as (C1 & C2 & _).
  destruct (batch_fold batch_results (mkValidationMetrics 0 0 0 0 ∅ ∅ ∅))
    as (B1 & B2 & _).
  cbv zeta in *. rewrite C1, C2, B1, B2. cbn [total_rows total_batches].
  split; lia.
Qed.

(** X20. The totals of [_calculate_metrics]: it counts the batches, adds
    up the rows they processed, and counts every error exactly once,
    under [total_errors] when its severity is [ERROR] or [FATAL] and
    under [total_warnings] when it is [WARNING]. *)
Theorem calculate_metrics_totals (batch_results : list BatchValidationResult) :
  let m := _calculate_metrics batch_results in
  let errors := all_errors batch_results in
  total_batches m = len batch_results
  /\ total_rows m = fold_right Z.add 0%Z (map processed_rows batch_results)
  /\ total_errors m
     = (len (of_severity "ERROR" errors) + len (of_severity "FATAL" errors))%Z
  /\ total_warnings m = len (of_severity "WARNING" errors)
  /\ (total_errors m + total_warnings m)%Z = len errors.
Proof.
  intros m errors. subst m. unfold _calculate_metrics. fold errors.
  destruct (count_error_fold errors
              (fold_left
                 (fun m batch_result =>
                    mkValidationMetrics
                      (total_rows m + processed_rows batch_result)%Z
                      (total_batches m + 1)%Z (total_errors m)
                      (total_warnings m) (error_counts m)
                      (identificador_counts m) (severity_counts m))
                 batch_results (mkValidationMetrics 0 0 0 0 ∅ ∅ ∅)))
    as (C1 & C2 & C3 & C4 & _).
  destruct (batch_fold batch_results (mkValidationMetrics 0 0 0 0 ∅ ∅ ∅))
    as (B1 & B2 & B3 & B4 & _).
  cbv zeta in *. rewrite C1, C2, C3, C4, B1, B2, B3, B4.
  cbn [total_rows total_batches total_errors total_warnings].
  pose proof (severity_partition errors).
  repeat split; lia.
Qed.

(** X21. The counters of [_calculate_metrics]: [error_counts] holds, for
    each error code that occurs, the number of errors with that code;
    [severity_counts] holds, for each severity that occurs, the number
    of errors of that severity; and [identificador_counts] holds a
    single counter, for the key [personInfo_person-id-external], equal
    to the number of all errors. *)
Theorem calculate_metrics_counts
    (batch_results : list BatchValidationResult) (k : string) :
  let m := _calculate_metrics batch_results in
  let errors := all_errors batch_results in
  error_counts m !! k = counted (of_code k errors)
  /\ severity_counts m !! k = counted (of_severity k errors)
  /\ identificador_counts m !! k
     = if decide (k = "personInfo_person-id-external")
       then counted errors else None.
Proof.
  intros m errors. subst m. unfold _calculate_metrics. fold errors.
  destruct (count_error_fold errors
              (fold_left
                 (fun m batch_result =>
                    mkValidationMetrics
                      (total_rows m + processed_rows batch_result)%Z
                      (total_batches m + 1)%Z (total_errors m)
                      (total_warnings m) (error_counts m)
                      (identificador_counts m) (severity_counts m))
                 batch_results (mkValidationMetrics 0 0 0 0 ∅ ∅ ∅)))
    as (_ & _ & _ & _ & C5 & C6 & C7).
  destruct (batch_fold batch_results (mkValidationMetrics 0 0 0 0 ∅ ∅ ∅))
    as (_ & _ & _ & _ & B5 & B6 & B7).
  cbv zeta in *. rewrite C5, C6, C7, B5, B6, B7.
  cbn [error_counts severity_counts identificador_counts].
  rewrite !bump_fold, !lookup_empty. unfold of_code, of_severity.
  split; [| split].
  - destruct (counted _); [| reflexivity]. cbn. f_equal.
  - destruct (counted _); [| reflexivity]. cbn. f_equal.
  - destruct (decide (k = "personInfo_person-id-external")) as [-> | Hne].
    + assert (forall l : list ValidationError,
                 filter (fun _ : ValidationError =>
                           "personInfo_person-id-external"
                           = "personInfo_person-id-external") l = l) as ->.
      { induction l as [|e l IH]; [reflexivity|].
        rewrite filter_cons, decide_True by reflexivity. now rewrite IH. }
      destruct (counted errors); [| reflexivity]. cbn. f_equal.
    + assert (filter (fun _ : ValidationError =>
                        "personInfo_person-id-external" = k) errors = []) as ->.
      { apply elem_of_nil_inv. intros x Hx.
        apply list_elem_of_filter in Hx as [Hx _]. congruence. }
      reflexivity.
Qed.

End Metrics.

(** ** Detailed report *)

Section DetailedReports.
Import PyStr Comparator Comparator.ComparatorErrors Reporting.
Import Reporting.ReportAggregator.

Lemma analyse_entries (entries : list ReportEntry) (id : string) :
  OD.get (fold_left analyse_entry entries []) id
  = match entries_of id entries with
    | [] => None
    | mine => Some (analysis_of mine)
    end.
Proof.
  induction entries as [|e entries IH] using rev_ind; [reflexivity|].
  rewrite fold_left_app. cbn [fold_left]. unfold entries_of in *.
  rewrite filter_app, filter_cons, filter_nil.
  unfold analyse_entry at 1.
  destruct (truthy (identificador e)) as [id0|] eqn:Hid.
  - rewrite get_set. destruct (decide (id0 = id)) as [-> | Hne].
    + rewrite decide_True by reflexivity. rewrite IH.
      destruct (filter _ entries) as [|x l]; [reflexivity|].
      change ((x :: l) ++ [e])%list with (x :: (l ++ [e]))%list. cbv iota.
      change (x :: (l ++ [e]))%list with ((x :: l) ++ [e])%list.
      unfold analysis_of. rewrite fold_left_app. reflexivity.
    + rewrite decide_False by congruence. now rewrite app_nil_r.
  - rewrite decide_False by discriminate. now rewrite app_nil_r.
Qed.

Lemma bump_ordered_fold {A} (key : A -> option string) (l : list A) (k : string) :
  forall d : list (string * Z),
    OD.get (fold_left (fun d x => match key x with
                                  | Some f => bump_ordered d f
                                  | None => d
                                  end) l d) k
    = match counted (filter (fun x => key x = Some k) l) with
      | None => OD.get d k
      | Some n => Some (default 0 (OD.get d k) + n)%Z
      end.
Proof.
  induction l as [|x l IH]; intros d; [reflexivity|].
  cbn [fold_left]. rewrite IH, filter_cons.
  destruct (key x) as [f|].
  - unfold bump_ordered. rewrite get_set.
    destruct (decide (f = k)) as [-> | Hne].
    + rewrite decide_True by reflexivity. cbn [default].
      destruct (filter _ l) as [|y l'] eqn:E; cbn [counted];
        apply (f_equal Some); unfold len, id; cbn [length]; lia.
    + now rewrite decide_False by congruence.
  - now rewrite decide_False by discriminate.
Qed.

Lemma analysis_fold (entries : list ReportEntry) :
  forall a : IdentifierAnalysis,
    ia_total_errors (fold_left analysis_step entries a)
    = (ia_total_errors a + len (at_level "error" entries))%Z
    /\ ia_total_warnings (fold_left analysis_step entries a)
       = (ia_total_warnings a + len (at_level "warning" entries))%Z
    /\ ia_field_counts (fold_left analysis_step entries a)
       = fold_left (fun d e => match truthy (field_id e) with
                               | Some f => bump_ordered d f
                               | None => d
                               end) entries (ia_field_counts a)
    /\ ia_error_types (fold_left analysis_step entries a)
       = fold_left (fun d e => match Some (error_code e) with
                               | Some f => bump_ordered d f
                               | None => d
                               end) entries (ia_error_types a).
Proof.
  induction entries as [|e entries IH]; intros a.
  - unfold len. cbn. repeat split; lia.
  - cbn [fold_left]. destruct (IH (analysis_step a e)) as (I1 & I2 & I3 & I4).
    rewrite I1, I2, I3, I4. unfold at_level. rewrite !filter_cons.
    unfold analysis_step at 1 2.
    cbn [ia_total_errors ia_total_warnings ia_field_counts ia_error_types].
    repeat split.
    all: destruct (level e); cbn [level_value];
      repeat match goal with
             | |- context [decide (?a = ?b)] =>
                 let Hd := fresh in
                 destruct (decide (a = b)) as [Hd | Hd];
                 [try discriminate Hd | try (exfalso; apply Hd; reflexivity)]
             end;
      unfold len; cbn [length]; lia.
Qed.

(** X22. The analysis [generate_detailed_report] keeps per identifier.
    An identifier has an analysis exactly when some entry carries it;
    the analysis then counts the entries of that identifier at level
    [error] and at level [warning], and, among them, the entries per
    field id and per error code. *)
Theorem detailed_report_analysis
    (report : ValidationReport) (max_entries : Z) (id : string) :
  let mine := entries_of id (entries report) in
  match OD.get (identificador_analysis
                  (generate_detailed_report report max_entries)) id with
  | None => mine = []
  | Some a =>
      mine <> []
      /\ ia_total_errors a = len (at_level "error" mine)
      /\ ia_total_warnings a = len (at_level "warning" mine)
      /\ (forall f : string,
            OD.get (ia_field_counts a) f
            = counted (filter (fun e => truthy (field_id e) = Some f) mine))
      /\ (forall c : string,
            OD.get (ia_error_types a) c
            = counted (filter (fun e => error_code e = c) mine))
  end.
Proof.
  intros mine.
  assert (identificador_analysis (generate_detailed_report report max_entries)
          = fold_left analyse_entry (entries report) []) as ->.
  { unfold generate_detailed_report. now destruct (_ <? _)%Z. }
  rewrite analyse_entries. subst mine.
  remember (entries_of id (entries report)) as mine eqn:E.
  destruct mine as [|x l]; [reflexivity|].
  clear E. remember (x :: l) as mine eqn:E.
  split; [rewrite E; discriminate|]. clear E.
  unfold analysis_of.
  destruct (analysis_fold mine (mkIdentifierAnalysis 0 0 [] []))
    as (A1 & A2 & A3 & A4).
  rewrite A1, A2, A3, A4.
  cbn [ia_total_errors ia_total_warnings ia_field_counts ia_error_types].
  split; [lia|]. split; [lia|]. split.
  - intros f. rewrite bump_ordered_fold. cbn [OD.get default].
    destruct (counted _); [| reflexivity]. apply (f_equal Some). lia.
  - intros c. rewrite (bump_ordered_fold (fun e => Some (error_code e))).
    cbn [OD.get default].
    assert (filter (fun e => Some (error_code e) = Some c) mine
            = filter (fun e => error_code e = c) mine) as ->.
    { apply list_filter_iff. intros e. split; [now intros [= ->] | now intros ->]. }
    destruct (counted _); [| reflexivity]. apply (f_equal Some). lia.
Qed.

End DetailedReports.

(** ** A whole run *)

Section WholeRun.
Import PyStr CsvLoader CsvLoader.BatchReader Comparator Comparator.Engine.
Import Reporting Reporting.ReportAggregator.

Lemma imap_processed_rows (self : RuleEngine) (context : ValidationContext)
    (batches : list (list (list string))) :
  forall k : nat,
    map processed_rows
      (imap (fun j raw_batch =>
               validate_batch self
                 (Transformer.transformed_rows
                    (Transformer.TransformationOrchestrator._transform_batch
                       raw_batch (Z.of_nat (k + j))
                       (transform_context context)))
                 (Z.of_nat (k + j)) context) batches)
    = map len batches.
Proof.
  induction batches as [|b batches IH]; intros k; [reflexivity|].
  cbn [imap map]. f_equal.
  - unfold validate_batch. cbn [processed_rows].
    unfold Transformer.TransformationOrchestrator._transform_batch.
    cbn [Transformer.transformed_rows]. unfold len.
    now rewrite transform_batch_length.
  - rewrite <- (IH (S k)). f_equal. apply imap_ext. intros j x _. cbn.
    now rewrite Nat.add_succ_r.
Qed.

Lemma sum_len_concat {A} (chunks : list (list A)) :
  fold_right Z.add 0%Z (map len chunks) = len (concat chunks).
Proof.
  induction chunks as [|c chunks IH]; [reflexivity|].
  cbn [map fold_right concat]. rewrite IH. unfold len.
  rewrite length_app. lia.
Qed.

(** X23. A run over a file.  [validate_all_batches] returns one result
    per batch the reader yields, in order, numbered from 0, each having
    processed the rows of its batch; the errors of every result start
    with the errors of the global rules and of the entity rules, which
    are thus reported once per batch; and the report built from the
    results counts as [total_rows] the data rows of the file that are as
    wide as the header, and as [total_batches] the batches. *)
Theorem validate_all_batches_accounts
    (self : RuleEngine) (file : list (list string))
    (csv_context : CsvContext) (context : ValidationContext)
    (source_csv source_metadata : string) :
  let batches := fst (read_batches file csv_context) in
  let results := validate_all_batches self batches context in
  let report := create_report results source_csv source_metadata in
  length results = length batches
  /\ (forall (j : nat) (result : BatchValidationResult),
        results !! j = Some result ->
        Comparator.batch_index result = Z.of_nat j
        /\ exists batch row_errors,
             batches !! j = Some batch
             /\ processed_rows result = len batch
             /\ Comparator.batch_errors result
                = (_execute_global_rules self context
                   ++ _execute_entity_rules self context
                   ++ row_errors)%list)
  /\ total_rows (metrics report) = len (valid_rows file csv_context)
  /\ total_batches (metrics report) = len batches.
Proof.
  intros batches results report.
  split; [subst results; unfold validate_all_batches; apply length_imap|].
  split.
  - intros j result Hj. subst results. unfold validate_all_batches in Hj.
    rewrite list_lookup_imap in Hj.
    destruct (batches !! j) as [batch|] eqn:Hb; [| discriminate].
    cbn in Hj. inversion Hj; subst result; clear Hj.
    unfold validate_batch. cbn [Comparator.batch_index processed_rows
                                Comparator.batch_errors].
    split; [reflexivity|]. eexists batch, _.
    split; [reflexivity|]. split; [| reflexivity].
    unfold Transformer.TransformationOrchestrator._transform_batch.
    cbn [Transformer.transformed_rows]. unfold len.
    now rewrite transform_batch_length.
  - subst report. unfold create_report. cbn [metrics].
    destruct (metrics_rows_batches results) as [-> ->].
    subst results. unfold validate_all_batches. cbv zeta.
    pose proof (imap_processed_rows self context batches 0) as Hp.
    cbn [Nat.add] in Hp. rewrite Hp. clear Hp.
    rewrite sum_len_concat.
    split; [| unfold len; now rewrite length_imap].
    pose proof (read_rows_spec (total_columns csv_context)
                  (drop (Z.to_nat (data_start_index csv_context)) file)
                  (data_start_index csv_context) [] [] BATCH_SIZE_pos)
      as (H1 & _).
    fold (read_batches file csv_context) in H1. fold batches in H1.
    now rewrite H1.
Qed.

End WholeRun.

(** ** Metadata adapter: invariants *)

Section AdapterInvariants.
Import PyStr Comparator Comparator.MetadataAdapter.

Lemma Node_induction (P : Node -> Prop) :
  (forall node, Forall P (children node) -> P node) ->
  forall node, P node.
Proof.
  intros H. fix IH 1. intros [t i a ty cs]. apply H. cbn [children].
  revert cs. fix IHcs 1. intros [|c cs]; constructor; [apply IH | apply IHcs].
Qed.

Lemma entity_new_well_keyed e ics cc :
  entity_well_keyed e (EntityMetadata_new e ics cc).
Proof.
  unfold entity_well_keyed, EntityMetadata_new. cbn.
  split; [reflexivity|]. split; [| split].
  - intros f m H. now rewrite lookup_empty in H.
  - intros f H. now apply not_elem_of_empty in H.
  - intros f m H. now rewrite lookup_empty in H.
Qed.

Lemma add_field_well_keyed e em f m required :
  entity_well_keyed e em ->
  fm_field_id m = f -> fm_element_id m = e -> fm_is_required m = required ->
  entity_well_keyed e (add_field em f m required).
Proof.
  intros (H1 & H2 & H3 & H4) Hf He Hr. unfold entity_well_keyed, add_field.
  cbn [em_entity_id em_fields em_required_fields].
  split; [assumption|]. split; [| split].
  - intros f' m' H. apply lookup_insert_Some in H as [[<- <-] | [Hne H]];
      [split; assumption | now apply H2].
  - intros f' Hin.
    destruct (decide (f = f')) as [<- | Hne];
      [rewrite lookup_insert_eq; eauto|].
    rewrite lookup_insert_ne by assumption. apply H3.
    destruct required; [| assumption].
    apply elem_of_union in Hin as [Hin | Hin]; [| assumption].
    apply elem_of_singleton in Hin. congruence.
  - intros f' m' H Hreq.
    apply lookup_insert_Some in H as [[<- <-] | [Hne H]].
    + rewrite Hreq in Hr. subst required.
      apply elem_of_union. left. now apply elem_of_singleton.
    + specialize (H4 f' m' H Hreq).
      destruct required; [apply elem_of_union; now right | assumption].
Qed.

Lemma entities_insert_new (ents : list (string * EntityMetadata)) e ics cc :
  (forall k em, OD.get ents k = Some em -> entity_well_keyed k em) ->
  forall k em,
    OD.get (OD.set ents e (EntityMetadata_new e ics cc)) k = Some em ->
    entity_well_keyed k em.
Proof.
  intros H k em Hk. rewrite get_set in Hk.
  destruct (decide (e = k)) as [<- | _]; [| now apply H].
  injection Hk as <-. apply entity_new_well_keyed.
Qed.

Lemma entities_alter_add (ents : list (string * EntityMetadata)) e f m required :
  (forall k em, OD.get ents k = Some em -> entity_well_keyed k em) ->
  fm_field_id m = f -> fm_element_id m = e -> fm_is_required m = required ->
  forall k em,
    OD.get (update_entity ents e (fun x => add_field x f m required)) k
    = Some em ->
    entity_well_keyed k em.
Proof.
  intros H Hf He Hr k em Hk. rewrite get_update_entity in Hk.
  destruct (decide (e = k)) as [<- | _]; [| now apply H].
  destruct (OD.get ents e) as [x|] eqn:Hx; [| discriminate].
  injection Hk as <-.
  apply add_field_well_keyed; [now apply H | assumption..].
Qed.

Lemma update_entity_keys (ents : list (string * EntityMetadata)) e g :
  NoDup (OD.keys ents) -> NoDup (OD.keys (update_entity ents e g)).
Proof.
  intros H. unfold update_entity.
  destruct (OD.get ents e); [now apply keys_set_NoDup | assumption].
Qed.

Lemma index_insert (index : gmap string FieldMetadata) k m :
  (forall k' m', index !! k' = Some m' ->
                 fm_full_path m' = k'
                 /\ k' = fm_element_id m' ++ "_" ++ fm_field_id m') ->
  fm_full_path m = k -> k = fm_element_id m ++ "_" ++ fm_field_id m ->
  forall k' m', <[k := m]> index !! k' = Some m' ->
                fm_full_path m' = k'
                /\ k' = fm_element_id m' ++ "_" ++ fm_field_id m'.
Proof.
  intros H H1 H2 k' m' Hk.
  apply lookup_insert_Some in Hk as [[<- <-] | [_ Hk]];
    [split; assumption | now apply H].
Qed.

Lemma process_element_well_keyed node ctx parent_element :
  well_keyed ctx -> well_keyed (fst (process_element node ctx parent_element)).
Proof.
  intros (H1 & Hk & H2). unfold process_element.
  destruct (str_or _ _ =? "")%string; [exact (conj H1 (conj Hk H2))|].
  cbn [fst]. destruct (OD.get (mc_entities ctx) _); [exact (conj H1 (conj Hk H2))|].
  split; [exact H1|]. cbn [mc_entities set_entities].
  split; [now apply keys_set_NoDup | now apply entities_insert_new].
Qed.

Lemma process_other_element_well_keyed node ctx :
  well_keyed ctx -> well_keyed (fst (process_other_element node ctx)).
Proof.
  intros (H1 & Hk & H2). unfold process_other_element. cbn [fst].
  destruct (OD.get (mc_entities ctx) _); [exact (conj H1 (conj Hk H2))|].
  destruct (startswith_any _ _); [| exact (conj H1 (conj Hk H2))].
  split; [exact H1|]. cbn [mc_entities set_entities].
  split; [now apply keys_set_NoDup | now apply entities_insert_new].
Qed.

Lemma process_field_well_keyed node ctx parent_element :
  well_keyed ctx -> well_keyed (fst (process_field node ctx parent_element)).
Proof.
  intros (H1 & Hk & H2). unfold process_field.
  destruct parent_element as [parent|]; [| exact (conj H1 (conj Hk H2))].
  destruct (parent =? "")%string; [exact (conj H1 (conj Hk H2))|].
  destruct (str_or _ _ =? "")%string; [exact (conj H1 (conj Hk H2))|].
  set (field_id := str_or (technical_id node)
                     (default "" (raw_attributes node !! "id"))).
  destruct (OD.get (mc_entities ctx) parent) as [entity_meta|] eqn:Hp.
  - destruct (is_scoped entity_meta).
    + cbn [fst]. split; [| split]; cbn [field_by_full_path mc_entities].
      * apply index_insert;
          [apply index_insert; [exact H1 | reflexivity | reflexivity]
          | reflexivity |].
        cbn [fm_element_id fm_field_id]. now rewrite !append_assoc.
      * do 2 apply update_entity_keys.
        destruct (OD.get (mc_entities ctx)
                    (default "" (em_country_code entity_meta) ++ "_" ++ parent));
          [exact Hk | now apply keys_set_NoDup].
      * apply entities_alter_add; [| reflexivity..].
        apply entities_alter_add; [| reflexivity..].
        destruct (OD.get (mc_entities ctx)
                    (default "" (em_country_code entity_meta) ++ "_" ++ parent));
          [exact H2|].
        now apply entities_insert_new.
    + cbn [fst]. split; [| split]; cbn [field_by_full_path mc_entities].
      * apply index_insert; [exact H1 | reflexivity | reflexivity].
      * now apply update_entity_keys.
      * apply entities_alter_add; [exact H2 | reflexivity..].
  - cbn [fst]. split; [| split]; cbn [field_by_full_path mc_entities set_index].
    + apply index_insert; [exact H1 | reflexivity | reflexivity].
    + exact Hk.
    + exact H2.
Qed.

Lemma extract_well_keyed (node : Node) :
  forall ctx parent_element,
    well_keyed ctx ->
    well_keyed (fst (_extract_field_metadata node ctx parent_element)).
Proof.
  induction node as [node IH] using Node_induction.
  assert (forall st, well_keyed (fst st) ->
                     well_keyed (fst (fold_left walk (children node) st)))
    as Hwalk.
  { induction (children node) as [|c cs IHcs]; intros st Hst; [assumption|].
    apply Forall_cons in IH as [Hc Hcs]. cbn [fold_left].
    apply IHcs; [assumption|]. unfold walk. now apply Hc. }
  intros ctx parent_element Hctx. rewrite extract_unfold.
  destruct (contains "hris-element" _).
  { apply Hwalk. now apply process_element_well_keyed. }
  destruct (contains "hris-field" _).
  { now apply process_field_well_keyed. }
  destruct (_ && _).
  { apply Hwalk. now apply process_other_element_well_keyed. }
  now apply Hwalk.
Qed.

(** X24. The context [adapt_parsed_metadata] builds from any schema tree
    is well keyed: every entry of the full-path index is stored under
    the full path of its metadata, which is its element id and field id
    joined by an underscore; every entity is stored once and under its
    own id, every field of an entity under its field id and with that
    entity as its element; every required field id of an entity has
    metadata there, and every field whose metadata says required is
    among the required field ids. *)
Theorem adapt_parsed_metadata_well_keyed
    (structure : Node) (instance_id version : string) :
  well_keyed (adapt_parsed_metadata structure instance_id version).
Proof.
  unfold adapt_parsed_metadata. apply extract_well_keyed.
  split; [| split].
  - intros k m H. cbn in H. now rewrite lookup_empty in H.
  - apply NoDup_nil_2.
  - intros e em H. discriminate H.
Qed.

End AdapterInvariants.
